(** * Binance / CoinGecko EOD collector: embedding and verified properties

    Shallow embedding of [src/collector.py] (class [BinanceEODCollector]) and
    of [src/binance_eod_collector/crypto_collector_v2.py] (class
    [CryptoDataCollector]).

    Conventions of the embedding:
    - Python [str] is [string], the text in its UTF-8 encoding, on which
      equality, order, [endswith] and the slicing off of an ASCII suffix
      are those of Python; [dict] with string keys is [gmap string _];
      Python [set] is [gset string].
    - Library functions whose result the development does not define are
      fields of the worlds: the case mappings [str.upper] and [str.lower],
      the date conversion of pandas and [datetime.fromtimestamp]. The
      theorems hold for whatever these functions are.
    - A pandas DataFrame is the list of its rows, in index order, with the
      default positional index (every caller in the repository builds its
      frames with [ignore_index=True] or from a plain list).
    - The network, the clock and the disk are explicit: a [world] of oracles
      that answer each effect of a run from its position in the run, a log
      of the effects performed so far, and a disk mapping paths to file
      contents.
    - Logging calls have no effect on results and are left out. *)

From Stdlib Require Import ZArith QArith List Bool Ascii String Lia Sorted Permutation.
From stdpp Require Import gmap strings list fin_maps sorting pretty.

(* ===================================================================== *)
(** ** Python string primitives *)
(* ===================================================================== *)

Module Py.

(** [s.endswith(q)] *)
Definition endswith (s q : string) : bool :=
  let n := String.length s in
  let m := String.length q in
  (m <=? n)%nat && String.eqb (substring (n - m) m s) q.

(** [s[:-k]] for a suffix length [k]; Python reads [s[:-0]] as [s[:0]]. *)
Definition slice_to_neg (s : string) (k : nat) : string :=
  match k with
  | O => EmptyString
  | _ => substring 0 (String.length s - k) s
  end.

(** Truthiness of a string: [if base:]. *)
Definition truthy (s : string) : bool :=
  match s with
  | EmptyString => false
  | String _ _ => true
  end.

(** [str.upper] and [str.lower] follow the Unicode case mapping, which
    this development does not define: the collectors take them from
    their worlds. The two functions below are the ASCII part of that
    mapping, to which [str.upper] and [str.lower] reduce on text of ASCII
    characters; the example worlds use them, on such text only. *)
Definition ascii_upper_char (c : ascii) : ascii :=
  let n := nat_of_ascii c in
  if ((97 <=? n) && (n <=? 122))%nat then ascii_of_nat (n - 32) else c.

Fixpoint ascii_upper (s : string) : string :=
  match s with
  | EmptyString => EmptyString
  | String c s' => String (ascii_upper_char c) (ascii_upper s')
  end.

Definition ascii_lower_char (c : ascii) : ascii :=
  let n := nat_of_ascii c in
  if ((65 <=? n) && (n <=? 90))%nat then ascii_of_nat (n + 32) else c.

Fixpoint ascii_lower (s : string) : string :=
  match s with
  | EmptyString => EmptyString
  | String c s' => String (ascii_lower_char c) (ascii_lower s')
  end.

(** [range(start, stop, step)] for a positive step; [fuel] bounds the
    number of elements, [stop - start] always suffices. *)
Fixpoint range_from (fuel start stop step : nat) : list nat :=
  match fuel with
  | O => []
  | S fuel' =>
      if (start <? stop)%nat
      then start :: range_from fuel' (start + step) stop step
      else []
  end.

Definition range (start stop step : nat) : list nat :=
  range_from (stop - start) start stop step.

(** [l[i:j]] for [0 <= i <= j]. *)
Definition slice {A : Type} (l : list A) (i j : nat) : list A :=
  take (j - i) (drop i l).

(** A [dict] whose iteration order matters: the key/value pairs in
    insertion order. [d[k] = v] overwrites in place or appends. *)
Fixpoint dict_set {V : Type} (d : list (string * V)) (k : string) (v : V)
  : list (string * V) :=
  match d with
  | [] => [(k, v)]
  | (k', v') :: rest =>
      if String.eqb k k' then (k, v) :: rest else (k', v') :: dict_set rest k v
  end.

Fixpoint dict_get {V : Type} (d : list (string * V)) (k : string) : option V :=
  match d with
  | [] => None
  | (k', v') :: rest => if String.eqb k k' then Some v' else dict_get rest k
  end.

(** [os.path.join(directory, name)] on POSIX paths. *)
Definition path_join (directory name : string) : string :=
  match name with
  | String "/" _ => name
  | _ =>
      if truthy directory && negb (endswith directory "/")
      then directory +:+ "/" +:+ name
      else directory +:+ name
  end.

(** A Python [float]. The values are carried from the providers to the
    CSV file; the only arithmetic on them is the rate limiter's, on clock
    readings. They are represented exactly, as rationals. *)
Definition float : Type := Q.

Definition digit_of (c : ascii) : option Z :=
  let n := nat_of_ascii c in
  if ((48 <=? n) && (n <=? 57))%nat then Some (Z.of_nat (n - 48)) else None.

(** Reads a maximal run of decimal digits: the number read so far, how
    many digits were read, and the rest of the text. *)
Fixpoint read_digits (s : string) (acc : Z) (count : nat) : Z * nat * string :=
  match s with
  | EmptyString => (acc, count, s)
  | String c s' =>
      match digit_of c with
      | Some d => read_digits s' (10 * acc + d)%Z (S count)
      | None => (acc, count, s)
      end
  end.

(** A cell conversion for the examples. The collectors take [float(text)]
    as a parameter, [to_float]; this instance of it reads plain decimal
    literals, [[+-]digits[.digits]] with at least one digit, which is how
    the exchange transmits prices and volumes, and answers [None] on any
    other text. It is [float(text)] on the literals, and on the other
    text the examples use, which [float] rejects with [ValueError]; it
    does not follow [float] on exponents, blanks, underscores, [nan] or
    [inf], and no example uses such text. *)
Definition float_of_decimal (text : string) : option float :=
  let '(negative, body) :=
    match text with
    | String "-" rest => (true, rest)
    | String "+" rest => (false, rest)
    | _ => (false, text)
    end in
  let '(int_part, int_digits, after_int) := read_digits body 0%Z 0%nat in
  let '(frac_part, frac_digits, after_frac) :=
    match after_int with
    | String "." rest => read_digits rest 0%Z 0%nat
    | _ => (0%Z, 0%nat, after_int)
    end in
  match after_frac with
  | EmptyString =>
      if (int_digits + frac_digits =? 0)%nat then None
      else
        let scale := (10 ^ Z.of_nat frac_digits)%Z in
        let magnitude := Qmake (int_part * scale + frac_part) (Z.to_pos scale) in
        Some (if negative then Qopp magnitude else magnitude)
  | String _ _ => None
  end.

End Py.

(* ===================================================================== *)
(** ** pandas primitives on frames (lists of rows) *)
(* ===================================================================== *)

Module Pandas.

Section Frame.
Context {Row K : Type} `{EqDecision K}.
Variable key : Row -> K.

(** [df.drop_duplicates(subset=key, keep='last')]: a row stays when no
    later row carries its key; the survivors keep their order. *)
Fixpoint drop_duplicates_last (rows : list Row) : list Row :=
  match rows with
  | [] => []
  | r :: rest =>
      if bool_decide (key r ∈ map key rest)
      then drop_duplicates_last rest
      else r :: drop_duplicates_last rest
  end.

(** Specification of [keep='last']: the last row of a frame that carries
    the key [k], if any. *)
Fixpoint last_with_key (k : K) (rows : list Row) : option Row :=
  match rows with
  | [] => None
  | r :: rest =>
      match last_with_key k rest with
      | Some x => Some x
      | None => if bool_decide (key r = k) then Some r else None
      end
  end.

Variable le : Row -> Row -> bool.

Fixpoint insert_sorted (r : Row) (rows : list Row) : list Row :=
  match rows with
  | [] => [r]
  | x :: rest => if le r x then r :: rows else x :: insert_sorted r rest
  end.

(** [df.sort_values(columns)]: a stable sort by the order [le]. *)
Fixpoint sort_values (rows : list Row) : list Row :=
  match rows with
  | [] => []
  | r :: rest => insert_sorted r (sort_values rest)
  end.
End Frame.

(** [series.unique()]: the distinct values in order of first appearance. *)
Fixpoint unique (l : list string) : list string :=
  match l with
  | [] => []
  | x :: rest => x :: List.filter (fun y => negb (String.eqb x y)) (unique rest)
  end.

End Pandas.

(* ===================================================================== *)
(** ** A state monad for code that threads [self] and the outside world *)
(* ===================================================================== *)

Module StateM.

Definition M (S A : Type) : Type := S -> A * S.

Definition ret {S A : Type} (a : A) : M S A := fun s => (a, s).

Definition bind {S A B : Type} (c : M S A) (k : A -> M S B) : M S B :=
  fun s => let '(a, s') := c s in k a s'.

Definition get {S : Type} : M S S := fun s => (s, s).

Definition put {S : Type} (s : S) : M S unit := fun _ => (tt, s).

End StateM.

Declare Scope monad_scope.
Delimit Scope monad_scope with monad.
Notation "'let*' x ':=' c 'in' k" := (StateM.bind c (fun x => k))
  (at level 10, x pattern, c at level 100, k at level 200) : monad_scope.

(* ===================================================================== *)
(** ** [collector.py]: class [BinanceEODCollector] *)
(* ===================================================================== *)

Module Collector.

(** The list literal of [extract_base_symbol], in source order. *)
Definition quote_assets : list string :=
  ["USDT"; "BUSD"; "USDC"; "BTC"; "ETH"; "BNB"; "TRX";
   "XRP"; "TUSD"; "PAX"; "EUR"; "GBP"; "AUD"; "TRY"].

(** The [for quote in quote_assets] loop: the first quote that is a suffix
    and leaves a non-empty base returns; a match with an empty base falls
    through to the next quote. *)
Fixpoint extract_loop (binance_symbol : string) (quotes : list string)
  : option string :=
  match quotes with
  | [] => None
  | quote :: rest =>
      if Py.endswith binance_symbol quote then
        let base := Py.slice_to_neg binance_symbol (String.length quote) in
        if Py.truthy base then Some base
        else extract_loop binance_symbol rest
      else extract_loop binance_symbol rest
  end.

(** [extract_base_symbol(binance_symbol)]; [None] is Python's [None]. *)
Definition extract_base_symbol (binance_symbol : string) : option string :=
  extract_loop binance_symbol quote_assets.

(** *** Data *)

(** One row of the OHLCV frame built by [get_historical_klines] and
    [get_current_day_ticker]. [date] is a [datetime.date], counted in days
    since 1970-01-01. *)
Record bar := {
  date : Z;
  open : Py.float;
  high : Py.float;
  low : Py.float;
  close : Py.float;
  volume : Py.float;
  quote_volume : Py.float;
  trades : Z;
  symbol : string
}.

(** The value stored per id in [market_data]; a field the provider left
    out or sent as [null] is [None]. *)
Record market_record := {
  market_cap : option Py.float;
  circulating_supply : option Py.float;
  total_supply : option Py.float;
  max_supply : option Py.float
}.

(** A row of the enriched frame: the bar and the four added columns. *)
Record row := {
  row_bar : bar;
  row_market : market_record
}.

(** An entry of the provider's [/coins/list] response. *)
Record coin := {
  coin_id : string;
  coin_symbol : string;
  coin_name : string
}.

(** An entry of the provider's [/coins/markets] response. *)
Record market_coin := {
  mc_id : string;
  mc_record : market_record
}.

(** One candle of the exchange's historical-klines response; the numeric
    fields arrive as text. *)
Record kline := {
  k_timestamp : Z;
  k_open : string;
  k_high : string;
  k_low : string;
  k_close : string;
  k_volume : string;
  k_close_time : Z;
  k_quote_volume : string;
  k_trades : Z;
  k_taker_buy_base : string;
  k_taker_buy_quote : string;
  k_ignore : string
}.

(** What [self.client.get_historical_klines] does: return candles, raise
    [BinanceAPIException], or raise something else. *)
Inductive klines_result :=
| KlinesOk (klines : list kline)
| KlinesApiError
| KlinesOtherError.

(** *** The outside world and [self] *)

(** Effects, in the order they happen. A response of [None] stands for a
    [requests.exceptions.RequestException] (network failure or non-2xx
    status through [raise_for_status]). *)
Inductive event :=
| EvNow
| EvCoinsList (response : option (list coin))
| EvCoinsMarkets (ids : list string) (response : option (list market_coin))
| EvKlines (symbol : string) (days : Z)
| EvSleep (seconds : Z).

(** The outside world: what the clock and the two services answer to the
    effect number [t] of a run, and the two library functions the
    development leaves open. Clock readings are [datetime.now()] in
    microseconds since 1970-01-01 00:00 of the local calendar.
    [str_upper] is [str.upper]. [to_date] is what
    [pd.to_datetime(t, unit='ms')] followed by [.dt.date] makes of one
    open time: the calendar day, counted from 1970-01-01, or [None] when
    the conversion raises. *)
Record world := {
  clock : nat -> Z;
  coins_list : nat -> option (list coin);
  coins_markets : nat -> list string -> option (list market_coin);
  historical_klines : nat -> string -> Z -> klines_result;
  str_upper : string -> string;
  to_date : Z -> option Z
}.

(** The fields of [self] that change, and the log of effects so far. *)
Record collector := {
  coingecko_map : option (gmap string string);
  coingecko_map_timestamp : option Z;
  log : list event
}.

(** [BinanceEODCollector(...)] right after [__init__]. *)
Definition init : collector :=
  {| coingecko_map := None; coingecko_map_timestamp := None; log := [] |}.

Import StateM.
Local Open Scope monad_scope.

Definition emit (e : event) : M collector unit :=
  fun self => (tt, {| coingecko_map := coingecko_map self;
                      coingecko_map_timestamp := coingecko_map_timestamp self;
                      log := log self ++ [e] |}).

Definition tick : M collector nat := fun self => (length (log self), self).

(** [datetime.now()] *)
Definition datetime_now (w : world) : M collector Z :=
  let* t := tick in
  let* _ := emit EvNow in
  ret (clock w t).

(** [requests.get(f"{COINGECKO_BASE_URL}/coins/list")] with
    [raise_for_status] and [json]. *)
Definition request_coins_list (w : world) : M collector (option (list coin)) :=
  let* t := tick in
  let response := coins_list w t in
  let* _ := emit (EvCoinsList response) in
  ret response.

(** [requests.get(f"{COINGECKO_BASE_URL}/coins/markets", params)] for one
    batch; the [ids] parameter is the comma-joined batch. *)
Definition request_coins_markets (w : world) (batch : list string)
  : M collector (option (list market_coin)) :=
  let* t := tick in
  let response := coins_markets w t batch in
  let* _ := emit (EvCoinsMarkets batch response) in
  ret response.

(** [time.sleep(seconds)] *)
Definition sleep (seconds : Z) : M collector unit := emit (EvSleep seconds).

Definition set_coingecko_cache (m : gmap string string) (stamp : Z)
  : M collector unit :=
  fun self => (tt, {| coingecko_map := Some m;
                      coingecko_map_timestamp := Some stamp;
                      log := log self |}).

(** *** [get_coingecko_coins_list] *)

(** The loop that builds [symbol_map]: the first coin seen for an
    upper-cased symbol stays. *)
Definition build_symbol_map (upper : string -> string) (coins : list coin)
  : gmap string string :=
  foldl (fun symbol_map c =>
           let symbol := upper (coin_symbol c) in
           match symbol_map !! symbol with
           | Some _ => symbol_map
           | None => <[symbol := coin_id c]> symbol_map
           end) ∅ coins.

Definition one_day_us : Z := 86400 * 1000000.

Definition fetch_coins_list (w : world) : M collector (gmap string string) :=
  let* response := request_coins_list w in
  match response with
  | Some coins =>
      let symbol_map := build_symbol_map (str_upper w) coins in
      let* stamp := datetime_now w in
      let* _ := set_coingecko_cache symbol_map stamp in
      ret symbol_map
  | None => ret ∅
  end.

Definition get_coingecko_coins_list (w : world) : M collector (gmap string string) :=
  let* self := get in
  match coingecko_map self, coingecko_map_timestamp self with
  | Some cached, Some stamp =>
      let* now := datetime_now w in
      if (now - stamp <? one_day_us)%Z then ret cached
      else fetch_coins_list w
  | _, _ => fetch_coins_list w
  end.

(** *** [map_binance_to_coingecko] *)

Definition map_binance_to_coingecko (w : world) (binance_symbol : string)
  : M collector (option string) :=
  match extract_base_symbol binance_symbol with
  | None => ret None
  | Some base_symbol =>
      if Py.truthy base_symbol then
        let* coingecko_map := get_coingecko_coins_list w in
        ret (coingecko_map !! base_symbol)
      else ret None
  end.

(** *** [get_coingecko_market_data] *)

Definition batch_size : nat := 250.

(** [for coin in data: market_data[coin['id']] = {...}] *)
Definition store_batch (market_data : gmap string market_record)
    (data : list market_coin) : gmap string market_record :=
  foldl (fun md c => <[mc_id c := mc_record c]> md) market_data data.

(** The body of [for i in range(0, len(coingecko_ids), batch_size)]: a
    failed request takes the [except] branch and [continue]s. *)
Fixpoint market_data_loop (w : world) (coingecko_ids : list string)
    (starts : list nat) (market_data : gmap string market_record)
  : M collector (gmap string market_record) :=
  match starts with
  | [] => ret market_data
  | i :: rest =>
      let batch := Py.slice coingecko_ids i (i + batch_size) in
      let* response := request_coins_markets w batch in
      match response with
      | Some data =>
          let market_data' := store_batch market_data data in
          let* _ := sleep 2 in
          market_data_loop w coingecko_ids rest market_data'
      | None => market_data_loop w coingecko_ids rest market_data
      end
  end.

Definition get_coingecko_market_data (w : world) (coingecko_ids : list string)
  : M collector (gmap string market_record) :=
  match coingecko_ids with
  | [] => ret ∅
  | _ =>
      market_data_loop w coingecko_ids
        (Py.range 0 (length coingecko_ids) batch_size) ∅
  end.

(** *** [get_historical_klines] *)

Definition ms_per_day : Z := 86400000.

(** [end_time - timedelta(days=days)], in microseconds, [None] when it
    raises [OverflowError]: a [timedelta] holds at most 999999999 days,
    and a [datetime] lies in the years 1 to 9999, which are the days
    -719162 to 2932896 counted from 1970-01-01. *)
Definition start_time (end_time days : Z) : option Z :=
  let day := (end_time / one_day_us - days)%Z in
  if (Z.abs days <=? 999999999)%Z && (-719162 <=? day)%Z
     && (day <=? 2932896)%Z
  then Some (end_time - days * one_day_us)%Z
  else None.

Section Klines.
(** [float(text)] as [astype(float)] applies it to one cell. *)
Variable to_float : string -> option Py.float.

(** One candle after the date conversion, the six [astype(float)]
    conversions and the column selection; [None] when a conversion
    raises. *)
Definition convert_kline (w : world) (symbol : string) (k : kline)
  : option bar :=
  match to_date w (k_timestamp k),
        to_float (k_open k), to_float (k_high k), to_float (k_low k),
        to_float (k_close k), to_float (k_volume k),
        to_float (k_quote_volume k) with
  | Some d, Some o, Some h, Some l, Some c, Some v, Some qv =>
      Some {| date := d;
              open := o; high := h; low := l; close := c;
              volume := v; quote_volume := qv;
              trades := k_trades k; symbol := symbol |}
  | _, _, _, _, _, _, _ => None
  end.

(** The conversion of the whole frame: [to_datetime] and [astype] work
    on whole columns, so one bad cell raises for the frame. *)
Fixpoint convert_klines (w : world) (symbol : string) (klines : list kline)
  : option (list bar) :=
  match klines with
  | [] => Some []
  | k :: rest =>
      match convert_kline w symbol k, convert_klines w symbol rest with
      | Some b, Some bs => Some (b :: bs)
      | _, _ => None
      end
  end.

(** [get_historical_klines(symbol, days)]; the empty list is the empty
    [pd.DataFrame()] of the early exits. The start of the window is
    computed inside the [try], before the client is called. *)
Definition get_historical_klines (w : world) (symbol : string) (days : Z)
  : M collector (list bar) :=
  let* end_time := datetime_now w in
  match start_time end_time days with
  | None => ret []             (* OverflowError: except Exception *)
  | Some _ =>
      let* t := tick in
      let* _ := emit (EvKlines symbol days) in
      match historical_klines w t symbol days with
      | KlinesOk klines =>
          match klines with
          | [] => ret []
          | _ =>
              match convert_klines w symbol klines with
              | Some df => ret df
              | None => ret []     (* except Exception *)
              end
          end
      | KlinesApiError => ret []   (* except BinanceAPIException *)
      | KlinesOtherError => ret [] (* except Exception *)
      end
  end.
End Klines.

(** *** [enrich_with_coingecko_data] *)

(** The loop over [symbols] filling [symbol_to_coingecko] and
    [skipped_symbols]; [if cg_id:] is false for [None] and for [""]. *)
Fixpoint map_symbols (w : world) (symbols : list string)
    (symbol_to_coingecko : list (string * string))
    (skipped_symbols : list string)
  : M collector (list (string * string) * list string) :=
  match symbols with
  | [] => ret (symbol_to_coingecko, skipped_symbols)
  | symbol :: rest =>
      let* cg_id := map_binance_to_coingecko w symbol in
      match cg_id with
      | Some id =>
          if Py.truthy id
          then map_symbols w rest
                 (Py.dict_set symbol_to_coingecko symbol id) skipped_symbols
          else map_symbols w rest
                 symbol_to_coingecko (skipped_symbols ++ [symbol])
      | None =>
          map_symbols w rest symbol_to_coingecko (skipped_symbols ++ [symbol])
      end
  end.

(** The four columns right after [df['market_cap'] = None] etc. *)
Definition no_market : market_record :=
  {| market_cap := None; circulating_supply := None;
     total_supply := None; max_supply := None |}.

(** One pass of the [df.iterrows()] loop on a row. *)
Definition enrich_row (symbol_to_coingecko : list (string * string))
    (market_data : gmap string market_record) (b : bar) : row :=
  match Py.dict_get symbol_to_coingecko (symbol b) with
  | Some cg_id =>
      match market_data !! cg_id with
      | Some data =>
          {| row_bar := b;
             row_market :=
               {| market_cap := market_cap data;
                  circulating_supply := circulating_supply data;
                  total_supply := total_supply data;
                  max_supply := max_supply data |} |}
      | None => {| row_bar := b; row_market := no_market |}
      end
  | None => {| row_bar := b; row_market := no_market |}
  end.

(** [df['market_cap'].notna()] on one row. *)
Definition notna (r : row) : bool :=
  match market_cap (row_market r) with
  | Some _ => true
  | None => false
  end.

Definition isna (r : row) : bool := negb (notna r).

Definition row_symbol (r : row) : string := symbol (row_bar r).

(** [enrich_with_coingecko_data(df)]: the enriched frame and the list of
    skipped symbols. The Python [set] behind [additional_skipped] is
    iterated in an unspecified order; [elements] stands for it. *)
Definition enrich_with_coingecko_data (w : world) (df : list bar)
  : M collector (list row * list string) :=
  match df with
  | [] => ret ([], [])
  | _ =>
      let symbols := Pandas.unique (map symbol df) in
      let* mapped := map_symbols w symbols [] [] in
      let symbol_to_coingecko := fst mapped in
      let skipped_symbols := snd mapped in
      match symbol_to_coingecko with
      | [] => ret ([], symbols)
      | _ =>
          let coingecko_ids := map snd symbol_to_coingecko in
          let* market_data := get_coingecko_market_data w coingecko_ids in
          let df' := map (enrich_row symbol_to_coingecko market_data) df in
          let df_filtered := List.filter notna df' in
          let additional_skipped : gset string :=
            list_to_set
              (Pandas.unique (map row_symbol (List.filter isna df'))) in
          ret (df_filtered, skipped_symbols ++ elements additional_skipped)
      end
  end.

(** *** [save_to_csv] *)

(** The disk: the rows each CSV file holds, by path. *)
Abbreviation disk := (gmap string (list row)).

(** The dedup key [subset=['date', 'symbol']]. *)
Definition row_key (r : row) : Z * string :=
  (date (row_bar r), symbol (row_bar r)).

(** The order of [sort_values(['symbol', 'date'])]. *)
Definition row_le (r1 r2 : row) : bool :=
  match String.compare (row_symbol r1) (row_symbol r2) with
  | Lt => true
  | Gt => false
  | Eq => (date (row_bar r1) <=? date (row_bar r2))%Z
  end.

(** The three pandas calls of the append branch. *)
Definition merge_frames (existing_df df : list row) : list row :=
  let combined_df := existing_df ++ df in
  let combined_df := Pandas.drop_duplicates_last row_key combined_df in
  Pandas.sort_values row_le combined_df.

Definition default_filename : string := "all_pairs_eod.csv".
Definition default_mode : string := "w".

(** [save_to_csv(df, filename, mode)] as a transformer of the disk. *)
Definition save_to_csv (data_dir : string) (df : list row)
    (filename : string) (mode : string) (fs : disk) : disk :=
  match df with
  | [] => fs
  | _ =>
      let filepath := Py.path_join data_dir filename in
      match String.eqb mode "a", fs !! filepath with
      | true, Some existing_df =>
          <[filepath := merge_frames existing_df df]> fs
      | _, _ => <[filepath := df]> fs
      end
  end.

End Collector.

(* ===================================================================== *)
(** ** [crypto_collector_v2.py]: class [CryptoDataCollector] *)
(* ===================================================================== *)

Module CollectorV2.

(** *** Data *)

(** A row of the frame written to [crypto_data.csv]; [date] is the
    [%Y-%m-%d] text. *)
Record row := {
  date : string;
  symbol : string;
  base_asset : string;
  coingecko_id : string;
  price : Py.float;
  volume : Py.float;
  market_cap : Py.float;
  timestamp : Z
}.

(** A row of the frame [get_historical_data] returns. *)
Record chart_row := {
  c_timestamp : Z;
  c_date : string;
  c_price : Py.float;
  c_market_cap : Py.float;
  c_volume : Py.float
}.

(** The JSON of [/coins/{id}/market_chart]: three series of
    [[timestamp, value]] pairs; an absent key reads as the empty list. *)
Record market_chart := {
  prices : list (Z * Py.float);
  market_caps : list (Z * Py.float);
  total_volumes : list (Z * Py.float)
}.

(** What one [requests.get] does once [raise_for_status] and [json] have
    run: a body, an [HTTPError] with its status code, or another
    exception (time-out, connection failure, bad JSON). *)
Inductive http_result :=
| HttpOk (body : market_chart)
| HttpError (status_code : Z)
| OtherError.

(** An entry of the provider's [/coins/list] response. *)
Record coin := {
  coin_id : string;
  coin_symbol : string;
  coin_name : string
}.

Inductive sleep_site := RateLimiter | Backoff429.

Inductive event :=
| EvTime
| EvCoinsList
| EvMarketChart (coingecko_id : string) (days : Z)
| EvSleep (site : sleep_site) (seconds : Py.float).

(** The outside world: [time.time()] and the [/coins/list] response at the
    effect number [t] ([None] for any exception), the provider's answer to
    the market-chart request number [k] (counting from 0), and the
    library functions the development leaves open. [local_date] is
    [datetime.fromtimestamp(timestamp / 1000).strftime('%Y-%m-%d')], the
    local-time rendering of a timestamp, [None] when [fromtimestamp]
    raises (a timestamp out of the platform's range). [str_upper] and
    [str_lower] are [str.upper] and [str.lower]. *)
Record world := {
  time : nat -> Py.float;
  get_coins_list : nat -> option (list coin);
  get_market_chart : nat -> string -> Z -> http_result;
  local_date : Z -> option string;
  str_upper : string -> string;
  str_lower : string -> string
}.

Definition is_request (e : event) : bool :=
  match e with EvMarketChart _ _ => true | _ => false end.

Definition is_backoff (e : event) : bool :=
  match e with EvSleep Backoff429 _ => true | _ => false end.

(** How many requests, and how many 429 back-offs, a log holds. *)
Definition requests_made (evs : list event) : nat :=
  length (List.filter is_request evs).

Definition backoffs_made (evs : list event) : nat :=
  length (List.filter is_backoff evs).

Record collector := {
  symbol_mapping : gmap string string;
  coingecko_calls : list Py.float;
  log : list event
}.

Definition max_calls_per_minute : nat := 30.

Import StateM.
Local Open Scope monad_scope.

Definition emit (e : event) : M collector unit :=
  fun self => (tt, {| symbol_mapping := symbol_mapping self;
                      coingecko_calls := coingecko_calls self;
                      log := log self ++ [e] |}).

Definition tick : M collector nat := fun self => (length (log self), self).

Definition set_calls (calls : list Py.float) : M collector unit :=
  fun self => (tt, {| symbol_mapping := symbol_mapping self;
                      coingecko_calls := calls;
                      log := log self |}).

Definition set_mapping (k v : string) : M collector unit :=
  fun self => (tt, {| symbol_mapping := <[k := v]> (symbol_mapping self);
                      coingecko_calls := coingecko_calls self;
                      log := log self |}).

(** *** [rate_limit_coingecko] *)

Definition Qltb (a b : Q) : bool := negb (Qle_bool b a).

Definition rate_limit_coingecko (w : world) : M collector unit :=
  let* t := tick in
  let* _ := emit EvTime in
  let now := time w t in
  let* self := get in
  let recent :=
    List.filter (fun t0 => Qltb (now - t0) 60) (coingecko_calls self) in
  let* _ := set_calls recent in
  let* calls :=
    if (max_calls_per_minute <=? length recent)%nat then
      let sleep_time := (60 - (now - hd 0%Q recent) + 1)%Q in
      let* _ := emit (EvSleep RateLimiter sleep_time) in
      let* _ := set_calls [] in
      ret []
    else ret recent in
  set_calls (calls ++ [now]).

(** *** [get_coingecko_coins_list] *)

(** The loop that builds [symbol_to_id]: the first coin seen for an
    upper-cased symbol is stored; a later coin replaces it when its name,
    lower-cased, is the symbol, lower-cased. *)
Definition build_symbol_to_id (upper lower : string -> string)
    (coins : list coin) : gmap string string :=
  foldl (fun symbol_to_id c =>
           let symbol := upper (coin_symbol c) in
           match symbol_to_id !! symbol with
           | None => <[symbol := coin_id c]> symbol_to_id
           | Some _ =>
               if String.eqb (lower (coin_name c)) (lower symbol)
               then <[symbol := coin_id c]> symbol_to_id
               else symbol_to_id
           end) ∅ coins.

Definition get_coingecko_coins_list (w : world) : M collector (gmap string string) :=
  let* _ := rate_limit_coingecko w in
  let* t := tick in
  let* _ := emit EvCoinsList in
  match get_coins_list w t with
  | Some coins =>
      ret (build_symbol_to_id (str_upper w) (str_lower w) coins)
  | None => ret ∅
  end.

(** *** [map_binance_to_coingecko] *)

(** The dict literal [special_mappings]. *)
Definition special_mappings : gmap string string :=
  <["BNB" := "binancecoin"]> (
  <["WBTC" := "wrapped-bitcoin"]> (
  <["WETH" := "weth"]> (
  <["SHIB" := "shiba-inu"]> (
  <["DOGE" := "dogecoin"]> (
  <["MATIC" := "matic-network"]> ∅))))).

(** [map_binance_to_coingecko(base_asset, symbol_to_id)]: the cache, then
    the listing, then the special cases, as the three [if]s are written. *)
Definition map_binance_to_coingecko (base_asset : string)
    (symbol_to_id : gmap string string) : M collector (option string) :=
  let* self := get in
  match symbol_mapping self !! base_asset with
  | Some cached => ret (Some cached)
  | None =>
      match symbol_to_id !! base_asset with
      | Some coingecko_id =>
          let* _ := set_mapping base_asset coingecko_id in
          ret (Some coingecko_id)
      | None =>
          match special_mappings !! base_asset with
          | Some coingecko_id =>
              let* _ := set_mapping base_asset coingecko_id in
              ret (Some coingecko_id)
          | None => ret None
          end
      end
  end.

(** *** [get_historical_data] *)

(** [zip(prices, market_caps, volumes)] turned into rows, one after the
    other; [None] when [fromtimestamp] raises for one of them. *)
Fixpoint chart_rows (w : world) (prices market_caps volumes : list (Z * Py.float))
  : option (list chart_row) :=
  match prices, market_caps, volumes with
  | price_data :: ps, mcap_data :: ms, vol_data :: vs =>
      match local_date w (fst price_data) with
      | Some date =>
          match chart_rows w ps ms vs with
          | Some df_list =>
              Some ({| c_timestamp := fst price_data;
                       c_date := date;
                       c_price := snd price_data;
                       c_market_cap := snd mcap_data;
                       c_volume := snd vol_data |} :: df_list)
          | None => None
          end
      | None => None
      end
  | _, _, _ => Some []
  end.

Definition is_empty {A : Type} (l : list A) : bool :=
  match l with [] => true | _ => false end.

(** [get_historical_data(coingecko_id, days)]. The recursive call of the
    429 branch makes the function recursive without a structural
    argument; [fuel] bounds the depth of the recursion and [None] means
    the bound was reached. *)
Fixpoint get_historical_data (fuel : nat) (w : world) (coingecko_id : string)
    (days : Z) : M collector (option (list chart_row)) :=
  match fuel with
  | O => ret None
  | S fuel' =>
      let* _ := rate_limit_coingecko w in
      let* self := get in
      let k := requests_made (log self) in
      let* _ := emit (EvMarketChart coingecko_id days) in
      match get_market_chart w k coingecko_id days with
      | HttpOk data =>
          if is_empty (prices data) || is_empty (market_caps data)
             || is_empty (total_volumes data)
          then ret (Some [])
          else
            match chart_rows w (prices data) (market_caps data)
                    (total_volumes data) with
            | Some df_list => ret (Some df_list)
            | None => ret (Some [])    (* except Exception *)
            end
      | HttpError status_code =>
          if (status_code =? 429)%Z then
            let* _ := emit (EvSleep Backoff429 60%Q) in
            get_historical_data fuel' w coingecko_id days
          else ret (Some [])
      | OtherError => ret (Some [])
      end
  end.

(** [CryptoDataCollector(...)] right after [__init__], with the mapping
    cache file holding [cache]. *)
Definition init (cache : gmap string string) : collector :=
  {| symbol_mapping := cache; coingecko_calls := []; log := [] |}.

(** *** The merge of [collect_daily_update] *)

Definition row_key (r : row) : string * string := (date r, symbol r).

Definition row_le (r1 r2 : row) : bool :=
  match String.compare (symbol r1) (symbol r2) with
  | Lt => true
  | Gt => false
  | Eq => String.leb (date r1) (date r2)
  end.

(** [pd.concat([existing_df, new_df])], [drop_duplicates(keep='last')],
    [sort_values(['symbol', 'date'])]. *)
Definition merge_daily (existing_df new_df : list row) : list row :=
  let combined_df := existing_df ++ new_df in
  let combined_df := Pandas.drop_duplicates_last row_key combined_df in
  Pandas.sort_values row_le combined_df.

End CollectorV2.

(* ===================================================================== *)
(** ** Concrete data used by the examples *)
(* ===================================================================== *)

Module Examples.

(** The calendar day of an open time that lies in the range of the date
    conversion: the conversion of the example worlds. *)
Definition utc_day (t : Z) : option Z := Some (t / Collector.ms_per_day)%Z.

Definition mk_bar (d : Z) (s : string) (c : Py.float) : Collector.bar :=
  {| Collector.date := d; Collector.open := c; Collector.high := c;
     Collector.low := c; Collector.close := c; Collector.volume := 1%Q;
     Collector.quote_volume := c; Collector.trades := 1%Z;
     Collector.symbol := s |}.

Definition mk_market (cap : option Py.float) : Collector.market_record :=
  {| Collector.market_cap := cap; Collector.circulating_supply := None;
     Collector.total_supply := None; Collector.max_supply := None |}.

Definition mk_row (d : Z) (s : string) (c : Py.float) : Collector.row :=
  {| Collector.row_bar := mk_bar d s c;
     Collector.row_market := mk_market (Some 1000%Q) |}.

(** Two rows for the key [(19000, "BTCUSDT")] with different closes. *)
Definition row_A : Collector.row := mk_row 19000 "BTCUSDT" 100%Q.
Definition row_B : Collector.row := mk_row 19000 "BTCUSDT" 105%Q.
Definition row_other : Collector.row := mk_row 19000 "ADAUSDT" 1%Q.

Definition csv_path : string := Py.path_join "data" "all_pairs_eod.csv".

Definition disk_with_A : gmap string (list Collector.row) :=
  {[ csv_path := [row_A; row_other] ]}.

(** Two candles, the second with a close that is not a number. *)
Definition good_kline : Collector.kline :=
  {| Collector.k_timestamp := 1641600000000; Collector.k_open := "100.0";
     Collector.k_high := "110.5"; Collector.k_low := "99.0";
     Collector.k_close := "105.0"; Collector.k_volume := "12.5";
     Collector.k_close_time := 1641686399999;
     Collector.k_quote_volume := "1300.25"; Collector.k_trades := 42;
     Collector.k_taker_buy_base := "6.0";
     Collector.k_taker_buy_quote := "650.0"; Collector.k_ignore := "0" |}.

Definition bad_kline : Collector.kline :=
  {| Collector.k_timestamp := 1641686400000; Collector.k_open := "105.0";
     Collector.k_high := "106.0"; Collector.k_low := "101.0";
     Collector.k_close := "n/a"; Collector.k_volume := "9.0";
     Collector.k_close_time := 1641772799999;
     Collector.k_quote_volume := "930.0"; Collector.k_trades := 17;
     Collector.k_taker_buy_base := "4.0";
     Collector.k_taker_buy_quote := "410.0"; Collector.k_ignore := "0" |}.

(** A world whose exchange answers every klines request with these two
    candles; the provider is unreachable. *)
Definition klines_world : Collector.world :=
  {| Collector.clock := fun _ => 0%Z;
     Collector.coins_list := fun _ => None;
     Collector.coins_markets := fun _ _ => None;
     Collector.historical_klines :=
       fun _ _ _ => Collector.KlinesOk [good_kline; bad_kline];
     Collector.str_upper := Py.ascii_upper;
     Collector.to_date := utc_day |}.

Definition one_day_chart : CollectorV2.market_chart :=
  {| CollectorV2.prices := [(1641600000000%Z, 42000%Q)];
     CollectorV2.market_caps := [(1641600000000%Z, 800000000000%Q)];
     CollectorV2.total_volumes := [(1641600000000%Z, 30000000000%Q)] |}.

(** A provider that answers 429 to the first two requests and then serves
    the chart. *)
Definition twice_limited_world : CollectorV2.world :=
  {| CollectorV2.time := fun t => inject_Z (Z.of_nat t);
     CollectorV2.get_coins_list := fun _ => None;
     CollectorV2.get_market_chart :=
       fun k _ _ =>
         if (k <? 2)%nat then CollectorV2.HttpError 429
         else CollectorV2.HttpOk one_day_chart;
     CollectorV2.local_date := fun _ => Some "2022-01-08";
     CollectorV2.str_upper := Py.ascii_upper;
     CollectorV2.str_lower := Py.ascii_lower |}.

(** Three bars, one per symbol; the provider lists bitcoin and ethereum and
    returns market data for bitcoin only. *)
Definition three_bars : list Collector.bar :=
  [mk_bar 19000 "BTCUSDT" 42000%Q; mk_bar 19000 "FAKEUSDT" 1%Q;
   mk_bar 19000 "ETHUSDT" 3000%Q].

Definition bitcoin_record : Collector.market_record :=
  {| Collector.market_cap := Some 800000000000%Q;
     Collector.circulating_supply := Some 19000000%Q;
     Collector.total_supply := Some 21000000%Q;
     Collector.max_supply := Some 21000000%Q |}.

Definition partial_world : Collector.world :=
  {| Collector.clock := fun _ => 0%Z;
     Collector.coins_list := fun _ =>
       Some [ {| Collector.coin_id := "bitcoin"; Collector.coin_symbol := "btc";
                 Collector.coin_name := "Bitcoin" |};
              {| Collector.coin_id := "ethereum"; Collector.coin_symbol := "eth";
                 Collector.coin_name := "Ethereum" |} ];
     Collector.coins_markets := fun _ _ =>
       Some [ {| Collector.mc_id := "bitcoin";
                 Collector.mc_record := bitcoin_record |} ];
     Collector.historical_klines := fun _ _ _ => Collector.KlinesApiError;
     Collector.str_upper := Py.ascii_upper;
     Collector.to_date := utc_day |}.

(** 501 ids, and a provider that fails the second batch of a call. *)
Definition ids_501 : list string :=
  map (fun k => "coin-" +:+ pretty k) (seq 0 501).

Definition flaky_world : Collector.world :=
  {| Collector.clock := fun _ => 0%Z;
     Collector.coins_list := fun _ => None;
     Collector.coins_markets := fun t batch =>
       if (t =? 2)%nat then None
       else Some (map (fun id => {| Collector.mc_id := id;
                                    Collector.mc_record := bitcoin_record |})
                      batch);
     Collector.historical_klines := fun _ _ _ => Collector.KlinesApiError;
     Collector.str_upper := Py.ascii_upper;
     Collector.to_date := utc_day |}.

(** A listing in which the symbol [BNB] belongs to another coin than the
    one the special-case table names. *)
Definition bnb_listing : gmap string string :=
  CollectorV2.build_symbol_to_id Py.ascii_upper Py.ascii_lower
    [ {| CollectorV2.coin_id := "binance-coin-wormhole";
         CollectorV2.coin_symbol := "bnb";
         CollectorV2.coin_name := "Binance Coin (Wormhole)" |} ].

End Examples.

(* ===================================================================== *)
(** ** Vocabulary of the statements *)
(* ===================================================================== *)

Module Spec.

(** No quote asset of the list ends with another one. *)
Definition quotes_suffix_free (qs : list string) : bool :=
  forallb (fun q1 =>
    forallb (fun q2 => negb (Py.endswith q1 q2) || String.eqb q1 q2) qs) qs.

(** Two states of one file hold the same set of rows (and the file exists
    in both or in neither). *)
Definition same_row_set {Row : Type} (f1 f2 : option (list Row)) : Prop :=
  match f1, f2 with
  | Some rows1, Some rows2 => forall r, In r rows1 <-> In r rows2
  | None, None => True
  | _, _ => False
  end.

(** Merge idempotence at one starting disk and one input frame: writing
    [df] twice in mode ['a'] leaves the row set that writing it once does. *)
Definition merge_idempotent_at (data_dir filename : string)
    (fs : gmap string (list Collector.row)) (df : list Collector.row) : Prop :=
  let filepath := Py.path_join data_dir filename in
  let once := Collector.save_to_csv data_dir df filename "a" fs in
  let twice := Collector.save_to_csv data_dir df filename "a" once in
  same_row_set (twice !! filepath) (once !! filepath).

(** No two different rows of the frame share a [(date, symbol)] key. *)
Definition key_consistent (df : list Collector.row) : Prop :=
  forall r1 r2, In r1 df -> In r2 df ->
    Collector.row_key r1 = Collector.row_key r2 -> r1 = r2.

(** The rows of a frame that carry the key [k]. *)
Definition rows_with_key (k : Z * string) (rows : list Collector.row)
  : list Collector.row :=
  List.filter (fun r => bool_decide (Collector.row_key r = k)) rows.

(** Sorted by [(symbol, date)]: every row is at or below every later row. *)
Definition sorted_by_symbol_date (rows : list Collector.row) : Prop :=
  StronglySorted (fun r1 r2 => Collector.row_le r1 r2 = true) rows.

(** The events a call appended to the log. *)
Definition events_since (self self' : Collector.collector)
  : list Collector.event :=
  drop (length (Collector.log self)) (Collector.log self').

(** The [/coins/markets] requests among some events, each with the batch
    sent and the response received, in order. *)
Fixpoint markets_requests (evs : list Collector.event)
  : list (list string * option (list Collector.market_coin)) :=
  match evs with
  | [] => []
  | Collector.EvCoinsMarkets ids response :: rest =>
      (ids, response) :: markets_requests rest
  | _ :: rest => markets_requests rest
  end.

(** The ids the successful responses returned. *)
Fixpoint returned_ids
    (requests : list (list string * option (list Collector.market_coin)))
  : gset string :=
  match requests with
  | [] => ∅
  | (_, Some data) :: rest =>
      list_to_set (map Collector.mc_id data) ∪ returned_ids rest
  | (_, None) :: rest => returned_ids rest
  end.

(** [ceil(n / d)] on naturals. *)
Definition ceil_div (n d : nat) : nat := (n + d - 1) / d.

(** The [symbol_to_coingecko] dict and the [market_data] mapping that a
    call of [enrich_with_coingecko_data] on [df] builds from the state
    [self]: what the resolver and the fetcher answered in that run. *)
Definition resolution (w : Collector.world) (df : list Collector.bar)
    (self : Collector.collector) : list (string * string) :=
  fst (fst (Collector.map_symbols w
              (Pandas.unique (map Collector.symbol df)) [] [] self)).

Definition fetched (w : Collector.world) (df : list Collector.bar)
    (self : Collector.collector) : gmap string Collector.market_record :=
  let mapped :=
    Collector.map_symbols w (Pandas.unique (map Collector.symbol df)) [] [] self in
  fst (Collector.get_coingecko_market_data w
         (map snd (fst (fst mapped))) (snd mapped)).

(** The market-cap value fetched for a provider id, if there is one: the id
    has a record and the record's [market_cap] is not null. *)
Definition fetched_cap (market_data : gmap string Collector.market_record)
    (cg_id : string) : option Py.float :=
  match market_data !! cg_id with
  | Some data => Collector.market_cap data
  | None => None
  end.

(** Whether a symbol ends up with a market-cap value in a run: it resolved
    and its provider id has a fetched, non-null market cap. *)
Definition has_cap (symbol_to_coingecko : list (string * string))
    (market_data : gmap string Collector.market_record) (s : string) : bool :=
  match Py.dict_get symbol_to_coingecko s with
  | Some cg_id =>
      match fetched_cap market_data cg_id with
      | Some _ => true
      | None => false
      end
  | None => false
  end.

(** The bars of a frame for one symbol, in order. *)
Definition bars_of (s : string) (df : list Collector.bar) : list Collector.bar :=
  List.filter (fun b => String.eqb (Collector.symbol b) s) df.

(** A bar with the four columns of a market record attached. *)
Definition attach (data : Collector.market_record) (b : Collector.bar)
  : Collector.row :=
  {| Collector.row_bar := b; Collector.row_market := data |}.

(** C3 as the claim words it: every candle of the response that converts
    cleanly has its bar in the returned frame. *)
Definition keeps_well_formed_rows (to_float : string -> option Py.float)
    (w : Collector.world) (symbol : string) (klines : list Collector.kline)
    (result : list Collector.bar) : Prop :=
  forall k b, In k klines ->
    Collector.convert_kline to_float w symbol k = Some b -> In b result.

(** The start of the window a call computes from the state [self]: the
    clock is read by the first effect of the call. *)
Definition window_start (w : Collector.world) (self : Collector.collector)
    (days : Z) : option Z :=
  Collector.start_time
    (Collector.clock w (length (Collector.log self))) days.

(** The exchange's answer to the klines request a call issues from the
    state [self]: the request is the second effect of the call. *)
Definition klines_response (w : Collector.world) (self : Collector.collector)
    (symbol : string) (days : Z) : Collector.klines_result :=
  Collector.historical_klines w (S (length (Collector.log self))) symbol days.

(** C2 as the claim words it: a call issues at most two requests, the
    original one and one retry. *)
Definition at_most_one_retry (w : CollectorV2.world) (coingecko_id : string)
    (days : Z) (self : CollectorV2.collector) (fuel : nat) : Prop :=
  let self' := snd (CollectorV2.get_historical_data fuel w coingecko_id days self) in
  (CollectorV2.requests_made (CollectorV2.log self')
   <= CollectorV2.requests_made (CollectorV2.log self) + 2)%nat.

(** The events a v2 call appended to the log. *)
Definition events_since_v2 (self self' : CollectorV2.collector)
  : list CollectorV2.event :=
  drop (length (CollectorV2.log self)) (CollectorV2.log self').

(** The events of the rate limiter: its clock readings and its own
    sleeps. *)
Definition is_limiter (e : CollectorV2.event) : bool :=
  match e with
  | CollectorV2.EvTime
  | CollectorV2.EvSleep CollectorV2.RateLimiter _ => true
  | _ => false
  end.

Definition without_limiter (evs : list CollectorV2.event)
  : list CollectorV2.event :=
  List.filter (fun e => negb (is_limiter e)) evs.

(** [n] rounds of a request answered by a 60-second back-off, followed
    by one more request, all for the same id and number of days. *)
Definition retry_trace (coingecko_id : string) (days : Z) (n : nat)
  : list CollectorV2.event :=
  concat (repeat [CollectorV2.EvMarketChart coingecko_id days;
                  CollectorV2.EvSleep CollectorV2.Backoff429 60%Q] n)
  ++ [CollectorV2.EvMarketChart coingecko_id days].

(** What [get_historical_data] returns for a response other than 429. *)
Definition outcome (w : CollectorV2.world) (r : CollectorV2.http_result)
  : list CollectorV2.chart_row :=
  match r with
  | CollectorV2.HttpOk data =>
      if CollectorV2.is_empty (CollectorV2.prices data)
         || CollectorV2.is_empty (CollectorV2.market_caps data)
         || CollectorV2.is_empty (CollectorV2.total_volumes data)
      then []
      else
        match CollectorV2.chart_rows w (CollectorV2.prices data)
                (CollectorV2.market_caps data)
                (CollectorV2.total_volumes data) with
        | Some df_list => df_list
        | None => []
        end
  | _ => []
  end.

(** C4 as the claim words it: on a cache miss, an entry of the override
    table wins over the listing. *)
Definition override_wins (base_asset : string)
    (symbol_to_id : gmap string string) (self : CollectorV2.collector) : Prop :=
  forall override_id,
    CollectorV2.symbol_mapping self !! base_asset = None ->
    CollectorV2.special_mappings !! base_asset = Some override_id ->
    fst (CollectorV2.map_binance_to_coingecko base_asset symbol_to_id self)
      = Some override_id.

End Spec.

(* ===================================================================== *)
(** ** [collector.py]: the exchange client and the collection drivers *)
(* ===================================================================== *)

Module Run.

(** An entry of [exchange_info['symbols']], with the fields the code reads. *)
Record symbol_info := {
  si_symbol : string;
  si_status : string
}.

(** An entry of the 24-hour ticker response; prices and volumes are text. *)
Record ticker := {
  t_symbol : string;
  t_openPrice : string;
  t_highPrice : string;
  t_lowPrice : string;
  t_lastPrice : string;
  t_volume : string;
  t_quoteVolume : string;
  t_count : Z
}.

(** What a call of the Binance client does: return, raise
    [BinanceAPIException], or raise something else. *)
Inductive client_result (A : Type) :=
| ClientOk (a : A)
| ClientApiError
| ClientOtherError.
Arguments ClientOk {A} a.
Arguments ClientApiError {A}.
Arguments ClientOtherError {A}.

(** The effects of the drivers that the collector's own log does not hold:
    the two client calls and the pause between symbols. *)
Inductive client_event :=
| CallExchangeInfo
| CallTicker
| Pause (seconds : Py.float).

(** The exchange's answers to the client call number [t] of a run. *)
Record exchange := {
  exchange_info : nat -> client_result (list symbol_info);
  ticker_24h : nat -> client_result (list ticker)
}.

(** The collector, the disk it writes to, and the client calls so far. *)
Record system := {
  collector_of : Collector.collector;
  disk_of : gmap string (list Collector.row);
  client_log : list client_event
}.

(** A call either returns a value or lets an exception escape. *)
Inductive outcome (A : Type) :=
| Returned (a : A)
| Raised.
Arguments Returned {A} a.
Arguments Raised {A}.

Definition start (fs : gmap string (list Collector.row)) : system :=
  {| collector_of := Collector.init; disk_of := fs; client_log := [] |}.

(** Runs a method that only uses the collector's own state. *)
Definition lift {A : Type} (c : StateM.M Collector.collector A)
    (sys : system) : A * system :=
  let '(a, self') := c (collector_of sys) in
  (a, {| collector_of := self'; disk_of := disk_of sys;
         client_log := client_log sys |}).

Definition call (e : client_event) (sys : system) : system :=
  {| collector_of := collector_of sys; disk_of := disk_of sys;
     client_log := client_log sys ++ [e] |}.

Definition write
    (f : gmap string (list Collector.row) -> gmap string (list Collector.row))
    (sys : system) : system :=
  {| collector_of := collector_of sys; disk_of := f (disk_of sys);
     client_log := client_log sys |}.

(** [get_all_spot_symbols()] *)
Definition get_all_spot_symbols (x : exchange) (sys : system)
  : outcome (list string) * system :=
  let t := length (client_log sys) in
  let sys' := call CallExchangeInfo sys in
  match exchange_info x t with
  | ClientOk infos =>
      (Returned
         (map si_symbol
            (List.filter (fun s => String.eqb (si_status s) "TRADING") infos)),
       sys')
  | ClientApiError => (Returned [], sys')
  | ClientOtherError => (Raised, sys')
  end.

Section Ticker.
(** [float(text)] as [astype(float)] applies it to one cell. *)
Variable to_float : string -> option Py.float.

(** One ticker after the column selection, the renaming and the six
    [astype(float)] conversions; [None] when a conversion raises. *)
Definition convert_ticker (today : Z) (t : ticker) : option Collector.bar :=
  match to_float (t_openPrice t), to_float (t_highPrice t),
        to_float (t_lowPrice t), to_float (t_lastPrice t),
        to_float (t_volume t), to_float (t_quoteVolume t) with
  | Some o, Some h, Some l, Some c, Some v, Some qv =>
      Some {| Collector.date := today;
              Collector.open := o; Collector.high := h; Collector.low := l;
              Collector.close := c; Collector.volume := v;
              Collector.quote_volume := qv;
              Collector.trades := t_count t;
              Collector.symbol := t_symbol t |}
  | _, _, _, _, _, _ => None
  end.

Fixpoint convert_tickers (today : Z) (tickers : list ticker)
  : option (list Collector.bar) :=
  match tickers with
  | [] => Some []
  | t :: rest =>
      match convert_ticker today t, convert_tickers today rest with
      | Some b, Some bs => Some (b :: bs)
      | _, _ => None
      end
  end.

(** [get_current_day_ticker(symbols)]. Only [BinanceAPIException] is
    caught: a [ValueError] of [astype(float)] escapes. *)
Definition get_current_day_ticker (w : Collector.world) (x : exchange)
    (symbols : list string) (sys : system)
  : outcome (list Collector.bar) * system :=
  let t := length (client_log sys) in
  let sys1 := call CallTicker sys in
  match ticker_24h x t with
  | ClientOk tickers =>
      let symbol_set : gset string := list_to_set symbols in
      let filtered_tickers :=
        List.filter (fun t => bool_decide (t_symbol t ∈ symbol_set)) tickers in
      match filtered_tickers with
      | [] => (Returned [], sys1)
      | _ =>
          let '(now, sys2) := lift (Collector.datetime_now w) sys1 in
          let today := (now / Collector.one_day_us)%Z in
          match convert_tickers today filtered_tickers with
          | Some df => (Returned df, sys2)
          | None => (Raised, sys2)
          end
      end
  | ClientApiError => (Returned [], sys1)
  | ClientOtherError => (Raised, sys1)
  end.

(** [collect_daily_update(symbols_filter)] of a collector whose data
    directory is [data_dir]. *)
Definition collect_daily_update (w : Collector.world) (x : exchange)
    (data_dir : string) (symbols_filter : option (list string))
    (sys : system) : outcome unit * system :=
  let '(symbols_result, sys1) :=
    match symbols_filter with
    | Some (s :: rest) => (Returned (s :: rest), sys)
    | _ => get_all_spot_symbols x sys
    end in
  match symbols_result with
  | Raised => (Raised, sys1)
  | Returned symbols =>
      let '(df_result, sys2) := get_current_day_ticker w x symbols sys1 in
      match df_result with
      | Raised => (Raised, sys2)
      | Returned [] => (Returned tt, sys2)
      | Returned df =>
          let '(enriched, sys3) :=
            lift (Collector.enrich_with_coingecko_data w df) sys2 in
          match fst enriched with
          | [] => (Returned tt, sys3)
          | enriched_df =>
              (Returned tt,
               write (Collector.save_to_csv data_dir enriched_df
                        Collector.default_filename "a") sys3)
          end
      end
  end.

(** [symbols[:max_symbols]] *)
Definition slice_to {A : Type} (l : list A) (m : Z) : list A :=
  if (0 <=? m)%Z then take (Z.to_nat m) l
  else take (length l - Z.to_nat (- m)) l.

(** The enrich-and-save step of [collect_historical_data]; the final batch
    is sorted before it is saved, the intermediate ones are not. *)
Definition flush (sort_first : bool) (w : Collector.world) (data_dir : string)
    (all_data : list (list Collector.bar)) (skipped : list string)
    (sys : system) : list string * system :=
  let combined_df := concat all_data in
  let '(enriched, sys1) :=
    lift (Collector.enrich_with_coingecko_data w combined_df) sys in
  let skipped' := skipped ++ snd enriched in
  match fst enriched with
  | [] => (skipped', sys1)
  | enriched_df =>
      let enriched_df' :=
        if sort_first then Pandas.sort_values Collector.row_le enriched_df
        else enriched_df in
      (skipped',
       write (Collector.save_to_csv data_dir enriched_df'
                Collector.default_filename "a") sys1)
  end.

Definition nonempty {A : Type} (l : list A) : bool :=
  match l with [] => false | _ => true end.

(** The loop [for i, symbol in enumerate(symbols, 1)]; it carries
    [all_data], [failed_symbols] and [skipped_symbols_coingecko]. *)
Fixpoint historical_loop (w : Collector.world) (data_dir : string) (days : Z)
    (symbols : list string) (i : nat) (all_data : list (list Collector.bar))
    (failed_symbols skipped : list string) (sys : system)
  : (list (list Collector.bar) * list string * list string) * system :=
  match symbols with
  | [] => ((all_data, failed_symbols, skipped), sys)
  | symbol :: rest =>
      let '(df, sys1) :=
        lift (Collector.get_historical_klines to_float w symbol days) sys in
      let all_data1 :=
        match df with [] => all_data | _ => all_data ++ [df] end in
      let failed1 :=
        match df with [] => failed_symbols ++ [symbol] | _ => failed_symbols end in
      let sys2 := call (Pause (1 # 2)) sys1 in
      if (i mod 50 =? 0)%nat && nonempty all_data1 then
        let '(skipped1, sys3) := flush false w data_dir all_data1 skipped sys2 in
        historical_loop w data_dir days rest (S i) [] failed1 skipped1 sys3
      else
        historical_loop w data_dir days rest (S i) all_data1 failed1 skipped sys2
  end.

(** [collect_historical_data(days, max_symbols, symbols_filter)]; the
    result holds [failed_symbols] and [skipped_symbols_coingecko], which
    the function reports in its log. *)
Definition collect_historical_data (w : Collector.world) (x : exchange)
    (data_dir : string) (days : Z) (max_symbols : option Z)
    (symbols_filter : option (list string)) (sys : system)
  : outcome (list string * list string) * system :=
  let '(symbols_result, sys1) :=
    match symbols_filter with
    | Some (s :: rest) => (Returned (s :: rest), sys)
    | _ =>
        match get_all_spot_symbols x sys with
        | (Returned symbols, sys') =>
            (Returned
               match max_symbols with
               | Some m => if (m =? 0)%Z then symbols else slice_to symbols m
               | None => symbols
               end, sys')
        | (Raised, sys') => (Raised, sys')
        end
    end in
  match symbols_result with
  | Raised => (Raised, sys1)
  | Returned symbols =>
      let '(state, sys2) :=
        historical_loop w data_dir days symbols 1 [] [] [] sys1 in
      let '(all_data, failed_symbols, skipped) := state in
      match all_data with
      | [] => (Returned (failed_symbols, skipped), sys2)
      | _ =>
          let '(skipped', sys3) := flush true w data_dir all_data skipped sys2 in
          (Returned (failed_symbols, skipped'), sys3)
      end
  end.
End Ticker.

End Run.

(* ===================================================================== *)
(** ** The drivers of [crypto_collector_v2.py] *)
(* ===================================================================== *)

Module RunV2.

(** An entry of [data['symbols']] in the [/exchangeInfo] response, with
    the fields the code reads. *)
Record symbol_info := {
  si_symbol : string;
  si_status : string;
  si_quoteAsset : string;
  si_baseAsset : string
}.

(** An entry of [usdt_pairs]. *)
Record pair_info := {
  p_symbol : string;
  p_base_asset : string
}.

(** The exchange's answer to the [/exchangeInfo] request number [t] of a
    run; [None] for any exception of the [try] block. *)
Record exchange := {
  exchange_info : nat -> option (list symbol_info)
}.

(** The collector, the CSV files of its output directory by file name,
    the content of [symbol_mapping.json] when the file exists, and the
    number of [/exchangeInfo] requests so far. A CSV file is modelled by
    the rows it holds. *)
Record system := {
  collector_of : CollectorV2.collector;
  csv_files : gmap string (list CollectorV2.row);
  mapping_file : option (gmap string string);
  exchange_requests : nat
}.

(** [CryptoDataCollector(output_dir)]: [load_symbol_mapping] reads the
    cache file when it exists. *)
Definition load_symbol_mapping (mapping : option (gmap string string))
  : gmap string string :=
  match mapping with
  | Some cached => cached
  | None => ∅
  end.

Definition start (files : gmap string (list CollectorV2.row))
    (mapping : option (gmap string string)) : system :=
  {| collector_of := CollectorV2.init (load_symbol_mapping mapping);
     csv_files := files; mapping_file := mapping; exchange_requests := 0 |}.

(** Runs a method that only uses the collector's own state. *)
Definition lift {A : Type} (c : StateM.M CollectorV2.collector A)
    (sys : system) : A * system :=
  let '(a, self') := c (collector_of sys) in
  (a, {| collector_of := self'; csv_files := csv_files sys;
         mapping_file := mapping_file sys;
         exchange_requests := exchange_requests sys |}).

Definition write
    (f : gmap string (list CollectorV2.row) -> gmap string (list CollectorV2.row))
    (sys : system) : system :=
  {| collector_of := collector_of sys; csv_files := f (csv_files sys);
     mapping_file := mapping_file sys;
     exchange_requests := exchange_requests sys |}.

(** [save_symbol_mapping()] *)
Definition save_symbol_mapping (sys : system) : system :=
  {| collector_of := collector_of sys; csv_files := csv_files sys;
     mapping_file := Some (CollectorV2.symbol_mapping (collector_of sys));
     exchange_requests := exchange_requests sys |}.

Definition is_usdt_pair (symbol_info : symbol_info) : bool :=
  String.eqb (si_status symbol_info) "TRADING"
  && String.eqb (si_quoteAsset symbol_info) "USDT".

(** [get_binance_spot_pairs()] *)
Definition get_binance_spot_pairs (x : exchange) (sys : system)
  : list pair_info * system :=
  let t := exchange_requests sys in
  let sys' :=
    {| collector_of := collector_of sys; csv_files := csv_files sys;
       mapping_file := mapping_file sys; exchange_requests := S t |} in
  match exchange_info x t with
  | Some symbols =>
      (map (fun symbol_info =>
              {| p_symbol := si_symbol symbol_info;
                 p_base_asset := si_baseAsset symbol_info |})
           (List.filter is_usdt_pair symbols),
       sys')
  | None => ([], sys')
  end.

(** [f"{prefix}_crypto_data.csv" if prefix else "crypto_data.csv"] *)
Definition filename (prefix : string) : string :=
  if Py.truthy prefix then prefix +:+ "_crypto_data.csv"
  else "crypto_data.csv".

(** [save_data(data_list, prefix)]: the frames concatenated, sorted by
    [(symbol, date)], written over the file of that prefix. *)
Definition save_data (data_list : list (list CollectorV2.row))
    (prefix : string) (files : gmap string (list CollectorV2.row))
  : gmap string (list CollectorV2.row) :=
  match data_list with
  | [] => files
  | _ =>
      let df := concat data_list in
      let df := Pandas.sort_values CollectorV2.row_le df in
      <[filename prefix := df]> files
  end.

(** The three columns [collect_historical_data] adds to a fetched row. *)
Definition add_pair_information (symbol base_asset coingecko_id : string)
    (c : CollectorV2.chart_row) : CollectorV2.row :=
  {| CollectorV2.date := CollectorV2.c_date c;
     CollectorV2.symbol := symbol;
     CollectorV2.base_asset := base_asset;
     CollectorV2.coingecko_id := coingecko_id;
     CollectorV2.price := CollectorV2.c_price c;
     CollectorV2.volume := CollectorV2.c_volume c;
     CollectorV2.market_cap := CollectorV2.c_market_cap c;
     CollectorV2.timestamp := CollectorV2.c_timestamp c |}.

(** The loop [for i, pair_info in enumerate(binance_pairs, 1)]; it carries
    [all_data], [successful_pairs] and [failed_pairs]. When the fetcher
    reaches the bound on its recursion the run ends there, [Raised]. *)
Fixpoint pairs_loop (fuel : nat) (w : CollectorV2.world) (days : Z)
    (symbol_to_id : gmap string string) (binance_pairs : list pair_info)
    (all_data : list (list CollectorV2.row)) (successful_pairs : nat)
    (failed_pairs : list string) (sys : system)
  : Run.outcome (list (list CollectorV2.row) * nat * list string) * system :=
  match binance_pairs with
  | [] => (Run.Returned (all_data, successful_pairs, failed_pairs), sys)
  | pair_info :: rest =>
      let symbol := p_symbol pair_info in
      let base_asset := p_base_asset pair_info in
      let '(mapped, sys1) :=
        lift (CollectorV2.map_binance_to_coingecko base_asset symbol_to_id)
          sys in
      let skip sys' :=
        pairs_loop fuel w days symbol_to_id rest all_data successful_pairs
          (failed_pairs ++ [symbol]) sys' in
      match mapped with
      | None => skip sys1
      | Some coingecko_id =>
          if Py.truthy coingecko_id then
            let '(fetched, sys2) :=
              lift (CollectorV2.get_historical_data fuel w coingecko_id days)
                sys1 in
            match fetched with
            | None => (Run.Raised, sys2)
            | Some [] => skip sys2
            | Some df =>
                let df' :=
                  map (add_pair_information symbol base_asset coingecko_id)
                    df in
                let all_data1 := all_data ++ [df'] in
                let successful_pairs1 := S successful_pairs in
                let sys3 :=
                  if (successful_pairs1 mod 50 =? 0)%nat
                  then write (save_data all_data1
                                ("checkpoint_" +:+ pretty successful_pairs1))
                         sys2
                  else sys2 in
                pairs_loop fuel w days symbol_to_id rest all_data1
                  successful_pairs1 failed_pairs sys3
            end
          else skip sys1
      end
  end.

(** [collect_historical_data(days)]. The result holds [successful_pairs]
    and [failed_pairs] as they are when the loop ends, which the function
    reports in its log; it is [None] when the function returns before the
    loop. *)
Definition collect_historical_data (fuel : nat) (w : CollectorV2.world)
    (x : exchange) (days : Z) (sys : system)
  : Run.outcome (option (nat * list string)) * system :=
  let '(binance_pairs, sys1) := get_binance_spot_pairs x sys in
  match binance_pairs with
  | [] => (Run.Returned None, sys1)
  | _ =>
      let '(symbol_to_id, sys2) :=
        lift (CollectorV2.get_coingecko_coins_list w) sys1 in
      let '(result, sys3) :=
        pairs_loop fuel w days symbol_to_id binance_pairs [] 0 [] sys2 in
      match result with
      | Run.Raised => (Run.Raised, sys3)
      | Run.Returned (all_data, successful_pairs, failed_pairs) =>
          let sys4 := save_symbol_mapping sys3 in
          (Run.Returned (Some (successful_pairs, failed_pairs)),
           match all_data with
           | [] => sys4
           | _ => write (save_data all_data "historical") sys4
           end)
      end
  end.

(** [df.drop_duplicates()]: the distinct rows in order of first
    appearance. *)
Fixpoint drop_duplicates_first {A : Type} `{EqDecision A} (l : list A)
  : list A :=
  match l with
  | [] => []
  | x :: rest =>
      x :: List.filter (fun y => negb (bool_decide (x = y)))
             (drop_duplicates_first rest)
  end.

(** [df.tail(n)] *)
Definition tail {A : Type} (n : nat) (l : list A) : list A :=
  drop (length l - n) l.

(** The columns [['symbol', 'base_asset', 'coingecko_id']] of a row. *)
Definition pair_columns (r : CollectorV2.row) : string * string * string :=
  (CollectorV2.symbol r, CollectorV2.base_asset r, CollectorV2.coingecko_id r).

Section Daily.
(** [df.sort_values('date')]. The default sort of a single column is not
    stable, so the order among rows of equal date is left to the sort:
    the model takes the sort as a parameter. *)
Variable sort_values_date :
  list CollectorV2.chart_row -> list CollectorV2.chart_row.

(** The loop [for i, row in pairs.iterrows()]; it carries [new_data] and
    [successful_updates]. *)
Fixpoint updates_loop (fuel : nat) (w : CollectorV2.world)
    (pairs : list (string * string * string))
    (new_data : list (list CollectorV2.row)) (successful_updates : nat)
    (sys : system)
  : Run.outcome (list (list CollectorV2.row) * nat) * system :=
  match pairs with
  | [] => (Run.Returned (new_data, successful_updates), sys)
  | (symbol, base_asset, coingecko_id) :: rest =>
      let '(fetched, sys1) :=
        lift (CollectorV2.get_historical_data fuel w coingecko_id 2) sys in
      match fetched with
      | None => (Run.Raised, sys1)
      | Some [] =>
          updates_loop fuel w rest new_data successful_updates sys1
      | Some df =>
          let df := tail 1 (sort_values_date df) in
          let df' :=
            map (add_pair_information symbol base_asset coingecko_id) df in
          updates_loop fuel w rest (new_data ++ [df'])
            (S successful_updates) sys1
      end
  end.

(** [collect_daily_update()] *)
Definition collect_daily_update (fuel : nat) (w : CollectorV2.world)
    (sys : system) : Run.outcome unit * system :=
  match csv_files sys !! "crypto_data.csv" with
  | None => (Run.Returned tt, sys)
  | Some existing_df =>
      let pairs := drop_duplicates_first (map pair_columns existing_df) in
      let '(result, sys1) := updates_loop fuel w pairs [] 0 sys in
      match result with
      | Run.Raised => (Run.Raised, sys1)
      | Run.Returned (new_data, successful_updates) =>
          match new_data with
          | [] => (Run.Returned tt, sys1)
          | _ =>
              let new_df := concat new_data in
              let combined_df := CollectorV2.merge_daily existing_df new_df in
              (Run.Returned tt,
               write (fun files => <["crypto_data.csv" := combined_df]> files)
                 sys1)
          end
      end
  end.
End Daily.

End RunV2.

(* ===================================================================== *)
(** ** Vocabulary of the further properties *)
(* ===================================================================== *)

Module Extra.

(** What [map_binance_to_coingecko] of [collector.py] answers when the
    listing it reads is the fixed mapping [m]. *)
Definition resolve_cached (m : gmap string string) (binance_symbol : string)
  : option string :=
  match Collector.extract_base_symbol binance_symbol with
  | Some base_symbol => if Py.truthy base_symbol then m !! base_symbol else None
  | None => None
  end.

(** The mapping loop of [enrich_with_coingecko_data] run against a fixed
    listing: the dict and the skipped list it ends with. *)
Fixpoint map_symbols_cached (m : gmap string string) (symbols : list string)
    (symbol_to_coingecko : list (string * string)) (skipped_symbols : list string)
  : list (string * string) * list string :=
  match symbols with
  | [] => (symbol_to_coingecko, skipped_symbols)
  | symbol :: rest =>
      match resolve_cached m symbol with
      | Some id =>
          if Py.truthy id
          then map_symbols_cached m rest
                 (Py.dict_set symbol_to_coingecko symbol id) skipped_symbols
          else map_symbols_cached m rest symbol_to_coingecko
                 (skipped_symbols ++ [symbol])
      | None =>
          map_symbols_cached m rest symbol_to_coingecko
            (skipped_symbols ++ [symbol])
      end
  end.

(** Whether a trading pair has a base asset to look up. *)
Definition has_base (binance_symbol : string) : bool :=
  match Collector.extract_base_symbol binance_symbol with
  | Some base_symbol => Py.truthy base_symbol
  | None => false
  end.

Definition is_coins_list (e : Collector.event) : bool :=
  match e with Collector.EvCoinsList _ => true | _ => false end.

Definition is_network (e : Collector.event) : bool :=
  match e with
  | Collector.EvCoinsList _ | Collector.EvCoinsMarkets _ _
  | Collector.EvKlines _ _ => true
  | _ => false
  end.

(** The first coin of a listing whose symbol, upper-cased, is [s]. *)
Definition first_coin (upper : string -> string) (s : string)
    (coins : list Collector.coin) : option Collector.coin :=
  List.find (fun c => String.eqb (upper (Collector.coin_symbol c)) s) coins.

(** The listing of the example provider, and a collector that has it
    cached since clock reading 0. *)
Definition example_listing : gmap string string :=
  Collector.build_symbol_map Py.ascii_upper
    [ {| Collector.coin_id := "bitcoin"; Collector.coin_symbol := "btc";
         Collector.coin_name := "Bitcoin" |};
      {| Collector.coin_id := "ethereum"; Collector.coin_symbol := "eth";
         Collector.coin_name := "Ethereum" |} ].

Definition warm_collector : Collector.collector :=
  snd (Collector.get_coingecko_coins_list Examples.partial_world Collector.init).

(** The entries the successful [/coins/markets] responses returned, in the
    order they arrived. *)
Fixpoint returned_entries
    (requests : list (list string * option (list Collector.market_coin)))
  : list Collector.market_coin :=
  match requests with
  | [] => []
  | (_, Some data) :: rest => data ++ returned_entries rest
  | (_, None) :: rest => returned_entries rest
  end.

(** The last entry of a list of market entries that carries the id. *)
Fixpoint last_entry (cg_id : string) (entries : list Collector.market_coin)
  : option Collector.market_coin :=
  match entries with
  | [] => None
  | c :: rest =>
      match last_entry cg_id rest with
      | Some x => Some x
      | None => if String.eqb (Collector.mc_id c) cg_id then Some c else None
      end
  end.

(** The events of the listing lookup: clock readings and [/coins/list]
    requests. *)
Definition is_listing_event (e : Collector.event) : bool :=
  match e with
  | Collector.EvNow | Collector.EvCoinsList _ => true
  | _ => false
  end.

Definition is_pause (e : Collector.event) : bool :=
  match e with Collector.EvSleep _ => true | _ => false end.

Definition succeeded
    (request : list string * option (list Collector.market_coin)) : bool :=
  match snd request with Some _ => true | None => false end.

(** Whether a coin of the v2 listing has a name equal, ignoring case, to
    its symbol: the test of the [elif] in [get_coingecko_coins_list]. *)
Definition name_matches (upper lower : string -> string)
    (c : CollectorV2.coin) : bool :=
  String.eqb (lower (CollectorV2.coin_name c))
             (lower (upper (CollectorV2.coin_symbol c))).

Definition has_symbol (upper : string -> string) (s : string)
    (c : CollectorV2.coin) : bool :=
  String.eqb (upper (CollectorV2.coin_symbol c)) s.

(** A world whose exchange answers every klines request with one clean
    candle. *)
Definition single_candle_world : Collector.world :=
  {| Collector.clock := fun _ => 0%Z;
     Collector.coins_list := fun _ => None;
     Collector.coins_markets := fun _ _ => None;
     Collector.historical_klines :=
       fun _ _ _ => Collector.KlinesOk [Examples.good_kline];
     Collector.str_upper := Py.ascii_upper;
     Collector.to_date := Examples.utc_day |}.

(** The coin whose id the v2 listing stores for the symbol [s]: the first
    coin with that symbol, unless later coins with the symbol have a
    matching name, in which case the last of those. *)
Definition preferred_coin (upper lower : string -> string) (s : string)
    (coins : list CollectorV2.coin) : option CollectorV2.coin :=
  match List.filter (has_symbol upper s) coins with
  | [] => None
  | c0 :: later =>
      Some (default c0 (last (List.filter (name_matches upper lower) later)))
  end.

(** The length of [zip(a, b, c)]. *)
Definition zip3_length {A B C : Type} (a : list A) (b : list B) (c : list C)
  : nat :=
  Nat.min (Nat.min (length a) (length b)) (length c).

(** The klines requests among some events, in order. *)
Fixpoint klines_requests (evs : list Collector.event) : list (string * Z) :=
  match evs with
  | [] => []
  | Collector.EvKlines symbol days :: rest =>
      (symbol, days) :: klines_requests rest
  | _ :: rest => klines_requests rest
  end.

(** The window of [days] days has a start whenever the clock is read:
    [datetime.now() - timedelta(days=days)] never overflows. *)
Definition window_always (w : Collector.world) (days : Z) : Prop :=
  forall t, Collector.start_time (Collector.clock w t) days <> None.
(** The window of [days] days has no start at any clock reading. *)
Definition window_never (w : Collector.world) (days : Z) : Prop :=
  forall t, Collector.start_time (Collector.clock w t) days = None.
(** Whether a klines response carries no candle at all. *)
Definition no_candles (r : Collector.klines_result) : bool :=
  match r with
  | Collector.KlinesOk (_ :: _) => false
  | _ => true
  end.

(** The path of the dataset a collector with data directory [data_dir]
    writes. *)
Definition dataset_path (data_dir : string) : string :=
  Py.path_join data_dir Collector.default_filename.

(** The calendar day [datetime.now().date()] yields when the clock is read
    from the state [sys]. *)
Definition today (w : Collector.world) (sys : Run.system) : Z :=
  (Collector.clock w (length (Collector.log (Run.collector_of sys)))
   / Collector.one_day_us)%Z.

(** An exchange whose ticker lists two pairs, one of them with a price that
    is not a number, and that lists three pairs of which two are trading. *)
Definition example_exchange : Run.exchange :=
  {| Run.exchange_info := fun _ =>
       Run.ClientOk
         [ {| Run.si_symbol := "BTCUSDT"; Run.si_status := "TRADING" |};
           {| Run.si_symbol := "LUNAUSDT"; Run.si_status := "BREAK" |};
           {| Run.si_symbol := "ETHUSDT"; Run.si_status := "TRADING" |} ];
     Run.ticker_24h := fun _ =>
       Run.ClientOk
         [ {| Run.t_symbol := "BTCUSDT"; Run.t_openPrice := "41000.0";
              Run.t_highPrice := "43000.0"; Run.t_lowPrice := "40500.0";
              Run.t_lastPrice := "42000.0"; Run.t_volume := "1200.5";
              Run.t_quoteVolume := "50000000.0"; Run.t_count := 900 |};
           {| Run.t_symbol := "BADUSDT"; Run.t_openPrice := "n/a";
              Run.t_highPrice := "1.0"; Run.t_lowPrice := "1.0";
              Run.t_lastPrice := "1.0"; Run.t_volume := "1.0";
              Run.t_quoteVolume := "1.0"; Run.t_count := 1 |} ] |}.

(** A world whose exchange has no candles for anyone. *)
Definition no_candles_world : Collector.world :=
  {| Collector.clock := fun _ => 0%Z;
     Collector.coins_list := Collector.coins_list Examples.partial_world;
     Collector.coins_markets := Collector.coins_markets Examples.partial_world;
     Collector.historical_klines := fun _ _ _ => Collector.KlinesApiError;
     Collector.str_upper := Py.ascii_upper;
     Collector.to_date := Examples.utc_day |}.

(** The files [collect_historical_data] of [crypto_collector_v2.py]
    writes, and the one its [collect_daily_update] reads. *)
Definition historical_file : string := RunV2.filename "historical".
Definition checkpoint_file (n : nat) : string :=
  RunV2.filename ("checkpoint_" +:+ pretty n).
Definition daily_file : string := RunV2.filename "".
(** The USDT pairs a listing of the exchange offers for trading. *)
Definition usdt_pairs (symbols : list RunV2.symbol_info)
  : list RunV2.symbol_info :=
  List.filter RunV2.is_usdt_pair symbols.
(** A row of the v2 dataset that belongs to a USDT pair the listing
    offers for trading and carries the id [mapping] holds for its base
    asset. *)
Definition row_of_listing (symbols : list RunV2.symbol_info)
    (mapping : gmap string string) (r : CollectorV2.row) : Prop :=
  (exists symbol_info,
     In symbol_info (usdt_pairs symbols) /\
     CollectorV2.symbol r = RunV2.si_symbol symbol_info /\
     CollectorV2.base_asset r = RunV2.si_baseAsset symbol_info) /\
  mapping !! CollectorV2.base_asset r = Some (CollectorV2.coingecko_id r).
(** The same of a row and a list of [usdt_pairs] entries. *)
Definition row_of_pairs (binance_pairs : list RunV2.pair_info)
    (mapping : gmap string string) (r : CollectorV2.row) : Prop :=
  (exists pair_info,
     In pair_info binance_pairs /\
     CollectorV2.symbol r = RunV2.p_symbol pair_info /\
     CollectorV2.base_asset r = RunV2.p_base_asset pair_info) /\
  mapping !! CollectorV2.base_asset r = Some (CollectorV2.coingecko_id r).
(** A stable sort by date, one of the sorts [sort_values('date')] may
    be. *)
Definition stable_sort_date (df : list CollectorV2.chart_row)
  : list CollectorV2.chart_row :=
  Pandas.sort_values
    (fun a b => String.leb (CollectorV2.c_date a) (CollectorV2.c_date b)) df.
(** Whether a row's pair columns are those of some row of a frame. *)
Definition pair_known (existing_df : list CollectorV2.row)
    (r : CollectorV2.row) : Prop :=
  In (RunV2.pair_columns r) (map RunV2.pair_columns existing_df).
(** A dataset of one row, a day older than the example chart. *)
Definition old_dataset : list CollectorV2.row :=
  [ {| CollectorV2.date := "2022-01-07"; CollectorV2.symbol := "BNBUSDT";
       CollectorV2.base_asset := "BNB";
       CollectorV2.coingecko_id := "binancecoin";
       CollectorV2.price := 41000%Q; CollectorV2.volume := 29000000000%Q;
       CollectorV2.market_cap := 790000000000%Q;
       CollectorV2.timestamp := 1641513600000%Z |} ].
(** A provider that serves the chart at once, and lists no coin. *)
Definition calm_world_v2 : CollectorV2.world :=
  {| CollectorV2.time := fun t => inject_Z (Z.of_nat t);
     CollectorV2.get_coins_list := fun _ => None;
     CollectorV2.get_market_chart :=
       fun _ _ _ => CollectorV2.HttpOk Examples.one_day_chart;
     CollectorV2.local_date := fun _ => Some "2022-01-08";
     CollectorV2.str_upper := Py.ascii_upper;
     CollectorV2.str_lower := Py.ascii_lower |}.
(** A provider that serves the chart at once, on a platform whose
    [fromtimestamp] rejects every timestamp. *)
Definition dateless_world_v2 : CollectorV2.world :=
  {| CollectorV2.time := fun t => inject_Z (Z.of_nat t);
     CollectorV2.get_coins_list := fun _ => None;
     CollectorV2.get_market_chart :=
       fun _ _ _ => CollectorV2.HttpOk Examples.one_day_chart;
     CollectorV2.local_date := fun _ => None;
     CollectorV2.str_upper := Py.ascii_upper;
     CollectorV2.str_lower := Py.ascii_lower |}.
(** An exchange that lists two USDT pairs for trading, a pair quoted in
    another asset and a pair that is not trading. *)
Definition example_exchange_v2 : RunV2.exchange :=
  {| RunV2.exchange_info := fun _ =>
       Some
         [ {| RunV2.si_symbol := "BNBUSDT"; RunV2.si_status := "TRADING";
              RunV2.si_quoteAsset := "USDT"; RunV2.si_baseAsset := "BNB" |};
           {| RunV2.si_symbol := "ETHBTC"; RunV2.si_status := "TRADING";
              RunV2.si_quoteAsset := "BTC"; RunV2.si_baseAsset := "ETH" |};
           {| RunV2.si_symbol := "FAKEUSDT"; RunV2.si_status := "TRADING";
              RunV2.si_quoteAsset := "USDT"; RunV2.si_baseAsset := "FAKE" |};
           {| RunV2.si_symbol := "LUNAUSDT"; RunV2.si_status := "BREAK";
              RunV2.si_quoteAsset := "USDT"; RunV2.si_baseAsset := "LUNA" |} ] |}.
(** An exchange whose listing has no USDT pair that is trading. *)
Definition quiet_exchange_v2 : RunV2.exchange :=
  {| RunV2.exchange_info := fun _ =>
       Some
         [ {| RunV2.si_symbol := "ETHBTC"; RunV2.si_status := "TRADING";
              RunV2.si_quoteAsset := "BTC"; RunV2.si_baseAsset := "ETH" |};
           {| RunV2.si_symbol := "LUNAUSDT"; RunV2.si_status := "BREAK";
              RunV2.si_quoteAsset := "USDT"; RunV2.si_baseAsset := "LUNA" |} ] |}.

End Extra.

(* ===================================================================== *)
(** ** Facts about the string primitives *)
(* ===================================================================== *)

Section StringFacts.

Lemma string_length_app (a b : string) :
  String.length (a +:+ b) = (String.length a + String.length b)%nat.
Proof. induction a as [|c a IH]; simpl; [reflexivity | now rewrite IH]. Qed.

Lemma substring_all (s : string) : substring 0 (String.length s) s = s.
Proof. induction s as [|c s IH]; simpl; [reflexivity | now rewrite IH]. Qed.

Lemma substring_app_prefix (a b : string) :
  substring 0 (String.length a) (a +:+ b) = a.
Proof.
  induction a as [|c a IH]; simpl.
  - destruct b; reflexivity.
  - now rewrite IH.
Qed.

Lemma substring_app_suffix (a b : string) :
  substring (String.length a) (String.length b) (a +:+ b) = b.
Proof.
  induction a as [|c a IH]; simpl; [apply substring_all | exact IH].
Qed.

(** Every substring taken from offset [n] onwards splits the string. *)
Lemma substring_split (s : string) (n m : nat) :
  (n + m = String.length s)%nat ->
  s = substring 0 n s +:+ substring n m s.
Proof.
  revert n m; induction s as [|c s IH]; intros n m H; simpl in H.
  - assert (n = 0%nat) by lia. assert (m = 0%nat) by lia. subst. reflexivity.
  - destruct n as [|n].
    + simpl in H. subst m. simpl. now rewrite substring_all.
    + change (String c s = String c (substring 0 n s +:+ substring n m s)).
      f_equal. apply IH. lia.
Qed.

Lemma endswith_spec (s q : string) :
  Py.endswith s q = true <-> exists b, s = b +:+ q.
Proof.
  unfold Py.endswith. rewrite andb_true_iff, Nat.leb_le, String.eqb_eq. split.
  - intros [Hle Hsub].
    exists (substring 0 (String.length s - String.length q) s).
    pose proof (substring_split s (String.length s - String.length q)
                  (String.length q)) as Hs.
    rewrite Hsub in Hs. apply Hs. lia.
  - intros [b ->]. rewrite string_length_app. split; [lia |].
    replace (String.length b + String.length q - String.length q)%nat
      with (String.length b) by lia.
    apply substring_app_suffix.
Qed.

Lemma slice_to_neg_app (b q : string) :
  q <> EmptyString -> Py.slice_to_neg (b +:+ q) (String.length q) = b.
Proof.
  intros Hq. unfold Py.slice_to_neg.
  destruct (String.length q) eqn:E.
  - destruct q; [congruence | discriminate].
  - rewrite <- E, string_length_app.
    replace (String.length b + String.length q - String.length q)%nat
      with (String.length b) by lia.
    apply substring_app_prefix.
Qed.

(** Two suffixes of one string are comparable: one is a suffix of the other. *)
Lemma suffix_comparable (b1 : string) : forall b2 q1 q2 : string,
  b1 +:+ q1 = b2 +:+ q2 ->
  (exists c, q1 = c +:+ q2) \/ (exists c, q2 = c +:+ q1).
Proof.
  induction b1 as [|x b1 IH]; intros b2 q1 q2 H.
  - left. exists b2. exact H.
  - destruct b2 as [|y b2].
    + right. exists (String x b1). symmetry. exact H.
    + change (String x (b1 +:+ q1) = String y (b2 +:+ q2)) in H.
      injection H as _ H. eapply IH; eauto.
Qed.

End StringFacts.

(* ===================================================================== *)
(** ** The order on strings *)
(* ===================================================================== *)

Section StringOrder.

Lemma string_compare_refl (s : string) : String.compare s s = Eq.
Proof.
  pose proof (String.compare_antisym s s) as H.
  destruct (String.compare s s); simpl in H; congruence.
Qed.

Lemma ascii_compare_lt_trans (a b c : ascii) :
  Ascii.compare a b = Lt -> Ascii.compare b c = Lt -> Ascii.compare a c = Lt.
Proof.
  unfold Ascii.compare. rewrite !N.compare_lt_iff. apply N.lt_trans.
Qed.

Lemma string_compare_lt_trans (s1 : string) : forall s2 s3 : string,
  String.compare s1 s2 = Lt -> String.compare s2 s3 = Lt ->
  String.compare s1 s3 = Lt.
Proof.
  induction s1 as [|c1 s1 IH]; intros [|c2 s2] [|c3 s3]; simpl;
    try discriminate; try reflexivity.
  destruct (Ascii.compare c1 c2) eqn:E12; try discriminate;
    destruct (Ascii.compare c2 c3) eqn:E23; try discriminate; intros H12 H23.
  - apply Ascii.compare_eq_iff in E12, E23. subst.
    rewrite (proj2 (N.compare_eq_iff _ _) eq_refl
             : Ascii.compare c3 c3 = Eq). eauto.
  - apply Ascii.compare_eq_iff in E12. subst. now rewrite E23.
  - apply Ascii.compare_eq_iff in E23. subst. now rewrite E12.
  - now rewrite (ascii_compare_lt_trans _ _ _ E12 E23).
Qed.

Lemma string_leb_trans (s1 s2 s3 : string) :
  String.leb s1 s2 = true -> String.leb s2 s3 = true -> String.leb s1 s3 = true.
Proof.
  unfold String.leb.
  destruct (String.compare s1 s2) eqn:E12; try discriminate;
    destruct (String.compare s2 s3) eqn:E23; try discriminate; intros _ _.
  - apply String.compare_eq_iff in E12, E23. subst.
    now rewrite string_compare_refl.
  - apply String.compare_eq_iff in E12. subst. now rewrite E23.
  - apply String.compare_eq_iff in E23. subst. now rewrite E12.
  - now rewrite (string_compare_lt_trans _ _ _ E12 E23).
Qed.

(** A lexicographic order: first by [String.compare] on one column, then
    by a total, transitive order on a second column. *)
Lemma lex_le_total {Row : Type} (col : Row -> string) (le2 : Row -> Row -> bool) :
  (forall a b, le2 a b = false -> le2 b a = true) ->
  forall a b,
  match String.compare (col a) (col b) with
  | Lt => true | Gt => false | Eq => le2 a b
  end = false ->
  match String.compare (col b) (col a) with
  | Lt => true | Gt => false | Eq => le2 b a
  end = true.
Proof.
  intros Htot a b. rewrite (String.compare_antisym (col a) (col b)).
  destruct (String.compare (col b) (col a)); simpl;
    try discriminate; try reflexivity. apply Htot.
Qed.

Lemma lex_le_trans {Row : Type} (col : Row -> string) (le2 : Row -> Row -> bool) :
  (forall a b c, le2 a b = true -> le2 b c = true -> le2 a c = true) ->
  forall a b c,
  match String.compare (col a) (col b) with
  | Lt => true | Gt => false | Eq => le2 a b
  end = true ->
  match String.compare (col b) (col c) with
  | Lt => true | Gt => false | Eq => le2 b c
  end = true ->
  match String.compare (col a) (col c) with
  | Lt => true | Gt => false | Eq => le2 a c
  end = true.
Proof.
  intros Htrans a b c.
  destruct (String.compare (col a) (col b)) eqn:E12; try discriminate;
    destruct (String.compare (col b) (col c)) eqn:E23; try discriminate;
    intros H12 H23.
  - apply String.compare_eq_iff in E12, E23. rewrite E12, E23.
    rewrite string_compare_refl. eauto.
  - apply String.compare_eq_iff in E12. rewrite E12. now rewrite E23.
  - apply String.compare_eq_iff in E23. rewrite <- E23. now rewrite E12.
  - now rewrite (string_compare_lt_trans _ _ _ E12 E23).
Qed.

End StringOrder.

(* ===================================================================== *)
(** ** SymbolResolver: suffix extraction *)
(* ===================================================================== *)

Section ExtractBase.

Import Collector.

Lemma quote_assets_suffix_free : Spec.quotes_suffix_free quote_assets = true.
Proof. vm_compute. reflexivity. Qed.

Lemma suffix_free_eq (q1 q2 : string) :
  In q1 quote_assets -> In q2 quote_assets ->
  Py.endswith q1 q2 = true -> q1 = q2.
Proof.
  intros H1 H2 He.
  pose proof quote_assets_suffix_free as Hf. unfold Spec.quotes_suffix_free in Hf.
  rewrite forallb_forall in Hf. specialize (Hf _ H1).
  rewrite forallb_forall in Hf. specialize (Hf _ H2).
  rewrite He in Hf. simpl in Hf. now apply String.eqb_eq.
Qed.

(** In [B +:+ Q] the only recognised suffix is [Q] itself. *)
Lemma only_suffix (B Q Q' : string) :
  In Q quote_assets -> In Q' quote_assets ->
  Py.endswith (B +:+ Q) Q' = true -> Q' = Q.
Proof.
  intros HQ HQ' He. apply endswith_spec in He as [B' He].
  destruct (suffix_comparable _ _ _ _ He) as [Hc | Hc].
  - symmetry. apply suffix_free_eq; auto. now apply endswith_spec.
  - apply suffix_free_eq; auto. now apply endswith_spec.
Qed.

Lemma quote_nonempty (Q : string) : In Q quote_assets -> Q <> EmptyString.
Proof.
  intros H ->. revert H. unfold quote_assets. simpl.
  intuition discriminate.
Qed.

Lemma extract_loop_hit (B Q : string) (qs : list string) :
  B <> EmptyString -> In Q quote_assets -> In Q qs ->
  (forall Q', In Q' qs -> In Q' quote_assets) ->
  extract_loop (B +:+ Q) qs = Some B.
Proof.
  intros HB HQ. induction qs as [|q qs IH]; intros Hin Hsub; [destruct Hin |].
  simpl. destruct (Py.endswith (B +:+ Q) q) eqn:He.
  - assert (q = Q) as -> by (apply (only_suffix B); auto; apply Hsub; now left).
    rewrite slice_to_neg_app by now apply quote_nonempty.
    destruct B; [congruence | reflexivity].
  - destruct Hin as [-> | Hin].
    + assert (Py.endswith (B +:+ Q) Q = true) as Ht by (apply endswith_spec; eauto).
      congruence.
    + apply IH; auto. intros Q' HQ'. apply Hsub. now right.
Qed.

Lemma extract_loop_miss (s : string) (qs : list string) :
  (forall Q, In Q qs -> Py.endswith s Q = false) ->
  extract_loop s qs = None.
Proof.
  induction qs as [|q qs IH]; intros H; simpl; [reflexivity |].
  rewrite (H q) by now left. apply IH. intros Q HQ. apply H. now right.
Qed.

End ExtractBase.

(** C5. Suffix extraction determinism: for a recognised quote asset [Q] and a
    non-empty base [B], [extract_base_symbol (B +:+ Q)] returns exactly [B];
    a symbol that ends in no recognised quote asset yields [None], the
    unresolvable sentinel (the function is total: it never raises). *)
Theorem extract_base_symbol_determinism :
  (forall B Q : string,
      In Q Collector.quote_assets -> B <> EmptyString ->
      Collector.extract_base_symbol (B +:+ Q) = Some B) /\
  (forall s : string,
      (forall Q, In Q Collector.quote_assets -> ~ exists B, s = B +:+ Q) ->
      Collector.extract_base_symbol s = None).
Proof.
  split.
  - intros B Q HQ HB. unfold Collector.extract_base_symbol.
    apply extract_loop_hit; auto.
  - intros s H. unfold Collector.extract_base_symbol.
    apply extract_loop_miss. intros Q HQ.
    destruct (Py.endswith s Q) eqn:E; [| reflexivity].
    exfalso. apply (H Q HQ). now apply endswith_spec.
Qed.

Lemma extract_base_symbol_determinism_witness :
  Collector.extract_base_symbol ("BTC" +:+ "USDT") = Some "BTC" /\
  Collector.extract_base_symbol "FAKEXYZ" = None.
Proof.
  destruct extract_base_symbol_determinism as [Hhit Hmiss]. split.
  - apply Hhit; [simpl; tauto | discriminate].
  - apply Hmiss. intros Q HQ [B HB].
    assert (Py.endswith "FAKEXYZ" Q = true) as He by (apply endswith_spec; eauto).
    revert He. simpl in HQ.
    repeat (destruct HQ as [<- | HQ]; [vm_compute; discriminate |]).
    destruct HQ.
Defined.

(* ===================================================================== *)
(** ** Facts about the pandas primitives *)
(* ===================================================================== *)

Section FrameFacts.

Context {Row K : Type} `{EqDecision K}.
Variable key : Row -> K.

Local Abbreviation ddl := (Pandas.drop_duplicates_last key).
Local Abbreviation lwk := (Pandas.last_with_key key).

Lemma last_with_key_None (k : K) (rows : list Row) :
  lwk k rows = None <-> ~ In k (map key rows).
Proof.
  induction rows as [|r rest IH]; simpl; [tauto |].
  destruct (lwk k rest) eqn:E.
  - split; [discriminate |]. intros Hn. exfalso.
    assert (~ In k (map key rest)) as Hr by tauto.
    apply IH in Hr. discriminate.
  - assert (~ In k (map key rest)) as Hr by now apply IH.
    case_bool_decide as Hk; split; try discriminate; try tauto.
Qed.

Lemma last_with_key_Some (k : K) (rows : list Row) (r : Row) :
  lwk k rows = Some r -> key r = k /\ In r rows.
Proof.
  induction rows as [|x rest IH]; simpl; [discriminate |].
  destruct (lwk k rest) eqn:E.
  - intros [= ->]. destruct IH as [? ?]; auto.
  - case_bool_decide as Hk; [| discriminate]. intros [= ->]. auto.
Qed.

Lemma last_with_key_app (k : K) (l1 l2 : list Row) :
  lwk k (l1 ++ l2) =
  match lwk k l2 with Some x => Some x | None => lwk k l1 end.
Proof.
  induction l1 as [|x l1 IH]; simpl.
  - now destruct (lwk k l2).
  - rewrite IH. destruct (lwk k l2); [reflexivity |].
    reflexivity.
Qed.

(** The last row of [l ++ r :: after] for the key of [r] is [r] when no row
    of [after] carries that key. *)
Lemma last_with_key_split (r : Row) (before after : list Row) :
  Forall (fun x => key x <> key r) after ->
  lwk (key r) (before ++ r :: after) = Some r.
Proof.
  intros Hafter. rewrite last_with_key_app. simpl.
  assert (lwk (key r) after = None) as ->.
  { apply last_with_key_None. rewrite in_map_iff. intros (x & Hx & Hin).
    rewrite List.Forall_forall in Hafter. now apply (Hafter x). }
  now rewrite bool_decide_eq_true_2.
Qed.

Lemma drop_duplicates_last_In (r : Row) (rows : list Row) :
  In r (ddl rows) <-> lwk (key r) rows = Some r.
Proof.
  induction rows as [|x rest IH]; simpl; [split; [tauto | discriminate] |].
  case_bool_decide as Hx.
  - apply list_elem_of_In in Hx. rewrite IH.
    destruct (lwk (key r) rest) eqn:E; [tauto |].
    split; [discriminate |]. case_bool_decide as Hk; [| discriminate].
    apply last_with_key_None in E. congruence.
  - rewrite list_elem_of_In in Hx. simpl. rewrite IH.
    destruct (lwk (key r) rest) as [y|] eqn:E.
    + split; [| tauto]. intros [-> | Hy]; [| exact Hy].
      exfalso. apply Hx. destruct (last_with_key_Some _ _ _ E) as [<- Hin].
      apply in_map_iff. eauto.
    + case_bool_decide as Hk.
      * split; [intros [-> | ?]; [reflexivity | discriminate] |].
        intros [= ->]. now left.
      * split; [intros [-> | ?]; [congruence | discriminate] | discriminate].
Qed.

Lemma drop_duplicates_last_keys (k : K) (rows : list Row) :
  In k (map key (ddl rows)) <-> In k (map key rows).
Proof.
  induction rows as [|x rest IH]; simpl; [tauto |].
  case_bool_decide as Hx.
  - apply list_elem_of_In in Hx. rewrite IH. split; [tauto |].
    intros [<- | ?]; tauto.
  - simpl. now rewrite IH.
Qed.

Lemma drop_duplicates_last_NoDup (rows : list Row) :
  List.NoDup (map key (ddl rows)).
Proof.
  induction rows as [|x rest IH]; simpl; [constructor |].
  case_bool_decide as Hx; [exact IH |].
  rewrite list_elem_of_In in Hx. simpl. constructor; [| exact IH].
  now rewrite drop_duplicates_last_keys.
Qed.

(** In a frame with pairwise distinct keys every row is the last one for
    its key. *)
Lemma last_with_key_NoDup (rows : list Row) (r : Row) :
  List.NoDup (map key rows) -> In r rows -> lwk (key r) rows = Some r.
Proof.
  induction rows as [|x rest IH]; simpl; [tauto |].
  intros Hnd Hin. apply List.NoDup_cons_iff in Hnd as [Hx Hnd].
  destruct Hin as [-> | Hin].
  - assert (lwk (key r) rest = None) as -> by now apply last_with_key_None.
    now rewrite bool_decide_eq_true_2.
  - now rewrite (IH Hnd Hin).
Qed.

(** The rows of a deduplicated frame that carry a key: the last row for the
    key, alone. *)
Lemma drop_duplicates_last_filter (k : K) (rows : list Row) :
  List.filter (fun r => bool_decide (key r = k)) (ddl rows) =
  match lwk k rows with Some x => [x] | None => [] end.
Proof.
  induction rows as [|x rest IH]; simpl; [reflexivity |].
  case_bool_decide as Hx.
  - apply list_elem_of_In in Hx. rewrite IH.
    destruct (lwk k rest) eqn:E; [reflexivity |].
    case_bool_decide as Hk; [| reflexivity].
    apply last_with_key_None in E. congruence.
  - rewrite list_elem_of_In in Hx. simpl. rewrite IH.
    case_bool_decide as Hk.
    + assert (lwk k rest = None) as -> by (apply last_with_key_None; congruence).
      reflexivity.
    + now destruct (lwk k rest).
Qed.

Variable le : Row -> Row -> bool.
Hypothesis le_total : forall a b, le a b = false -> le b a = true.

Local Abbreviation sortv := (Pandas.sort_values le).

Lemma insert_sorted_Permutation (r : Row) (rows : list Row) :
  Permutation (Pandas.insert_sorted le r rows) (r :: rows).
Proof.
  induction rows as [|x rest IH]; simpl; [reflexivity |].
  destruct (le r x); [reflexivity |].
  rewrite IH. apply perm_swap.
Qed.

Lemma sort_values_Permutation (rows : list Row) : Permutation (sortv rows) rows.
Proof.
  induction rows as [|r rest IH]; simpl; [reflexivity |].
  rewrite insert_sorted_Permutation. now constructor.
Qed.

Lemma sort_values_In (r : Row) (rows : list Row) : In r (sortv rows) <-> In r rows.
Proof.
  split; apply Permutation_in;
    [apply sort_values_Permutation | symmetry; apply sort_values_Permutation].
Qed.

Lemma insert_sorted_Sorted (r : Row) (rows : list Row) :
  Sorted (fun a b => le a b = true) rows ->
  Sorted (fun a b => le a b = true) (Pandas.insert_sorted le r rows).
Proof.
  induction rows as [|x rest IH]; simpl; intros Hs.
  - repeat constructor.
  - destruct (le r x) eqn:E.
    + constructor; [exact Hs | now constructor].
    + apply Sorted_inv in Hs as [Hs Hhd]. constructor; [now apply IH |].
      destruct rest as [|y rest']; simpl.
      * constructor. now apply le_total.
      * destruct (le r y); constructor; [now apply le_total |].
        now apply HdRel_inv in Hhd.
Qed.

Lemma sort_values_Sorted (rows : list Row) :
  Sorted (fun a b => le a b = true) (sortv rows).
Proof.
  induction rows as [|r rest IH]; simpl; [constructor |].
  now apply insert_sorted_Sorted.
Qed.

Lemma sort_values_StronglySorted (rows : list Row) :
  (forall a b c, le a b = true -> le b c = true -> le a c = true) ->
  StronglySorted (fun a b => le a b = true) (sortv rows).
Proof.
  intros Htrans. apply Sorted.Sorted_StronglySorted; [| apply sort_values_Sorted].
  intros a b c. apply Htrans.
Qed.

Lemma filter_Permutation_bool (f : Row -> bool) (l1 l2 : list Row) :
  Permutation l1 l2 -> Permutation (List.filter f l1) (List.filter f l2).
Proof.
  induction 1 as [| x l1 l2 _ IH | x y l | l1 l2 l3 _ IH1 _ IH2]; simpl.
  - reflexivity.
  - destruct (f x); [now constructor | exact IH].
  - destruct (f x), (f y); try reflexivity. apply perm_swap.
  - now transitivity (List.filter f l2).
Qed.

(** Merging: dedup then sort. The rows for one key, and membership. *)
Lemma merged_filter (k : K) (l1 l2 : list Row) (r : Row) :
  lwk k (l1 ++ l2) = Some r ->
  List.filter (fun x => bool_decide (key x = k)) (sortv (ddl (l1 ++ l2))) = [r].
Proof.
  intros Hl.
  pose proof (filter_Permutation_bool (fun x => bool_decide (key x = k)) _ _
                (sort_values_Permutation (ddl (l1 ++ l2)))) as Hp.
  rewrite drop_duplicates_last_filter, Hl in Hp.
  symmetry in Hp. now apply Permutation_length_1_inv in Hp.
Qed.

Lemma merged_In (l1 l2 : list Row) (r : Row) :
  In r (sortv (ddl (l1 ++ l2))) <-> lwk (key r) (l1 ++ l2) = Some r.
Proof. now rewrite sort_values_In, drop_duplicates_last_In. Qed.

Lemma merged_NoDup (l1 l2 : list Row) :
  List.NoDup (map key (sortv (ddl (l1 ++ l2)))).
Proof.
  eapply Permutation.Permutation_NoDup; [| apply (drop_duplicates_last_NoDup (l1 ++ l2))].
  apply Permutation_map. symmetry. apply sort_values_Permutation.
Qed.

(** Merging the same rows into the merged frame again changes no row. *)
Lemma merged_twice_In (l1 l2 : list Row) (r : Row) :
  In r (sortv (ddl (sortv (ddl (l1 ++ l2)) ++ l2))) <->
  In r (sortv (ddl (l1 ++ l2))).
Proof.
  rewrite !merged_In, (last_with_key_app _ (sortv _) l2), last_with_key_app.
  destruct (lwk (key r) l2) eqn:E2; [reflexivity |].
  split.
  - intros Hl. apply last_with_key_Some in Hl as [_ Hin].
    apply merged_In in Hin. now rewrite last_with_key_app, E2 in Hin.
  - intros Hl. apply last_with_key_NoDup; [apply merged_NoDup |].
    apply merged_In. now rewrite last_with_key_app, E2.
Qed.

End FrameFacts.

(* ===================================================================== *)
(** ** CsvStore: [save_to_csv] *)
(* ===================================================================== *)

Section CsvStore.

Import Collector.

Lemma row_le_total (a b : row) : row_le a b = false -> row_le b a = true.
Proof.
  apply (lex_le_total row_symbol
           (fun r1 r2 => (date (row_bar r1) <=? date (row_bar r2))%Z)).
  intros x y. rewrite Z.leb_gt, Z.leb_le. lia.
Qed.

Lemma row_le_trans (a b c : row) :
  row_le a b = true -> row_le b c = true -> row_le a c = true.
Proof.
  apply (lex_le_trans row_symbol
           (fun r1 r2 => (date (row_bar r1) <=? date (row_bar r2))%Z)).
  intros x y z. rewrite !Z.leb_le. lia.
Qed.

Lemma merge_frames_In (existing_df df : list row) (r : row) :
  In r (merge_frames existing_df df) <->
  Pandas.last_with_key row_key (row_key r) (existing_df ++ df) = Some r.
Proof. apply merged_In. Qed.

Lemma merge_frames_sorted (existing_df df : list row) :
  Spec.sorted_by_symbol_date (merge_frames existing_df df).
Proof.
  apply sort_values_StronglySorted; [apply row_le_total | apply row_le_trans].
Qed.

Lemma save_to_csv_append (data_dir filename : string) (fs : disk)
    (existing_df df : list row) :
  df <> [] ->
  fs !! Py.path_join data_dir filename = Some existing_df ->
  save_to_csv data_dir df filename "a" fs =
  <[Py.path_join data_dir filename := merge_frames existing_df df]> fs.
Proof.
  intros Hne Hfs. unfold save_to_csv. destruct df; [congruence |].
  now rewrite Hfs.
Qed.

Lemma save_to_csv_create (data_dir filename : string) (fs : disk) (df : list row) :
  df <> [] ->
  fs !! Py.path_join data_dir filename = None ->
  save_to_csv data_dir df filename "a" fs =
  <[Py.path_join data_dir filename := df]> fs.
Proof.
  intros Hne Hfs. unfold save_to_csv. destruct df; [congruence |].
  now rewrite Hfs.
Qed.

Lemma key_consistent_last (df : list row) (r : row) :
  Spec.key_consistent df ->
  In r df <-> Pandas.last_with_key row_key (row_key r) df = Some r.
Proof.
  intros Hc. split; [| apply last_with_key_Some].
  intros Hin.
  destruct (Pandas.last_with_key row_key (row_key r) df) as [x|] eqn:E.
  - apply last_with_key_Some in E as [Hk Hx]. f_equal. now apply Hc.
  - apply last_with_key_None in E. exfalso. apply E.
    apply in_map_iff. eauto.
Qed.

(** The merge of [collect_daily_update] in [crypto_collector_v2.py] is the
    same three pandas calls; the same facts hold for it. *)
Lemma merge_daily_last_wins (existing_df before after : list CollectorV2.row)
    (B : CollectorV2.row) :
  List.Forall (fun r => CollectorV2.row_key r <> CollectorV2.row_key B) after ->
  List.filter (fun r => bool_decide (CollectorV2.row_key r = CollectorV2.row_key B))
    (CollectorV2.merge_daily existing_df (before ++ B :: after)) = [B].
Proof.
  intros Hafter. apply merged_filter. rewrite app_assoc.
  now apply last_with_key_split.
Qed.

Lemma merge_daily_sorted (existing_df new_df : list CollectorV2.row) :
  StronglySorted (fun r1 r2 => CollectorV2.row_le r1 r2 = true)
    (CollectorV2.merge_daily existing_df new_df).
Proof.
  apply sort_values_StronglySorted.
  - apply (lex_le_total CollectorV2.symbol
             (fun r1 r2 => String.leb (CollectorV2.date r1) (CollectorV2.date r2))).
    intros x y Hxy.
    destruct (String.leb_total (CollectorV2.date x) (CollectorV2.date y));
      congruence.
  - apply (lex_le_trans CollectorV2.symbol
             (fun r1 r2 => String.leb (CollectorV2.date r1) (CollectorV2.date r2))).
    intros x y z. apply string_leb_trans.
Qed.

End CsvStore.

(** C1. Merge last-wins: the file exists and holds a row [A] for a key; the
    rows written in mode ['a'] hold [B] for the same key ([B] is the last
    row for that key among the written rows, [after] holding none). Then
    the file holds exactly one row for that key, and it is [B]; [A] is gone
    unless it equals [B]; and the file is sorted by [(symbol, date)]. *)
Theorem save_to_csv_merge_last_wins
    (data_dir filename : string) (fs : gmap string (list Collector.row))
    (existing_df before after : list Collector.row) (A B : Collector.row) :
  fs !! Py.path_join data_dir filename = Some existing_df ->
  In A existing_df ->
  Collector.row_key A = Collector.row_key B ->
  List.Forall (fun r => Collector.row_key r <> Collector.row_key B) after ->
  exists file,
    Collector.save_to_csv data_dir (before ++ B :: after) filename "a" fs
      !! Py.path_join data_dir filename = Some file /\
    Spec.rows_with_key (Collector.row_key B) file = [B] /\
    (A <> B -> ~ In A file) /\
    Spec.sorted_by_symbol_date file.
Proof.
  intros Hfs HA HAB Hafter.
  exists (Collector.merge_frames existing_df (before ++ B :: after)).
  assert (Spec.rows_with_key (Collector.row_key B)
            (Collector.merge_frames existing_df (before ++ B :: after)) = [B])
    as Hrows.
  { apply merged_filter. rewrite app_assoc.
    now apply last_with_key_split. }
  split; [| split; [exact Hrows | split]].
  - rewrite (save_to_csv_append _ _ _ existing_df); [| | exact Hfs].
    + apply lookup_insert_eq.
    + destruct before; discriminate.
  - intros Hne Hin.
    assert (In A (Spec.rows_with_key (Collector.row_key B)
              (Collector.merge_frames existing_df (before ++ B :: after))))
      as HinA.
    { apply filter_In. split; [exact Hin |]. now apply bool_decide_eq_true_2. }
    rewrite Hrows in HinA. destruct HinA as [-> | []]. congruence.
  - apply merge_frames_sorted.
Qed.

Lemma save_to_csv_merge_last_wins_witness :
  exists file,
    Collector.save_to_csv "data" [Examples.row_B] "all_pairs_eod.csv" "a"
      Examples.disk_with_A !! Examples.csv_path = Some file /\
    Spec.rows_with_key (Collector.row_key Examples.row_B) file
      = [Examples.row_B] /\
    (Examples.row_A <> Examples.row_B -> ~ In Examples.row_A file) /\
    Spec.sorted_by_symbol_date file.
Proof.
  apply (save_to_csv_merge_last_wins "data" "all_pairs_eod.csv"
           Examples.disk_with_A [Examples.row_A; Examples.row_other]
           [] [] Examples.row_A Examples.row_B).
  - apply lookup_singleton_eq.
  - simpl. tauto.
  - reflexivity.
  - constructor.
Defined.

(** C8 as stated fails: with no file on disk, writing two rows that share a
    key once stores both, and writing them again leaves only the last. *)
Lemma merge_idempotence_counterexample :
  ~ Spec.merge_idempotent_at "data" "all_pairs_eod.csv" ∅
      [Examples.row_A; Examples.row_B].
Proof.
  unfold Spec.merge_idempotent_at.
  rewrite (save_to_csv_create "data" "all_pairs_eod.csv" ∅) by
    (try discriminate; apply lookup_empty).
  rewrite (save_to_csv_append "data" "all_pairs_eod.csv" _
             [Examples.row_A; Examples.row_B]) by
    (try discriminate; apply lookup_insert_eq).
  rewrite !lookup_insert_eq. simpl. intros H.
  assert (In Examples.row_A
            (Collector.merge_frames [Examples.row_A; Examples.row_B]
               [Examples.row_A; Examples.row_B])) as Hin
    by (apply H; simpl; tauto).
  vm_compute in Hin. destruct Hin as [Heq | []]. discriminate Heq.
Qed.

(** C8, amended. Merge idempotence holds when the destination file already
    exists, and also from a missing file when no two different input rows
    share a [(date, symbol)] key: writing the rows twice in mode ['a']
    leaves the same row set as writing them once. *)
Theorem save_to_csv_merge_idempotent
    (data_dir filename : string) (fs : gmap string (list Collector.row))
    (df : list Collector.row) :
  is_Some (fs !! Py.path_join data_dir filename) \/ Spec.key_consistent df ->
  Spec.merge_idempotent_at data_dir filename fs df.
Proof.
  intros Hcase. unfold Spec.merge_idempotent_at.
  destruct df as [|r0 df0] eqn:Edf.
  { simpl. destruct (fs !! Py.path_join data_dir filename); simpl; tauto. }
  rewrite <- Edf in *. assert (df <> []) as Hne by (subst; discriminate).
  clear Edf.
  destruct (fs !! Py.path_join data_dir filename) as [existing_df|] eqn:Hfs.
  - rewrite (save_to_csv_append _ _ fs existing_df) by assumption.
    rewrite (save_to_csv_append _ _ _ (Collector.merge_frames existing_df df))
      by (try assumption; apply lookup_insert_eq).
    rewrite !lookup_insert_eq. simpl. intros r. apply merged_twice_In.
  - destruct Hcase as [[x Hx] | Hc]; [discriminate |].
    rewrite (save_to_csv_create _ _ fs) by assumption.
    rewrite (save_to_csv_append _ _ _ df)
      by (try assumption; apply lookup_insert_eq).
    rewrite !lookup_insert_eq. simpl. intros r.
    rewrite merge_frames_In, last_with_key_app.
    rewrite (key_consistent_last df r Hc).
    now destruct (Pandas.last_with_key Collector.row_key (Collector.row_key r) df).
Qed.

Lemma save_to_csv_merge_idempotent_witness :
  Spec.merge_idempotent_at "data" "all_pairs_eod.csv" Examples.disk_with_A
    [Examples.row_A; Examples.row_B].
Proof.
  apply save_to_csv_merge_idempotent. left.
  exists [Examples.row_A; Examples.row_other]. apply lookup_singleton_eq.
Defined.

(** C9. Empty-write no-op: whatever the mode and whatever the disk holds,
    [save_to_csv] with an empty frame returns and leaves the disk, and so
    the destination file, exactly as it was. *)
Theorem save_to_csv_empty_noop
    (data_dir filename mode : string) (fs : gmap string (list Collector.row)) :
  Collector.save_to_csv data_dir [] filename mode fs = fs.
Proof. reflexivity. Qed.

(* ===================================================================== *)
(** ** HistoricalDataFetcher: malformed numeric text *)
(* ===================================================================== *)

Section Klines.

Import Collector.
Variable to_float : string -> option Py.float.

Lemma convert_klines_bad_cell (w : world) (symbol : string)
    (klines : list kline) (k : kline) :
  In k klines -> convert_kline to_float w symbol k = None ->
  convert_klines to_float w symbol klines = None.
Proof.
  induction klines as [|x rest IH]; simpl; [tauto |].
  intros [-> | Hin] Hbad.
  - now rewrite Hbad.
  - rewrite (IH Hin Hbad). now destruct (convert_kline to_float w symbol x).
Qed.

Lemma get_historical_klines_unfold (w : world) (symbol : string) (days : Z)
    (self : collector) :
  fst (get_historical_klines to_float w symbol days self) =
  match Spec.window_start w self days with
  | None => []
  | Some _ =>
      match Spec.klines_response w self symbol days with
      | KlinesOk klines =>
          match convert_klines to_float w symbol klines with
          | Some df => df
          | None => []
          end
      | _ => []
      end
  end.
Proof.
  unfold get_historical_klines, Spec.klines_response, Spec.window_start,
    datetime_now, tick, emit, StateM.bind, StateM.ret. cbv beta iota.
  cbn [fst snd log].
  destruct (start_time (clock w (length (log self))) days); [| reflexivity].
  cbv beta iota. cbn [fst snd log].
  rewrite length_app, Nat.add_1_r. cbn [length].
  destruct (historical_klines w (S (length (log self))) symbol days)
    as [klines| |]; try reflexivity.
  destruct klines as [|k rest]; [reflexivity |].
  now destruct (convert_klines to_float w symbol (k :: rest)).
Qed.

End Klines.

(** C3 as stated fails: the exchange returns one clean candle and one whose
    close is not a number; the clean candle converts on its own, yet the
    call returns the empty frame. *)
Lemma klines_malformed_counterexample :
  ~ Spec.keeps_well_formed_rows Py.float_of_decimal Examples.klines_world
      "BTCUSDT" [Examples.good_kline; Examples.bad_kline]
      (fst (Collector.get_historical_klines Py.float_of_decimal
              Examples.klines_world "BTCUSDT" 3 Collector.init)).
Proof.
  intros H.
  destruct (Collector.convert_kline Py.float_of_decimal Examples.klines_world
              "BTCUSDT" Examples.good_kline) as [b|] eqn:E;
    [| vm_compute in E; discriminate].
  specialize (H Examples.good_kline b (or_introl eq_refl) E).
  rewrite get_historical_klines_unfold in H. vm_compute in H. exact H.
Qed.

(** C3, amended. A numeric field that fails to parse is fatal for the whole
    batch: when any candle of the response has such a field, or an open
    time that the date conversion rejects, [get_historical_klines] returns
    the empty frame, whatever the other candles hold. *)
Theorem get_historical_klines_malformed_drops_batch
    (to_float : string -> option Py.float) (w : Collector.world)
    (symbol : string) (days : Z) (self : Collector.collector)
    (klines : list Collector.kline) (k : Collector.kline) :
  Spec.klines_response w self symbol days = Collector.KlinesOk klines ->
  In k klines ->
  Collector.convert_kline to_float w symbol k = None ->
  fst (Collector.get_historical_klines to_float w symbol days self) = [].
Proof.
  intros Hresp Hin Hbad. rewrite get_historical_klines_unfold, Hresp.
  rewrite (convert_klines_bad_cell to_float w symbol klines k Hin Hbad).
  now destruct (Spec.window_start w self days).
Qed.

Lemma get_historical_klines_malformed_drops_batch_witness :
  fst (Collector.get_historical_klines Py.float_of_decimal
         Examples.klines_world "BTCUSDT" 3 Collector.init) = [].
Proof.
  apply (get_historical_klines_malformed_drops_batch Py.float_of_decimal
           Examples.klines_world "BTCUSDT" 3 Collector.init
           [Examples.good_kline; Examples.bad_kline] Examples.bad_kline).
  - reflexivity.
  - simpl. tauto.
  - vm_compute. reflexivity.
Defined.

(* ===================================================================== *)
(** ** SymbolResolver: resolution order of [crypto_collector_v2.py] *)
(* ===================================================================== *)

(** C4 as stated fails: [BNB] is not cached, the special-case table maps it
    to [binancecoin], the listing maps it to another coin, and the listing's
    id is returned. *)
Lemma override_precedence_counterexample :
  ~ Spec.override_wins "BNB" Examples.bnb_listing (CollectorV2.init ∅).
Proof.
  intros H. specialize (H "binancecoin" eq_refl eq_refl).
  vm_compute in H. discriminate H.
Qed.

(** C4, amended. On a cache miss the bulk listing is consulted before the
    special-case table and takes precedence over it: the listing's id is
    returned when the listing knows the base asset, and the special-case
    table is used only when it does not. An id found either way is written
    to the cache. *)
Theorem map_binance_to_coingecko_listing_first
    (base_asset : string) (symbol_to_id : gmap string string)
    (self : CollectorV2.collector) :
  CollectorV2.symbol_mapping self !! base_asset = None ->
  let resolved :=
    match symbol_to_id !! base_asset with
    | Some listing_id => Some listing_id
    | None => CollectorV2.special_mappings !! base_asset
    end in
  let '(result, self') :=
    CollectorV2.map_binance_to_coingecko base_asset symbol_to_id self in
  result = resolved /\
  CollectorV2.symbol_mapping self' =
    match resolved with
    | Some id => <[base_asset := id]> (CollectorV2.symbol_mapping self)
    | None => CollectorV2.symbol_mapping self
    end.
Proof.
  intros Hmiss. unfold CollectorV2.map_binance_to_coingecko, StateM.bind,
    StateM.get, StateM.ret, CollectorV2.set_mapping. simpl. rewrite Hmiss.
  destruct (symbol_to_id !! base_asset) as [listing_id|]; simpl; [auto |].
  destruct (CollectorV2.special_mappings !! base_asset); simpl; auto.
Qed.

Lemma map_binance_to_coingecko_listing_first_witness :
  fst (CollectorV2.map_binance_to_coingecko "BNB" Examples.bnb_listing
         (CollectorV2.init ∅)) = Some "binance-coin-wormhole".
Proof.
  pose proof (map_binance_to_coingecko_listing_first "BNB"
                Examples.bnb_listing (CollectorV2.init ∅) eq_refl) as H.
  cbv zeta in H.
  destruct (CollectorV2.map_binance_to_coingecko "BNB" Examples.bnb_listing
              (CollectorV2.init ∅)) as [result self'].
  destruct H as [-> _]. reflexivity.
Defined.

(* ===================================================================== *)
(** ** Retry on 429 in [get_historical_data] *)
(* ===================================================================== *)

Section Retry.

Import CollectorV2.
Variable w : world.

Lemma requests_made_app (l1 l2 : list event) :
  requests_made (l1 ++ l2) = (requests_made l1 + requests_made l2)%nat.
Proof. unfold requests_made. now rewrite List.filter_app, length_app. Qed.

Lemma backoffs_made_app (l1 l2 : list event) :
  backoffs_made (l1 ++ l2) = (backoffs_made l1 + backoffs_made l2)%nat.
Proof. unfold backoffs_made. now rewrite List.filter_app, length_app. Qed.

(** The rate limiter reads the clock and may sleep; it issues no request
    and no 429 back-off. *)
Lemma rate_limit_coingecko_counts (self : collector) :
  let self' := snd (rate_limit_coingecko w self) in
  requests_made (log self') = requests_made (log self) /\
  backoffs_made (log self') = backoffs_made (log self).
Proof.
  cbv beta iota zeta delta [rate_limit_coingecko StateM.bind StateM.get
    StateM.ret tick emit set_calls].
  match goal with |- context [if ?b then _ else _] => destruct b end;
    cbn [fst snd log]; rewrite ?requests_made_app, ?backoffs_made_app;
    cbn; lia.
Qed.

(** One unfolding of [get_historical_data]: the rate limiter, the request,
    and the three ways the response is handled. *)
Lemma get_historical_data_step (fuel : nat) (coingecko_id : string) (days : Z)
    (self : collector) :
  let self1 := snd (rate_limit_coingecko w self) in
  let self2 := snd (emit (EvMarketChart coingecko_id days) self1) in
  let response :=
    get_market_chart w (requests_made (log self1)) coingecko_id days in
  get_historical_data (S fuel) w coingecko_id days self =
  match response with
  | HttpError status_code =>
      if (status_code =? 429)%Z
      then get_historical_data fuel w coingecko_id days
             (snd (emit (EvSleep Backoff429 60%Q) self2))
      else (Some (Spec.outcome w response), self2)
  | _ => (Some (Spec.outcome w response), self2)
  end.
Proof.
  cbv zeta. cbn [get_historical_data]. unfold StateM.bind at 1.
  destruct (rate_limit_coingecko w self) as [[] self1]. simpl.
  unfold StateM.bind, StateM.get, StateM.ret, emit. simpl.
  destruct (get_market_chart w (requests_made (log self1)) coingecko_id days)
    as [data | status_code |]; cbn [Spec.outcome]; try reflexivity.
  - destruct (is_empty (prices data) || is_empty (market_caps data)
              || is_empty (total_volumes data)); [reflexivity |].
    now destruct (chart_rows w (prices data) (market_caps data)
                    (total_volumes data)).
  - now destruct (status_code =? 429)%Z.
Qed.

Lemma get_historical_data_retries (coingecko_id : string) (days : Z) (n : nat) :
  forall (self : collector) (fuel : nat),
  (forall i, (i < n)%nat ->
     get_market_chart w (requests_made (log self) + i) coingecko_id days
       = HttpError 429) ->
  get_market_chart w (requests_made (log self) + n) coingecko_id days
    <> HttpError 429 ->
  (n < fuel)%nat ->
  let run := get_historical_data fuel w coingecko_id days self in
  fst run = Some (Spec.outcome w
              (get_market_chart w (requests_made (log self) + n)
                 coingecko_id days)) /\
  requests_made (log (snd run)) = (requests_made (log self) + n + 1)%nat /\
  backoffs_made (log (snd run)) = (backoffs_made (log self) + n)%nat.
Proof.
  induction n as [|n IH]; intros self fuel Hlimited Hlast Hfuel;
    (destruct fuel as [|fuel]; [lia |]); cbv zeta;
    rewrite get_historical_data_step; cbv zeta;
    destruct (rate_limit_coingecko_counts self) as [Hreq Hback];
    cbv zeta in Hreq, Hback;
    set (self1 := snd (rate_limit_coingecko w self)) in *; clearbody self1;
    rewrite Hreq; unfold emit; cbn [fst snd log].
  - rewrite Nat.add_0_r in Hlast |- *.
    destruct (get_market_chart w (requests_made (log self)) coingecko_id days)
      as [data | status_code |] eqn:E.
    + cbn [fst snd log].
      rewrite requests_made_app, backoffs_made_app, Hreq, Hback.
      cbn. repeat split; lia.
    + destruct (status_code =? 429)%Z eqn:E429.
      * apply Z.eqb_eq in E429. subst. congruence.
      * cbn [fst snd log].
        rewrite requests_made_app, backoffs_made_app, Hreq, Hback.
        cbn. repeat split; lia.
    + cbn [fst snd log].
      rewrite requests_made_app, backoffs_made_app, Hreq, Hback.
      cbn. repeat split; lia.
  - pose proof (Hlimited 0%nat ltac:(lia)) as H0. rewrite Nat.add_0_r in H0.
    rewrite H0. change (429 =? 429)%Z with true. cbv iota.
    match goal with
    | |- context [get_historical_data fuel w coingecko_id days ?st] =>
        set (self3 := st)
    end.
    assert (requests_made (log self3) = S (requests_made (log self))) as Hr3.
    { subst self3. cbn [log]. rewrite !requests_made_app, Hreq. cbn. lia. }
    assert (backoffs_made (log self3) = S (backoffs_made (log self))) as Hb3.
    { subst self3. cbn [log]. rewrite !backoffs_made_app, Hback. cbn. lia. }
    clearbody self3.
    specialize (IH self3 fuel). cbv zeta in IH. rewrite Hr3, Hb3 in IH.
    replace (requests_made (log self) + S n)%nat
      with (S (requests_made (log self)) + n)%nat by lia.
    destruct IH as (Hres & Hreqs & Hbacks).
    + intros i Hi. replace (S (requests_made (log self)) + i)%nat
        with (requests_made (log self) + S i)%nat by lia.
      apply Hlimited. lia.
    + replace (S (requests_made (log self)) + n)%nat
        with (requests_made (log self) + S n)%nat by lia. exact Hlast.
    + lia.
    + repeat split; [exact Hres | lia | lia].
Qed.

Lemma without_limiter_app (l1 l2 : list event) :
  Spec.without_limiter (l1 ++ l2)
  = Spec.without_limiter l1 ++ Spec.without_limiter l2.
Proof. unfold Spec.without_limiter. apply List.filter_app. Qed.

(** The rate limiter only appends events of its own. *)
Lemma rate_limit_coingecko_log (self : collector) :
  exists evs,
    log (snd (rate_limit_coingecko w self)) = log self ++ evs /\
    Spec.without_limiter evs = [].
Proof.
  cbv beta iota zeta delta [rate_limit_coingecko StateM.bind StateM.get
    StateM.ret tick emit set_calls].
  match goal with |- context [if ?b then _ else _] => destruct b end;
    cbn [fst snd log]; rewrite <- ?app_assoc;
    eexists; (split; [reflexivity | reflexivity]).
Qed.

(** The requests and back-offs of a call, in order: every 429 is followed
    by a back-off of 60 seconds and by the same request again. *)
Lemma get_historical_data_trace (coingecko_id : string) (days : Z) (n : nat) :
  forall (self : collector) (fuel : nat),
  (forall i, (i < n)%nat ->
     get_market_chart w (requests_made (log self) + i) coingecko_id days
       = HttpError 429) ->
  get_market_chart w (requests_made (log self) + n) coingecko_id days
    <> HttpError 429 ->
  (n < fuel)%nat ->
  exists evs,
    log (snd (get_historical_data fuel w coingecko_id days self))
      = log self ++ evs /\
    Spec.without_limiter evs = Spec.retry_trace coingecko_id days n.
Proof.
  induction n as [|n IH]; intros self fuel Hlimited Hlast Hfuel;
    (destruct fuel as [|fuel]; [lia |]);
    rewrite get_historical_data_step; cbv zeta;
    destruct (rate_limit_coingecko_counts self) as [Hreq _];
    destruct (rate_limit_coingecko_log self) as (evs0 & Hlog0 & Hevs0);
    cbv zeta in Hreq;
    set (self1 := snd (rate_limit_coingecko w self)) in *; clearbody self1;
    rewrite Hreq; unfold emit; cbn [fst snd log].
  - rewrite Nat.add_0_r in Hlast.
    assert (exists evs,
              log self1 ++ [EvMarketChart coingecko_id days] = log self ++ evs /\
              Spec.without_limiter evs = Spec.retry_trace coingecko_id days 0)
      as Hdone.
    { exists (evs0 ++ [EvMarketChart coingecko_id days]).
      rewrite Hlog0, <- app_assoc. split; [reflexivity |].
      rewrite without_limiter_app, Hevs0. reflexivity. }
    destruct (get_market_chart w (requests_made (log self)) coingecko_id days)
      as [data | status_code |] eqn:E; cbn [fst snd log]; try exact Hdone.
    destruct (status_code =? 429)%Z eqn:E429; cbn [fst snd log];
      [| exact Hdone].
    apply Z.eqb_eq in E429. subst. congruence.
  - pose proof (Hlimited 0%nat ltac:(lia)) as H0. rewrite Nat.add_0_r in H0.
    rewrite H0. change (429 =? 429)%Z with true. cbv iota.
    match goal with
    | |- context [get_historical_data fuel w coingecko_id days ?st] =>
        set (self3 := st)
    end.
    assert (requests_made (log self3) = S (requests_made (log self))) as Hr3.
    { subst self3. cbn [log]. rewrite !requests_made_app, Hreq. cbn. lia. }
    assert (log self3 =
            log self ++ evs0 ++ [EvMarketChart coingecko_id days;
                                 EvSleep Backoff429 60%Q]) as Hl3.
    { subst self3. cbn [log]. rewrite Hlog0, <- !app_assoc. reflexivity. }
    clearbody self3.
    destruct (IH self3 fuel) as (evs & Hlog & Hevs).
    + intros i Hi. rewrite Hr3.
      replace (S (requests_made (log self)) + i)%nat
        with (requests_made (log self) + S i)%nat by lia.
      apply Hlimited. lia.
    + rewrite Hr3.
      replace (S (requests_made (log self)) + n)%nat
        with (requests_made (log self) + S n)%nat by lia. exact Hlast.
    + lia.
    + exists ((evs0 ++ [EvMarketChart coingecko_id days;
                        EvSleep Backoff429 60%Q]) ++ evs).
      rewrite Hlog, Hl3, <- !app_assoc. split; [reflexivity |].
      rewrite !without_limiter_app, Hevs0, Hevs. reflexivity.
Qed.

End Retry.

(** C2 as stated fails: the provider answers 429 twice and then serves the
    chart. The call backs off twice, issues three requests — two retries —
    and returns the chart's row instead of an empty result. *)
Lemma retry_bound_counterexample :
  let run := CollectorV2.get_historical_data 3 Examples.twice_limited_world
               "bitcoin" 365 (CollectorV2.init ∅) in
  (exists r, fst run = Some [r]) /\
  CollectorV2.requests_made (CollectorV2.log (snd run)) = 3%nat /\
  CollectorV2.backoffs_made (CollectorV2.log (snd run)) = 2%nat /\
  ~ Spec.at_most_one_retry Examples.twice_limited_world "bitcoin" 365
      (CollectorV2.init ∅) 3.
Proof.
  cbv zeta. split; [| split; [| split]].
  - eexists. vm_compute. reflexivity.
  - vm_compute. reflexivity.
  - vm_compute. reflexivity.
  - unfold Spec.at_most_one_retry. vm_compute. lia.
Qed.

(** C2, amended. Every 429 response is followed by one 60-second back-off
    and a retry of the same request, and the retry is handled like the
    original request: when the provider answers 429 to [n] requests in a
    row and something else to the next one, the call backs off [n] times,
    issues [n + 1] requests, and returns what that last response yields
    (its rows, or the empty frame for an error, an incomplete body or a
    timestamp without a local date). Apart from the rate limiter's own
    clock readings and sleeps, the effects of the call are [n] rounds of
    the request followed by a sleep of 60 seconds, and then the request
    once more. There is no bound of one retry. *)
Theorem get_historical_data_retries_every_429
    (w : CollectorV2.world) (coingecko_id : string) (days : Z) (n : nat)
    (self : CollectorV2.collector) (fuel : nat) :
  let k0 := CollectorV2.requests_made (CollectorV2.log self) in
  (forall i, (i < n)%nat ->
     CollectorV2.get_market_chart w (k0 + i) coingecko_id days
       = CollectorV2.HttpError 429) ->
  CollectorV2.get_market_chart w (k0 + n) coingecko_id days
    <> CollectorV2.HttpError 429 ->
  (n < fuel)%nat ->
  let run := CollectorV2.get_historical_data fuel w coingecko_id days self in
  fst run = Some (Spec.outcome w
              (CollectorV2.get_market_chart w (k0 + n) coingecko_id days)) /\
  CollectorV2.requests_made (CollectorV2.log (snd run)) = (k0 + n + 1)%nat /\
  CollectorV2.backoffs_made (CollectorV2.log (snd run)) =
    (CollectorV2.backoffs_made (CollectorV2.log self) + n)%nat /\
  Spec.without_limiter (Spec.events_since_v2 self (snd run))
    = Spec.retry_trace coingecko_id days n.
Proof.
  cbv zeta. intros Hlimited Hlast Hfuel.
  destruct (get_historical_data_retries w coingecko_id days n self fuel
              Hlimited Hlast Hfuel) as (Hres & Hreqs & Hbacks).
  destruct (get_historical_data_trace w coingecko_id days n self fuel
              Hlimited Hlast Hfuel) as (evs & Hlog & Hevs).
  repeat split; try assumption.
  unfold Spec.events_since_v2. rewrite Hlog, drop_app_length. exact Hevs.
Qed.

Lemma get_historical_data_retries_every_429_witness :
  let run := CollectorV2.get_historical_data 3 Examples.twice_limited_world
               "bitcoin" 365 (CollectorV2.init ∅) in
  fst run = Some (Spec.outcome Examples.twice_limited_world
                    (CollectorV2.HttpOk Examples.one_day_chart)) /\
  CollectorV2.requests_made (CollectorV2.log (snd run)) = 3%nat /\
  CollectorV2.backoffs_made (CollectorV2.log (snd run)) = 2%nat /\
  Spec.without_limiter (Spec.events_since_v2 (CollectorV2.init ∅) (snd run))
    = Spec.retry_trace "bitcoin" 365 2.
Proof.
  apply (get_historical_data_retries_every_429 Examples.twice_limited_world
           "bitcoin" 365 2 (CollectorV2.init ∅) 3).
  - intros i Hi. destruct i as [|[|i]]; [reflexivity | reflexivity | lia].
  - discriminate.
  - lia.
Defined.

(* ===================================================================== *)
(** ** MarketDataFetcher: batching in [get_coingecko_market_data] *)
(* ===================================================================== *)

Section Batching.

Import Collector.

(** Equalities of finite sets built from unions, by membership. *)
Local Ltac by_membership :=
  apply set_eq; intros ?;
  rewrite ?elem_of_union, ?elem_of_list_to_set, ?elem_of_cons;
  try (rewrite ?elem_of_empty); tauto.

Lemma range_from_length (step : nat) :
  (0 < step)%nat ->
  forall fuel start stop : nat,
  (stop - start <= fuel)%nat ->
  length (Py.range_from fuel start stop step) = Spec.ceil_div (stop - start) step.
Proof.
  intros Hstep. unfold Spec.ceil_div.
  induction fuel as [|fuel IH]; intros start stop Hfuel; simpl.
  - replace (stop - start)%nat with 0%nat by lia. simpl.
    symmetry. apply Nat.div_small. lia.
  - destruct (start <? stop)%nat eqn:E.
    + apply Nat.ltb_lt in E. simpl. rewrite IH by lia.
      destruct (le_lt_dec step (stop - start)) as [Hge | Hlt].
      * replace (stop - start + step - 1)%nat
          with ((stop - (start + step) + step - 1) + 1 * step)%nat by lia.
        rewrite Nat.div_add by lia. lia.
      * replace (stop - (start + step))%nat with 0%nat by lia.
        rewrite (Nat.div_small (0 + step - 1)) by lia.
        apply (Nat.div_unique _ _ 1 (stop - start - 1)); lia.
    + apply Nat.ltb_ge in E. replace (stop - start)%nat with 0%nat by lia.
      simpl. symmetry. apply Nat.div_small. lia.
Qed.

Lemma range_from_slices {A : Type} (l : list A) (step : nat) :
  (0 < step)%nat ->
  forall fuel start : nat,
  (length l - start <= fuel)%nat ->
  concat (map (fun i => Py.slice l i (i + step))
            (Py.range_from fuel start (length l) step)) = drop start l.
Proof.
  intros Hstep. induction fuel as [|fuel IH]; intros start Hfuel; simpl.
  - symmetry. apply drop_ge. lia.
  - destruct (start <? length l)%nat eqn:E.
    + simpl. rewrite IH by (apply Nat.ltb_lt in E; lia).
      unfold Py.slice. replace (start + step - start)%nat with step by lia.
      rewrite <- drop_drop. apply take_drop.
    + apply Nat.ltb_ge in E. symmetry. now apply drop_ge.
Qed.

Lemma slice_length_le {A : Type} (l : list A) (i step : nat) :
  (length (Py.slice l i (i + step)) <= step)%nat.
Proof. unfold Py.slice. rewrite length_take. lia. Qed.

Lemma store_batch_dom (data : list market_coin) :
  forall market_data : gmap string market_record,
  dom (store_batch market_data data) =
  dom market_data ∪ list_to_set (map mc_id data).
Proof.
  unfold store_batch.
  induction data as [|c data IH]; intros market_data; simpl.
  - by_membership.
  - rewrite IH, dom_insert_L. by_membership.
Qed.

Lemma markets_requests_app (evs1 evs2 : list event) :
  Spec.markets_requests (evs1 ++ evs2) =
  Spec.markets_requests evs1 ++ Spec.markets_requests evs2.
Proof.
  induction evs1 as [|e evs1 IH]; simpl; [reflexivity |].
  destruct e; simpl; now rewrite ?IH.
Qed.

Lemma returned_ids_app
    (r1 r2 : list (list string * option (list market_coin))) :
  Spec.returned_ids (r1 ++ r2) = Spec.returned_ids r1 ∪ Spec.returned_ids r2.
Proof.
  induction r1 as [|[ids [data|]] r1 IH]; simpl; rewrite ?IH; by_membership.
Qed.

(** What the loop does, for any list of batch starts: one request per start,
    with the slice at that start, whatever the earlier responses were. *)
Lemma market_data_loop_spec (w : world) (coingecko_ids : list string)
    (starts : list nat) :
  forall (market_data : gmap string market_record) (self : collector),
  let run := market_data_loop w coingecko_ids starts market_data self in
  exists evs,
    log (snd run) = log self ++ evs /\
    map fst (Spec.markets_requests evs) =
      map (fun i => Py.slice coingecko_ids i (i + batch_size)) starts /\
    dom (fst run) =
      dom market_data ∪ Spec.returned_ids (Spec.markets_requests evs) /\
    coingecko_map (snd run) = coingecko_map self /\
    coingecko_map_timestamp (snd run) = coingecko_map_timestamp self.
Proof.
  induction starts as [|i rest IH]; intros market_data self; cbv zeta.
  - exists []. simpl. rewrite app_nil_r. repeat split. by_membership.
  - cbn [market_data_loop].
    unfold StateM.bind at 1, request_coins_markets, StateM.bind, tick, emit,
      StateM.ret.
    set (batch := Py.slice coingecko_ids i (i + batch_size)).
    set (response := coins_markets w (length (log self)) batch).
    destruct response as [data|] eqn:E.
    + unfold sleep, emit.
      cbn [fst snd log coingecko_map coingecko_map_timestamp].
      match goal with
      | |- context [market_data_loop w coingecko_ids rest ?md ?st] =>
          destruct (IH md st) as (evs & Hlog & Hreq & Hdom & Hmap & Hts)
      end.
      cbn [log coingecko_map coingecko_map_timestamp] in Hlog, Hmap, Hts.
      exists (EvCoinsMarkets batch (Some data) :: EvSleep 2 :: evs).
      split; [rewrite Hlog; now rewrite <- !app_assoc |].
      split; [simpl; now rewrite Hreq |].
      split; [| split; assumption].
      rewrite Hdom, store_batch_dom. simpl. by_membership.
    + cbn [fst snd log coingecko_map coingecko_map_timestamp].
      match goal with
      | |- context [market_data_loop w coingecko_ids rest ?md ?st] =>
          destruct (IH md st) as (evs & Hlog & Hreq & Hdom & Hmap & Hts)
      end.
      cbn [log coingecko_map coingecko_map_timestamp] in Hlog, Hmap, Hts.
      exists (EvCoinsMarkets batch None :: evs).
      split; [rewrite Hlog; now rewrite <- !app_assoc |].
      split; [simpl; now rewrite Hreq |].
      split; [| split; assumption].
      rewrite Hdom. reflexivity.
Qed.

Lemma events_since_app (self self' : collector) (evs : list event) :
  log self' = log self ++ evs -> Spec.events_since self self' = evs.
Proof. intros H. unfold Spec.events_since. rewrite H. apply drop_app_length. Qed.

Lemma get_coingecko_market_data_nonempty (w : world) (ids : list string) :
  ids <> [] ->
  get_coingecko_market_data w ids =
  market_data_loop w ids (Py.range 0 (length ids) batch_size) ∅.
Proof. destruct ids; [congruence | reflexivity]. Qed.

End Batching.

(** C6. Batch boundary: [get_coingecko_market_data] on [n] ids issues
    exactly [ceil(n/250)] requests, three for [2*250+1] ids; every batch has
    at most 250 ids and the batches, in order, make up the input, so each id
    is requested once whether its batch succeeds or fails (no retry); the
    keys of the returned mapping are exactly the ids the successful
    responses returned; the empty input returns the empty mapping and
    issues no request. *)
Theorem get_coingecko_market_data_batches
    (w : Collector.world) (coingecko_ids : list string)
    (self : Collector.collector) :
  let run := Collector.get_coingecko_market_data w coingecko_ids self in
  let requests :=
    Spec.markets_requests (Spec.events_since self (snd run)) in
  length requests = Spec.ceil_div (length coingecko_ids) 250 /\
  (length coingecko_ids = (2 * 250 + 1)%nat -> length requests = 3%nat) /\
  List.Forall (fun request => (length (fst request) <= 250)%nat) requests /\
  concat (map fst requests) = coingecko_ids /\
  dom (fst run) = Spec.returned_ids requests /\
  (coingecko_ids = [] ->
   fst run = ∅ /\ Spec.events_since self (snd run) = []).
Proof.
  cbv zeta.
  assert (forall ids, length (Spec.markets_requests
            (Spec.events_since self
               (snd (Collector.get_coingecko_market_data w ids self))))
            = Spec.ceil_div (length ids) 250 /\
          List.Forall (fun request => (length (fst request) <= 250)%nat)
            (Spec.markets_requests (Spec.events_since self
               (snd (Collector.get_coingecko_market_data w ids self)))) /\
          concat (map fst (Spec.markets_requests (Spec.events_since self
               (snd (Collector.get_coingecko_market_data w ids self))))) = ids /\
          dom (fst (Collector.get_coingecko_market_data w ids self)) =
            Spec.returned_ids (Spec.markets_requests (Spec.events_since self
               (snd (Collector.get_coingecko_market_data w ids self)))))
    as Hgen.
  { intros ids. destruct ids as [|id0 ids0].
    - simpl. unfold Spec.events_since. rewrite drop_all. simpl.
      repeat split; auto.
    - rewrite get_coingecko_market_data_nonempty by discriminate.
      set (ids := id0 :: ids0).
      destruct (market_data_loop_spec w ids
                  (Py.range 0 (length ids) Collector.batch_size) ∅ self)
        as (evs & Hlog & Hreq & Hdom & _).
      rewrite (events_since_app _ _ _ Hlog).
      assert (length (Spec.markets_requests evs)
              = Spec.ceil_div (length ids) 250) as Hlen.
      { rewrite <- (length_map fst), Hreq, length_map. unfold Py.range.
        rewrite range_from_length by (unfold Collector.batch_size; lia).
        now rewrite Nat.sub_0_r. }
      split; [exact Hlen |]. split; [| split].
      + apply List.Forall_forall. intros request Hin.
        assert (In (fst request) (map fst (Spec.markets_requests evs))) as Hf
          by (apply in_map_iff; eauto).
        rewrite Hreq in Hf. apply in_map_iff in Hf as (i & <- & _).
        apply (slice_length_le ids i 250).
      + rewrite Hreq. unfold Py.range.
        rewrite range_from_slices by (unfold Collector.batch_size; lia).
        apply drop_0.
      + rewrite Hdom, dom_empty_L. apply union_empty_l_L. }
  destruct (Hgen coingecko_ids) as (Hlen & Hle & Hcat & Hdom).
  split; [exact Hlen |]. split; [| split; [exact Hle | split; [exact Hcat |]]].
  - intros H501. rewrite Hlen, H501. reflexivity.
  - split; [exact Hdom |]. intros ->. simpl. split; [reflexivity |].
    unfold Spec.events_since. apply drop_all.
Qed.

Lemma get_coingecko_market_data_batches_witness :
  let run := Collector.get_coingecko_market_data Examples.flaky_world
               Examples.ids_501 Collector.init in
  length (Spec.markets_requests (Spec.events_since Collector.init (snd run)))
    = 3%nat /\
  fst (Collector.get_coingecko_market_data Examples.flaky_world []
         Collector.init) = ∅.
Proof.
  cbv zeta.
  destruct (get_coingecko_market_data_batches Examples.flaky_world
              Examples.ids_501 Collector.init) as (_ & H501 & _).
  destruct (get_coingecko_market_data_batches Examples.flaky_world
              [] Collector.init) as (_ & _ & _ & _ & _ & Hempty).
  split.
  - apply H501. vm_compute. reflexivity.
  - apply Hempty. reflexivity.
Defined.

(* ===================================================================== *)
(** ** EnrichmentPipeline: [enrich_with_coingecko_data] *)
(* ===================================================================== *)

Section Enrichment.

Import Collector.

Lemma unique_In (s : string) (l : list string) :
  In s (Pandas.unique l) <-> In s l.
Proof.
  induction l as [|x rest IH]; simpl; [tauto |].
  rewrite filter_In, IH.
  destruct (String.eqb_spec x s) as [-> | Hne]; simpl; intuition congruence.
Qed.

Lemma unique_NoDup (l : list string) : List.NoDup (Pandas.unique l).
Proof.
  induction l as [|x rest IH]; simpl; constructor.
  - rewrite filter_In. intros [_ Hx]. now rewrite String.eqb_refl in Hx.
  - now apply List.NoDup_filter.
Qed.

Lemma dict_get_set_eq {V : Type} (d : list (string * V)) (k : string) (v : V) :
  Py.dict_get (Py.dict_set d k v) k = Some v.
Proof.
  induction d as [|[k' v'] d IH]; simpl.
  - now rewrite String.eqb_refl.
  - destruct (String.eqb k k') eqn:E; simpl.
    + now rewrite String.eqb_refl.
    + now rewrite E.
Qed.

Lemma dict_get_set_ne {V : Type} (d : list (string * V)) (k k0 : string) (v : V) :
  k0 <> k -> Py.dict_get (Py.dict_set d k v) k0 = Py.dict_get d k0.
Proof.
  intros Hne. induction d as [|[k' v'] d IH]; simpl.
  - destruct (String.eqb_spec k0 k); [congruence | reflexivity].
  - destruct (String.eqb_spec k k') as [-> | Hk]; simpl.
    + destruct (String.eqb_spec k0 k'); [congruence | reflexivity].
    + destruct (String.eqb_spec k0 k'); [reflexivity | exact IH].
Qed.

(** The mapping loop on distinct symbols that are neither mapped nor
    skipped yet: the other symbols keep their entry, and the skipped list
    gains exactly the symbols of the loop that end up unmapped. *)
Lemma map_symbols_spec (w : world) (symbols : list string) :
  forall (d0 : list (string * string)) (sk0 : list string) (self : collector),
  List.NoDup symbols ->
  (forall s, In s symbols -> Py.dict_get d0 s = None /\ ~ In s sk0) ->
  let result := fst (map_symbols w symbols d0 sk0 self) in
  (forall s, ~ In s symbols -> Py.dict_get (fst result) s = Py.dict_get d0 s) /\
  (forall s, In s (snd result) <->
             In s sk0 \/ (In s symbols /\ Py.dict_get (fst result) s = None)).
Proof.
  induction symbols as [|symbol rest IH]; intros d0 sk0 self Hnd Hfresh;
    cbv zeta.
  - simpl. split; [reflexivity | tauto].
  - apply List.NoDup_cons_iff in Hnd as [Hsym Hnd].
    cbn [map_symbols]. unfold StateM.bind.
    destruct (map_binance_to_coingecko w symbol self) as [cg_id self1].
    cbv beta iota.
    assert ((forall s, ~ In s (symbol :: rest) ->
               Py.dict_get
                 (fst (fst (map_symbols w rest d0 (sk0 ++ [symbol]) self1))) s
               = Py.dict_get d0 s) /\
            (forall s,
               In s (snd (fst (map_symbols w rest d0 (sk0 ++ [symbol]) self1)))
               <-> In s sk0 \/
                   (In s (symbol :: rest) /\
                    Py.dict_get
                      (fst (fst (map_symbols w rest d0 (sk0 ++ [symbol]) self1)))
                      s = None)))
      as Hskip.
    { destruct (IH d0 (sk0 ++ [symbol]) self1 Hnd) as [Hkeep Hsk].
      { intros s Hs. destruct (Hfresh s (or_intror Hs)) as [Hd Hn].
        split; [exact Hd |]. rewrite in_app_iff. simpl.
        intros [? | [-> | []]]; tauto. }
      cbv zeta in Hkeep, Hsk. split.
      - intros s Hs. apply Hkeep. simpl in Hs. tauto.
      - intros s. rewrite Hsk, in_app_iff. simpl.
        assert (Py.dict_get
                  (fst (fst (map_symbols w rest d0 (sk0 ++ [symbol]) self1)))
                  symbol = None) as Hnone.
        { rewrite Hkeep by exact Hsym. apply Hfresh. now left. }
        split.
        + intros [[? | [<- | []]] | [? ?]]; auto.
        + intros [? | [[<- | ?] ?]]; auto. }
    destruct cg_id as [id|]; [| exact Hskip].
    destruct (Py.truthy id); [| exact Hskip].
    destruct (IH (Py.dict_set d0 symbol id) sk0 self1 Hnd) as [Hkeep Hsk].
    { intros s Hs. destruct (Hfresh s (or_intror Hs)) as [Hd Hn].
      split; [| exact Hn]. rewrite dict_get_set_ne; [exact Hd |].
      intros ->. contradiction. }
    cbv zeta in Hkeep, Hsk. split.
    + intros s Hs. simpl in Hs. rewrite Hkeep by tauto.
      apply dict_get_set_ne. intros ->. tauto.
    + intros s. rewrite Hsk. simpl.
      assert (Py.dict_get
                (fst (fst (map_symbols w rest (Py.dict_set d0 symbol id)
                             sk0 self1))) symbol = Some id) as Hsome.
      { rewrite Hkeep by exact Hsym. apply dict_get_set_eq. }
      split.
      * intros [? | [? ?]]; auto.
      * intros [? | [[<- | ?] ?]]; auto. congruence.
Qed.

Lemma notna_enrich_row (d : list (string * string))
    (md : gmap string market_record) (b : bar) :
  notna (enrich_row d md b) = Spec.has_cap d md (symbol b).
Proof.
  unfold notna, enrich_row, Spec.has_cap, Spec.fetched_cap.
  destruct (Py.dict_get d (symbol b)) as [id|]; [| reflexivity].
  now destruct (md !! id) as [data|].
Qed.

Lemma enrich_row_symbol (d : list (string * string))
    (md : gmap string market_record) (b : bar) :
  row_symbol (enrich_row d md b) = symbol b.
Proof.
  unfold enrich_row, row_symbol.
  destruct (Py.dict_get d (symbol b)) as [id|]; [| reflexivity].
  now destruct (md !! id).
Qed.

Lemma In_elements_list_to_set (s : string) (l : list string) :
  In s (elements (list_to_set l : gset string)) <-> In s l.
Proof.
  now rewrite <- list_elem_of_In, elem_of_elements, elem_of_list_to_set,
    list_elem_of_In.
Qed.

(** The symbols of the rows that the [isna] filter keeps. *)
Lemma isna_symbols (d : list (string * string))
    (md : gmap string market_record) (df : list bar) (s : string) :
  In s (map row_symbol (List.filter isna (map (enrich_row d md) df))) <->
  In s (map symbol df) /\ Spec.has_cap d md s = false.
Proof.
  rewrite !in_map_iff. split.
  - intros (r & <- & Hr). apply filter_In in Hr as [Hr Hna].
    apply in_map_iff in Hr as (b & <- & Hb).
    unfold isna in Hna. rewrite notna_enrich_row in Hna.
    rewrite enrich_row_symbol. split; [eauto |].
    now destruct (Spec.has_cap d md (symbol b)).
  - intros [(b & <- & Hb) Hcap]. exists (enrich_row d md b).
    split; [apply enrich_row_symbol |]. apply filter_In.
    split; [apply in_map_iff; eauto |].
    unfold isna. now rewrite notna_enrich_row, Hcap.
Qed.

Lemma has_cap_unmapped (d : list (string * string))
    (md : gmap string market_record) (s : string) :
  Py.dict_get d s = None -> Spec.has_cap d md s = false.
Proof. unfold Spec.has_cap. now intros ->. Qed.

Lemma filter_notna_nil (md : gmap string market_record) (df : list bar) :
  List.filter notna (map (enrich_row [] md) df) = [].
Proof. induction df as [|b df IH]; simpl; [reflexivity | exact IH]. Qed.

(** What a call returns, in terms of what the resolver and the fetcher
    answered during the call. *)
Lemma enrich_result (w : world) (df : list bar) (self : collector) :
  let result := fst (enrich_with_coingecko_data w df self) in
  let d := Spec.resolution w df self in
  let md := Spec.fetched w df self in
  fst result = List.filter notna (map (enrich_row d md) df) /\
  (forall s, In s (snd result) <->
             In s (map symbol df) /\ Spec.has_cap d md s = false).
Proof.
  cbv zeta. unfold Spec.resolution, Spec.fetched.
  destruct df as [|b0 df0]; [simpl; split; [reflexivity | tauto] |].
  set (df := b0 :: df0). unfold enrich_with_coingecko_data.
  change (match df with [] => _ | _ :: _ => ?k end) with k.
  unfold StateM.bind, StateM.ret.
  pose proof (map_symbols_spec w (Pandas.unique (map symbol df)) [] [] self
                (unique_NoDup _)) as Hspec.
  destruct (map_symbols w (Pandas.unique (map symbol df)) [] [] self)
    as [[d sk] self1] eqn:Emap.
  cbv zeta in Hspec. cbv beta iota. cbn [fst snd] in Hspec |- *.
  destruct Hspec as [_ Hsk]; [intros s _; simpl; tauto |].
  assert (forall s, In s sk <-> In s (map symbol df) /\ Py.dict_get d s = None)
    as Hsk'.
  { intros s. rewrite Hsk, unique_In. simpl. tauto. }
  destruct d as [|[k0 v0] d'] eqn:Ed.
  - cbn [fst snd]. split.
    + symmetry. apply filter_notna_nil.
    + intros s. rewrite unique_In. split; [| tauto].
      intros Hs. split; [exact Hs | reflexivity].
  - rewrite <- Ed in *. clear Ed.
    destruct (get_coingecko_market_data w (map snd d) self1) as [md self2].
    cbn [fst snd]. split; [reflexivity |].
    intros s. rewrite in_app_iff, In_elements_list_to_set, unique_In,
      isna_symbols, Hsk'.
    split; [| tauto].
    intros [[Hs Hd] | ?]; [| assumption].
    split; [exact Hs | now apply has_cap_unmapped].
Qed.

(** The symbols of the rows that the [notna] filter keeps. *)
Lemma notna_symbols (d : list (string * string))
    (md : gmap string market_record) (df : list bar) (s : string) :
  In s (map row_symbol (List.filter notna (map (enrich_row d md) df))) <->
  In s (map symbol df) /\ Spec.has_cap d md s = true.
Proof.
  rewrite !in_map_iff. split.
  - intros (r & <- & Hr). apply filter_In in Hr as [Hr Hna].
    apply in_map_iff in Hr as (b & <- & Hb).
    rewrite notna_enrich_row in Hna. rewrite enrich_row_symbol.
    split; [eauto | exact Hna].
  - intros [(b & <- & Hb) Hcap]. exists (enrich_row d md b).
    split; [apply enrich_row_symbol |]. apply filter_In.
    split; [apply in_map_iff; eauto |]. now rewrite notna_enrich_row.
Qed.

Lemma enrich_row_attach (d : list (string * string))
    (md : gmap string market_record) (b : bar) (cg_id : string)
    (data : market_record) :
  Py.dict_get d (symbol b) = Some cg_id -> md !! cg_id = Some data ->
  enrich_row d md b = Spec.attach data b.
Proof.
  intros Hd Hmd. unfold enrich_row, Spec.attach. rewrite Hd, Hmd.
  now destruct data.
Qed.

(** With one symbol that has a market cap and every other symbol of the
    frame without one, the enriched frame is that symbol's bars. *)
Lemma filter_notna_single (d : list (string * string))
    (md : gmap string market_record) (A cg_id : string) (data : market_record)
    (df : list bar) :
  Py.dict_get d A = Some cg_id -> md !! cg_id = Some data ->
  Spec.has_cap d md A = true ->
  (forall b, In b df -> symbol b <> A -> Spec.has_cap d md (symbol b) = false) ->
  List.filter notna (map (enrich_row d md) df) =
  map (Spec.attach data) (Spec.bars_of A df).
Proof.
  intros Hd Hmd HcapA Hothers.
  induction df as [|b df IH]; simpl; [reflexivity |].
  rewrite notna_enrich_row.
  destruct (String.eqb_spec (symbol b) A) as [Heq | Hne].
  - rewrite Heq, HcapA. simpl. rewrite <- Heq in Hd.
    rewrite (enrich_row_attach d md b cg_id data Hd Hmd). f_equal.
    apply IH. intros b' Hb'. apply Hothers. now right.
  - rewrite (Hothers b (or_introl eq_refl) Hne).
    apply IH. intros b' Hb'. apply Hothers. now right.
Qed.

End Enrichment.

(** C7. Enrichment exclusion. For bars over three symbols — [A] resolved
    and with a fetched market cap, [B] unresolved, [C] resolved but without
    a fetched market-cap value — the enriched frame is exactly [A]'s bars
    with [A]'s record attached (one row when [A] has one bar) and the
    skipped list holds exactly the symbols [B] and [C]. In general, a bar
    whose symbol resolved but whose provider id has no fetched market-cap
    value has no row in the output, and its symbol is in the skipped list. *)
Theorem enrich_exclusion
    (w : Collector.world) (df : list Collector.bar) (self : Collector.collector) :
  let result := fst (Collector.enrich_with_coingecko_data w df self) in
  let d := Spec.resolution w df self in
  let md := Spec.fetched w df self in
  (forall (A B C idA idC : string) (dataA : Collector.market_record)
          (capA : Py.float),
     (forall b, In b df ->
        Collector.symbol b = A \/ Collector.symbol b = B \/
        Collector.symbol b = C) ->
     In B (map Collector.symbol df) -> In C (map Collector.symbol df) ->
     Py.dict_get d A = Some idA -> md !! idA = Some dataA ->
     Collector.market_cap dataA = Some capA ->
     Py.dict_get d B = None ->
     Py.dict_get d C = Some idC -> Spec.fetched_cap md idC = None ->
     fst result = map (Spec.attach dataA) (Spec.bars_of A df) /\
     (length (Spec.bars_of A df) = 1%nat -> length (fst result) = 1%nat) /\
     (forall s, In s (snd result) <-> s = B \/ s = C)) /\
  (forall (b : Collector.bar) (cg_id : string),
     In b df ->
     Py.dict_get d (Collector.symbol b) = Some cg_id ->
     Spec.fetched_cap md cg_id = None ->
     (forall r, In r (fst result) ->
        Collector.row_symbol r <> Collector.symbol b) /\
     In (Collector.symbol b) (snd result)).
Proof.
  cbv zeta. destruct (enrich_result w df self) as [Hout Hskipped].
  cbv zeta in Hout, Hskipped.
  set (d := Spec.resolution w df self) in *.
  set (md := Spec.fetched w df self) in *.
  split.
  - intros A B C idA idC dataA capA Hsyms HB HC HdA HmdA HcapA HdB HdC HcapC.
    assert (Spec.has_cap d md A = true) as HA.
    { unfold Spec.has_cap, Spec.fetched_cap. now rewrite HdA, HmdA, HcapA. }
    assert (Spec.has_cap d md B = false) as HBcap.
    { unfold Spec.has_cap. now rewrite HdB. }
    assert (Spec.has_cap d md C = false) as HCcap.
    { unfold Spec.has_cap. now rewrite HdC, HcapC. }
    assert (fst (fst (Collector.enrich_with_coingecko_data w df self))
            = map (Spec.attach dataA) (Spec.bars_of A df)) as Hrows.
    { rewrite Hout. apply (filter_notna_single d md A idA dataA); auto.
      intros b Hb Hne. destruct (Hsyms b Hb) as [? | [-> | ->]]; tauto. }
    split; [exact Hrows |]. split.
    + intros Hone. now rewrite Hrows, length_map.
    + intros s. rewrite Hskipped. split.
      * intros [Hin Hcap]. apply in_map_iff in Hin as (b & <- & Hb).
        destruct (Hsyms b Hb) as [Hs | [Hs | Hs]]; auto.
        rewrite Hs in Hcap. congruence.
      * intros [-> | ->]; auto.
  - intros b cg_id Hb Hd Hcap.
    assert (Spec.has_cap d md (Collector.symbol b) = false) as Hno.
    { unfold Spec.has_cap. now rewrite Hd, Hcap. }
    split.
    + intros r Hr Heq.
      assert (In (Collector.symbol b)
                (map Collector.row_symbol
                   (fst (fst (Collector.enrich_with_coingecko_data w df self)))))
        as Hin by (apply in_map_iff; eauto).
      rewrite Hout in Hin. apply notna_symbols in Hin as [_ Hyes]. congruence.
    + apply Hskipped. split; [apply in_map; exact Hb | exact Hno].
Qed.

Lemma enrich_exclusion_witness :
  let result :=
    fst (Collector.enrich_with_coingecko_data Examples.partial_world
           Examples.three_bars Collector.init) in
  fst result =
    [Spec.attach Examples.bitcoin_record
       (Examples.mk_bar 19000 "BTCUSDT" 42000%Q)] /\
  (forall s, In s (snd result) <-> s = "FAKEUSDT" \/ s = "ETHUSDT").
Proof.
  cbv zeta.
  destruct (enrich_exclusion Examples.partial_world Examples.three_bars
              Collector.init) as [Hthree _].
  destruct (Hthree "BTCUSDT" "FAKEUSDT" "ETHUSDT" "bitcoin" "ethereum"
              Examples.bitcoin_record 800000000000%Q)
    as (Hrows & _ & Hskipped).
  - simpl. intros b [<- | [<- | [<- | []]]]; simpl; tauto.
  - simpl. tauto.
  - simpl. tauto.
  - vm_compute. reflexivity.
  - vm_compute. reflexivity.
  - reflexivity.
  - vm_compute. reflexivity.
  - vm_compute. reflexivity.
  - vm_compute. reflexivity.
  - split; [exact Hrows | exact Hskipped].
Defined.

(** C10. Enrichment partitions the input symbols: for every frame and
    every behaviour of the resolver and the fetcher, the symbols of the
    enriched rows and the symbols of the skipped list are disjoint sets
    whose union is the set of symbols of the input. *)
Theorem enrich_partitions_symbols
    (w : Collector.world) (df : list Collector.bar) (self : Collector.collector) :
  let result := fst (Collector.enrich_with_coingecko_data w df self) in
  let enriched : gset string :=
    list_to_set (map Collector.row_symbol (fst result)) in
  let skipped : gset string := list_to_set (snd result) in
  enriched ## skipped /\
  enriched ∪ skipped = list_to_set (map Collector.symbol df).
Proof.
  cbv zeta. destruct (enrich_result w df self) as [Hout Hskipped].
  cbv zeta in Hout, Hskipped. rewrite Hout. split.
  - apply elem_of_disjoint. intros s.
    rewrite !elem_of_list_to_set, !list_elem_of_In, notna_symbols, Hskipped.
    intros [_ Hyes] [_ Hno]. congruence.
  - apply set_eq. intros s.
    rewrite elem_of_union, !elem_of_list_to_set, !list_elem_of_In,
      notna_symbols, Hskipped.
    destruct (Spec.has_cap (Spec.resolution w df self)
                (Spec.fetched w df self) s); intuition congruence.
Qed.

(* ===================================================================== *)
(** ** Further properties of the CSV store *)
(* ===================================================================== *)

Section CsvStoreMore.

Import Collector.

Lemma NoDup_keys_inj {Row K : Type} (key : Row -> K) (rows : list Row) (a b : Row) :
  List.NoDup (map key rows) -> In a rows -> In b rows -> key a = key b -> a = b.
Proof.
  induction rows as [|x rows IH]; simpl; [tauto |].
  intros Hnd Ha Hb Hk. apply List.NoDup_cons_iff in Hnd as [Hx Hnd].
  destruct Ha as [-> | Ha], Hb as [-> | Hb]; auto.
  - exfalso. apply Hx. rewrite Hk. now apply in_map.
  - exfalso. apply Hx. rewrite <- Hk. now apply in_map.
Qed.

Lemma row_le_antisym_key (a b : row) :
  row_le a b = true -> row_le b a = true -> row_key a = row_key b.
Proof.
  unfold row_le, row_key, row_symbol.
  rewrite (String.compare_antisym (symbol (row_bar a)) (symbol (row_bar b))).
  destruct (String.compare (symbol (row_bar b)) (symbol (row_bar a))) eqn:E;
    simpl; try discriminate.
  apply String.compare_eq_iff in E. rewrite !Z.leb_le. intros H1 H2.
  f_equal; [lia | congruence].
Qed.

(** Two frames sorted by [(symbol, date)] with pairwise distinct keys and
    the same rows are the same list. *)
Lemma sorted_frames_equal (l1 l2 : list row) :
  Spec.sorted_by_symbol_date l1 -> Spec.sorted_by_symbol_date l2 ->
  List.NoDup (map row_key l1) -> List.NoDup (map row_key l2) ->
  (forall r, In r l1 <-> In r l2) -> l1 = l2.
Proof.
  intros Hs1 Hs2 Hn1 Hn2 Hsame.
  apply (StronglySorted_unique_strong (fun r1 r2 => row_le r1 r2 = true));
    auto.
  - intros x1 x2 Hx1 Hx2 H12 H21. rewrite list_elem_of_In in Hx1, Hx2.
    apply (NoDup_keys_inj row_key l1); auto; [now apply Hsame |].
    now apply row_le_antisym_key.
  - apply Permutation.NoDup_Permutation; auto;
      eapply List.NoDup_map_inv; eassumption.
Qed.

Lemma merge_frames_NoDup (existing_df df : list row) :
  List.NoDup (map row_key (merge_frames existing_df df)).
Proof. apply merged_NoDup. Qed.

Lemma merge_frames_keys (existing_df df : list row) (k : Z * string) :
  In k (map row_key (merge_frames existing_df df)) <->
  In k (map row_key existing_df) \/ In k (map row_key df).
Proof.
  unfold merge_frames.
  assert (Permutation
            (map row_key (Pandas.sort_values row_le
               (Pandas.drop_duplicates_last row_key (existing_df ++ df))))
            (map row_key (Pandas.drop_duplicates_last row_key (existing_df ++ df))))
    as Hp by (apply Permutation_map, sort_values_Permutation).
  split.
  - intros Hin. apply (Permutation_in _ Hp) in Hin.
    apply (proj1 (drop_duplicates_last_keys row_key k _)) in Hin.
    rewrite List.map_app, in_app_iff in Hin. exact Hin.
  - intros Hin. apply (Permutation_in _ (Permutation_sym Hp)).
    apply (proj2 (drop_duplicates_last_keys row_key k _)).
    rewrite List.map_app, in_app_iff. exact Hin.
Qed.

Lemma drop_duplicates_last_length {Row K : Type} `{EqDecision K}
    (key : Row -> K) (rows : list Row) :
  (length (Pandas.drop_duplicates_last key rows) <= length rows)%nat.
Proof.
  induction rows as [|r rows IH]; simpl; [lia |].
  case_bool_decide; simpl; lia.
Qed.

Lemma merge_frames_length (existing_df df : list row) :
  (length (merge_frames existing_df df) <= length existing_df + length df)%nat.
Proof.
  unfold merge_frames.
  rewrite (Permutation_length (sort_values_Permutation row_le _)).
  rewrite <- length_app. apply drop_duplicates_last_length.
Qed.

End CsvStoreMore.

(** X1. [save_to_csv] touches one file only: every other path of the disk
    keeps its content (or its absence); a non-empty frame leaves the
    destination in existence; and in any mode other than ['a'] the
    destination holds the frame exactly as given, unsorted and with its
    duplicates. *)
Theorem save_to_csv_touches_one_file
    (data_dir filename mode : string) (df : list Collector.row)
    (fs : gmap string (list Collector.row)) :
  let fs' := Collector.save_to_csv data_dir df filename mode fs in
  (forall p, p <> Py.path_join data_dir filename -> fs' !! p = fs !! p) /\
  (df <> [] -> is_Some (fs' !! Py.path_join data_dir filename)) /\
  (df <> [] -> mode <> "a" -> fs' !! Py.path_join data_dir filename = Some df).
Proof.
  cbv zeta. unfold Collector.save_to_csv.
  destruct df as [|r df]; [repeat split; congruence |].
  set (frame := r :: df).
  destruct (String.eqb_spec mode "a") as [-> | Hmode];
    destruct (fs !! Py.path_join data_dir filename) as [existing_df|] eqn:Hfs;
    (split; [intros p Hp; now rewrite lookup_insert_ne by congruence |]);
    rewrite lookup_insert_eq; (split; [eauto | intros _ ?; congruence]).
Qed.

Lemma save_to_csv_touches_one_file_witness :
  Collector.save_to_csv "data" [Examples.row_B] "all_pairs_eod.csv" "w"
    Examples.disk_with_A !! Examples.csv_path = Some [Examples.row_B] /\
  Collector.save_to_csv "data" [Examples.row_B] "all_pairs_eod.csv" "w"
    Examples.disk_with_A !! "data/other.csv" = None.
Proof.
  destruct (save_to_csv_touches_one_file "data" "all_pairs_eod.csv" "w"
              [Examples.row_B] Examples.disk_with_A) as (Hframe & _ & Hwrite).
  split.
  - apply Hwrite; discriminate.
  - rewrite Hframe; [reflexivity | discriminate].
Defined.

(** X2. After a mode-['a'] write into an existing file, the file holds at
    most one row per [(date, symbol)] key; its keys are the keys of the
    old file together with the keys of the written rows; and it has no
    more rows than the two together. *)
Theorem save_to_csv_merge_unique_keys
    (data_dir filename : string) (fs : gmap string (list Collector.row))
    (existing_df df : list Collector.row) :
  fs !! Py.path_join data_dir filename = Some existing_df ->
  df <> [] ->
  exists file,
    Collector.save_to_csv data_dir df filename "a" fs
      !! Py.path_join data_dir filename = Some file /\
    List.NoDup (map Collector.row_key file) /\
    (forall k, In k (map Collector.row_key file) <->
               In k (map Collector.row_key existing_df) \/
               In k (map Collector.row_key df)) /\
    (length file <= length existing_df + length df)%nat.
Proof.
  intros Hfs Hne. exists (Collector.merge_frames existing_df df).
  rewrite (save_to_csv_append _ _ _ existing_df) by assumption.
  rewrite lookup_insert_eq. split; [reflexivity |].
  split; [apply merge_frames_NoDup |].
  split; [apply merge_frames_keys | apply merge_frames_length].
Qed.

Lemma save_to_csv_merge_unique_keys_witness :
  exists file,
    Collector.save_to_csv "data" [Examples.row_A; Examples.row_B]
      "all_pairs_eod.csv" "a" Examples.disk_with_A
      !! Examples.csv_path = Some file /\
    List.NoDup (map Collector.row_key file) /\
    (length file <= 4)%nat.
Proof.
  destruct (save_to_csv_merge_unique_keys "data" "all_pairs_eod.csv"
              Examples.disk_with_A [Examples.row_A; Examples.row_other]
              [Examples.row_A; Examples.row_B])
    as (file & Hfile & Hnd & _ & Hlen).
  - apply lookup_singleton_eq.
  - discriminate.
  - exists file. auto.
Defined.

(** X3. Which rows a mode-['a'] write into an existing file leaves: a row
    is in the file afterwards exactly when it is the last row for its key
    among the written rows, or its key is not written and it is the last
    row for its key in the old file. No other row appears, and no key of
    the old file is lost. *)
Theorem save_to_csv_merge_rows
    (data_dir filename : string) (fs : gmap string (list Collector.row))
    (existing_df df : list Collector.row) :
  fs !! Py.path_join data_dir filename = Some existing_df ->
  df <> [] ->
  exists file,
    Collector.save_to_csv data_dir df filename "a" fs
      !! Py.path_join data_dir filename = Some file /\
    forall r, In r file <->
      Pandas.last_with_key Collector.row_key (Collector.row_key r) df = Some r \/
      (~ In (Collector.row_key r) (map Collector.row_key df) /\
       Pandas.last_with_key Collector.row_key (Collector.row_key r) existing_df
         = Some r).
Proof.
  intros Hfs Hne. exists (Collector.merge_frames existing_df df).
  rewrite (save_to_csv_append _ _ _ existing_df) by assumption.
  rewrite lookup_insert_eq. split; [reflexivity |].
  intros r. rewrite merge_frames_In, last_with_key_app.
  destruct (Pandas.last_with_key Collector.row_key (Collector.row_key r) df)
    as [x|] eqn:E.
  - split; [tauto |]. intros [? | [Hno _]]; [assumption |].
    exfalso. apply Hno. apply last_with_key_Some in E as [<- Hin].
    now apply in_map.
  - apply last_with_key_None in E. split; [tauto |].
    intros [? | [_ ?]]; [discriminate | assumption].
Qed.

Lemma save_to_csv_merge_rows_witness :
  exists file,
    Collector.save_to_csv "data" [Examples.row_B] "all_pairs_eod.csv" "a"
      Examples.disk_with_A !! Examples.csv_path = Some file /\
    In Examples.row_other file /\ In Examples.row_B file.
Proof.
  destruct (save_to_csv_merge_rows "data" "all_pairs_eod.csv"
              Examples.disk_with_A [Examples.row_A; Examples.row_other]
              [Examples.row_B])
    as (file & Hfile & Hrows).
  - apply lookup_singleton_eq.
  - discriminate.
  - exists file. split; [exact Hfile |]. split; apply Hrows.
    + right. split; [| reflexivity]. simpl. intros [H | []]. discriminate H.
    + left. reflexivity.
Defined.

(** X4. When the destination file exists, repeating a mode-['a'] write
    with the same rows leaves the whole disk exactly as the first write
    left it: the same rows in the same order, not only the same row set. *)
Theorem save_to_csv_merge_twice_same_disk
    (data_dir filename : string) (fs : gmap string (list Collector.row))
    (df : list Collector.row) :
  is_Some (fs !! Py.path_join data_dir filename) ->
  let once := Collector.save_to_csv data_dir df filename "a" fs in
  Collector.save_to_csv data_dir df filename "a" once = once.
Proof.
  intros [existing_df Hfs]. cbv zeta.
  destruct df as [|r0 df0]; [reflexivity |].
  set (df := r0 :: df0). assert (df <> []) as Hne by discriminate.
  rewrite (save_to_csv_append _ _ fs existing_df) by assumption.
  rewrite (save_to_csv_append _ _ _ (Collector.merge_frames existing_df df))
    by (try assumption; apply lookup_insert_eq).
  rewrite insert_insert_eq. f_equal.
  apply sorted_frames_equal.
  - apply merge_frames_sorted.
  - apply merge_frames_sorted.
  - apply merge_frames_NoDup.
  - apply merge_frames_NoDup.
  - intros r. apply merged_twice_In.
Qed.

Lemma save_to_csv_merge_twice_same_disk_witness :
  let once := Collector.save_to_csv "data" [Examples.row_A; Examples.row_B]
                "all_pairs_eod.csv" "a" Examples.disk_with_A in
  Collector.save_to_csv "data" [Examples.row_A; Examples.row_B]
    "all_pairs_eod.csv" "a" once = once.
Proof.
  apply save_to_csv_merge_twice_same_disk.
  exists [Examples.row_A; Examples.row_other]. apply lookup_singleton_eq.
Defined.

(* ===================================================================== *)
(** ** Further properties of the symbol resolver of [collector.py] *)
(* ===================================================================== *)

Section ResolverMore.

Import Collector.

Lemma extract_loop_sound (s : string) (qs : list string) (b : string) :
  extract_loop s qs = Some b ->
  b <> EmptyString /\ exists q, In q qs /\ s = b +:+ q.
Proof.
  induction qs as [|q qs IH]; simpl; [discriminate |].
  destruct (Py.endswith s q) eqn:He.
  - destruct (Py.truthy (Py.slice_to_neg s (String.length q))) eqn:Ht.
    + intros [= <-]. apply endswith_spec in He as [b' ->].
      destruct q as [|c q'].
      * simpl in Ht. discriminate.
      * rewrite slice_to_neg_app in Ht |- * by discriminate.
        split; [now destruct b' | eauto].
    + intros H. destruct (IH H) as (Hb & q' & Hq' & Hs). eauto 6.
  - intros H. destruct (IH H) as (Hb & q' & Hq' & Hs). eauto 6.
Qed.

Lemma events_since_refl (self : collector) : Spec.events_since self self = [].
Proof. unfold Spec.events_since. apply drop_all. Qed.

(** [get_coingecko_coins_list] with a cached listing younger than a day. *)
Lemma get_coingecko_coins_list_fresh (w : world) (self : collector)
    (m : gmap string string) (T : Z) :
  coingecko_map self = Some m -> coingecko_map_timestamp self = Some T ->
  (clock w (length (log self)) - T < one_day_us)%Z ->
  get_coingecko_coins_list w self =
  (m, {| coingecko_map := Some m; coingecko_map_timestamp := Some T;
         log := log self ++ [EvNow] |}).
Proof.
  intros Hm HT Hfresh.
  unfold get_coingecko_coins_list, datetime_now, tick, emit, StateM.get,
    StateM.ret, StateM.bind. rewrite Hm, HT. cbv beta iota.
  rewrite (proj2 (Z.ltb_lt _ _) Hfresh). now rewrite Hm, HT.
Qed.

(** [get_coingecko_coins_list] with no cached listing and the provider
    failing. *)
Lemma get_coingecko_coins_list_down (w : world) (self : collector) :
  coingecko_map self = None ->
  coins_list w (length (log self)) = None ->
  get_coingecko_coins_list w self =
  (∅, {| coingecko_map := None;
         coingecko_map_timestamp := coingecko_map_timestamp self;
         log := log self ++ [EvCoinsList None] |}).
Proof.
  intros Hm Hdown.
  unfold get_coingecko_coins_list, fetch_coins_list, request_coins_list, tick,
    emit, StateM.get, StateM.ret, StateM.bind. rewrite Hm.
  cbv beta iota. rewrite Hdown. cbv beta iota. now rewrite Hm.
Qed.

Lemma map_symbols_fresh (w : world) (m : gmap string string) (T : Z)
    (symbols : list string) :
  (forall t, (clock w t - T < one_day_us)%Z) ->
  forall (d0 : list (string * string)) (sk0 : list string) (self : collector),
  coingecko_map self = Some m -> coingecko_map_timestamp self = Some T ->
  exists evs,
    map_symbols w symbols d0 sk0 self =
    (Extra.map_symbols_cached m symbols d0 sk0,
     {| coingecko_map := Some m; coingecko_map_timestamp := Some T;
        log := log self ++ evs |}) /\
    List.Forall (fun e => Extra.is_network e = false) evs.
Proof.
  intros Hfresh. induction symbols as [|symbol rest IH];
    intros d0 sk0 self Hm HT.
  - exists []. simpl. unfold StateM.ret. rewrite app_nil_r.
    split; [| constructor]. destruct self; simpl in *; congruence.
  - cbn [map_symbols Extra.map_symbols_cached].
    unfold StateM.bind, map_binance_to_coingecko, Extra.resolve_cached.
    destruct (extract_base_symbol symbol) as [base|].
    + destruct (Py.truthy base).
      * unfold StateM.bind, StateM.ret.
        rewrite (get_coingecko_coins_list_fresh w self m T Hm HT (Hfresh _)).
        set (self1 := {| coingecko_map := Some m;
                         coingecko_map_timestamp := Some T;
                         log := log self ++ [EvNow] |}).
        destruct (m !! base) as [id|];
          [destruct (Py.truthy id) |];
          match goal with
          | |- context [map_symbols w rest ?d ?sk self1] =>
              destruct (IH d sk self1 eq_refl eq_refl) as (evs & -> & Hevs)
          end;
          exists (EvNow :: evs); cbn [log self1];
          rewrite <- app_assoc; (split; [reflexivity | now constructor]).
      * unfold StateM.ret.
        destruct (IH d0 (sk0 ++ [symbol]) self Hm HT) as (evs & -> & Hevs).
        exists evs. auto.
    + unfold StateM.ret.
      destruct (IH d0 (sk0 ++ [symbol]) self Hm HT) as (evs & -> & Hevs).
      exists evs. auto.
Qed.

Lemma map_symbols_down (w : world) (symbols : list string) :
  (forall t, coins_list w t = None) ->
  forall (d0 : list (string * string)) (sk0 : list string) (self : collector),
  coingecko_map self = None ->
  exists evs,
    map_symbols w symbols d0 sk0 self =
    ((d0, sk0 ++ symbols),
     {| coingecko_map := None;
        coingecko_map_timestamp := coingecko_map_timestamp self;
        log := log self ++ evs |}) /\
    length (List.filter Extra.is_coins_list evs)
      = length (List.filter Extra.has_base symbols).
Proof.
  intros Hdown. induction symbols as [|symbol rest IH]; intros d0 sk0 self Hm.
  - exists []. simpl. unfold StateM.ret. rewrite !app_nil_r.
    split; [| reflexivity]. destruct self; simpl in *; congruence.
  - cbn [map_symbols]. unfold StateM.bind, map_binance_to_coingecko.
    destruct (extract_base_symbol symbol) as [base|] eqn:Eb.
    + destruct (Py.truthy base) eqn:Et.
      * assert (Extra.has_base symbol = true) as Hb
          by (unfold Extra.has_base; now rewrite Eb).
        unfold StateM.bind, StateM.ret.
        rewrite (get_coingecko_coins_list_down w self Hm (Hdown _)).
        rewrite lookup_empty.
        set (self1 := {| coingecko_map := None;
                         coingecko_map_timestamp := coingecko_map_timestamp self;
                         log := log self ++ [EvCoinsList None] |}).
        destruct (IH d0 (sk0 ++ [symbol]) self1 eq_refl) as (evs & -> & Hevs).
        exists (EvCoinsList None :: evs). cbn [log self1 coingecko_map_timestamp].
        rewrite <- !app_assoc. split; [reflexivity |].
        cbn [List.filter]. rewrite Hb. simpl. now rewrite Hevs.
      * assert (Extra.has_base symbol = false) as Hb
          by (unfold Extra.has_base; now rewrite Eb).
        unfold StateM.ret.
        destruct (IH d0 (sk0 ++ [symbol]) self Hm) as (evs & -> & Hevs).
        exists evs. rewrite <- !app_assoc. split; [reflexivity |].
        cbn [List.filter]. now rewrite Hb.
    + assert (Extra.has_base symbol = false) as Hb
        by (unfold Extra.has_base; now rewrite Eb).
      unfold StateM.ret.
      destruct (IH d0 (sk0 ++ [symbol]) self Hm) as (evs & -> & Hevs).
      exists evs. rewrite <- !app_assoc. split; [reflexivity |].
      cbn [List.filter]. now rewrite Hb.
Qed.

Lemma build_symbol_map_from (upper : string -> string) (coins : list coin)
    (s : string) :
  forall m : gmap string string,
  foldl (fun symbol_map c =>
           let symbol := upper (coin_symbol c) in
           match symbol_map !! symbol with
           | Some _ => symbol_map
           | None => <[symbol := coin_id c]> symbol_map
           end) m coins !! s =
  match m !! s with
  | Some v => Some v
  | None => coin_id <$> Extra.first_coin upper s coins
  end.
Proof.
  induction coins as [|c coins IH]; intros m; simpl.
  - now destruct (m !! s).
  - rewrite IH. unfold Extra.first_coin. simpl.
    destruct (String.eqb_spec (upper (coin_symbol c)) s) as [Heq | Hne].
    + rewrite Heq. destruct (m !! s) eqn:E; [now rewrite E |].
      now rewrite lookup_insert_eq.
    + destruct (m !! upper (coin_symbol c)); [reflexivity |].
      now rewrite lookup_insert_ne.
Qed.

End ResolverMore.

(** X5. Soundness of suffix extraction: whenever [extract_base_symbol]
    returns a base, the base is not empty and the input is that base
    followed by one of the recognised quote assets. *)
Theorem extract_base_symbol_sound (binance_symbol base : string) :
  Collector.extract_base_symbol binance_symbol = Some base ->
  base <> EmptyString /\
  exists quote, In quote Collector.quote_assets /\
                binance_symbol = base +:+ quote.
Proof. apply extract_loop_sound. Qed.

Lemma extract_base_symbol_sound_witness :
  "ETH" <> EmptyString /\
  exists quote, In quote Collector.quote_assets /\ "ETHBTC" = "ETH" +:+ quote.
Proof. apply (extract_base_symbol_sound "ETHBTC" "ETH"). reflexivity. Defined.

(** X6. With a cached listing that stays younger than 24 hours, the
    mapping loop resolves any number of symbols from the cache alone: it
    issues no network request (it only reads the clock), leaves the cache
    as it is, and ends with the dict and skipped list that the cached
    listing determines. *)
Theorem map_symbols_fresh_cache
    (w : Collector.world) (symbols : list string)
    (d0 : list (string * string)) (sk0 : list string)
    (self : Collector.collector) (m : gmap string string) (T : Z) :
  Collector.coingecko_map self = Some m ->
  Collector.coingecko_map_timestamp self = Some T ->
  (forall t, (Collector.clock w t - T < Collector.one_day_us)%Z) ->
  let run := Collector.map_symbols w symbols d0 sk0 self in
  fst run = Extra.map_symbols_cached m symbols d0 sk0 /\
  List.Forall (fun e => Extra.is_network e = false)
    (Spec.events_since self (snd run)) /\
  Collector.coingecko_map (snd run) = Some m /\
  Collector.coingecko_map_timestamp (snd run) = Some T.
Proof.
  intros Hm HT Hfresh. cbv zeta.
  destruct (map_symbols_fresh w m T symbols Hfresh d0 sk0 self Hm HT)
    as (evs & -> & Hevs).
  cbn [fst snd]. repeat split; auto.
  now rewrite (events_since_app self _ evs) by reflexivity.
Qed.

(** X7. A failed listing fetch is not remembered: with no cached listing
    and the provider failing, every symbol that has a base asset triggers
    its own [/coins/list] request, every symbol ends in the skipped list in
    input order, nothing is mapped, and the cache stays empty. *)
Theorem map_symbols_provider_down
    (w : Collector.world) (symbols : list string)
    (d0 : list (string * string)) (sk0 : list string)
    (self : Collector.collector) :
  Collector.coingecko_map self = None ->
  (forall t, Collector.coins_list w t = None) ->
  let run := Collector.map_symbols w symbols d0 sk0 self in
  fst run = (d0, sk0 ++ symbols) /\
  length (List.filter Extra.is_coins_list (Spec.events_since self (snd run)))
    = length (List.filter Extra.has_base symbols) /\
  Collector.coingecko_map (snd run) = None.
Proof.
  intros Hm Hdown. cbv zeta.
  destruct (map_symbols_down w symbols Hdown d0 sk0 self Hm)
    as (evs & -> & Hevs).
  cbn [fst snd]. repeat split; auto.
  now rewrite (events_since_app self _ evs) by reflexivity.
Qed.

Lemma map_symbols_provider_down_witness :
  let run := Collector.map_symbols Examples.klines_world
               ["BTCUSDT"; "XYZ"; "ETHUSDT"] [] [] Collector.init in
  fst run = ([], ["BTCUSDT"; "XYZ"; "ETHUSDT"]) /\
  length (List.filter Extra.is_coins_list
            (Spec.events_since Collector.init (snd run))) = 2%nat.
Proof.
  destruct (map_symbols_provider_down Examples.klines_world
              ["BTCUSDT"; "XYZ"; "ETHUSDT"] [] [] Collector.init)
    as (Hres & Hcount & _); [reflexivity | reflexivity |].
  split; [exact Hres | exact Hcount].
Defined.

(** X8. First seen wins in the listing of [collector.py], whatever the
    case mapping [str.upper] is: the id stored under a key is the id of
    the first coin of the response whose upper-cased symbol is that key,
    and a key that is the upper-cased symbol of no coin has no entry. So
    two coins whose symbols differ only in case share one key, which
    keeps the id of the first. *)
Theorem build_symbol_map_first_seen
    (upper : string -> string) (coins : list Collector.coin) (s : string) :
  Collector.build_symbol_map upper coins !! s =
  Collector.coin_id <$> Extra.first_coin upper s coins.
Proof.
  unfold Collector.build_symbol_map. rewrite build_symbol_map_from.
  now rewrite lookup_empty.
Qed.

Lemma map_symbols_fresh_cache_witness :
  let run := Collector.map_symbols Examples.partial_world
               ["BTCUSDT"; "FAKEUSDT"] [] [] Extra.warm_collector in
  fst run = Extra.map_symbols_cached Extra.example_listing
              ["BTCUSDT"; "FAKEUSDT"] [] [] /\
  List.Forall (fun e => Extra.is_network e = false)
    (Spec.events_since Extra.warm_collector (snd run)).
Proof.
  destruct (map_symbols_fresh_cache Examples.partial_world
              ["BTCUSDT"; "FAKEUSDT"] [] [] Extra.warm_collector
              Extra.example_listing 0)
    as (Hres & Hevs & _).
  - reflexivity.
  - reflexivity.
  - intros t. reflexivity.
  - split; [exact Hres | exact Hevs].
Defined.

(* ===================================================================== *)
(** ** Further properties of the market-data fetcher *)
(* ===================================================================== *)

Section FetcherMore.

Import Collector.

Lemma last_entry_app (cg_id : string) (l1 l2 : list market_coin) :
  Extra.last_entry cg_id (l1 ++ l2) =
  match Extra.last_entry cg_id l2 with
  | Some x => Some x
  | None => Extra.last_entry cg_id l1
  end.
Proof.
  induction l1 as [|c l1 IH]; simpl.
  - now destruct (Extra.last_entry cg_id l2).
  - rewrite IH. now destruct (Extra.last_entry cg_id l2).
Qed.

Lemma store_batch_lookup (data : list market_coin) (cg_id : string) :
  forall market_data : gmap string market_record,
  store_batch market_data data !! cg_id =
  match Extra.last_entry cg_id data with
  | Some c => Some (mc_record c)
  | None => market_data !! cg_id
  end.
Proof.
  unfold store_batch.
  induction data as [|c data IH]; intros market_data; simpl; [reflexivity |].
  rewrite IH. destruct (Extra.last_entry cg_id data); [reflexivity |].
  destruct (String.eqb_spec (mc_id c) cg_id) as [-> | Hne].
  - apply lookup_insert_eq.
  - now apply lookup_insert_ne.
Qed.

Lemma market_data_loop_values (w : world) (coingecko_ids : list string)
    (starts : list nat) :
  forall (market_data : gmap string market_record) (self : collector),
  let run := market_data_loop w coingecko_ids starts market_data self in
  exists evs,
    log (snd run) = log self ++ evs /\
    (forall cg_id,
       fst run !! cg_id =
       match Extra.last_entry cg_id
               (Extra.returned_entries (Spec.markets_requests evs)) with
       | Some c => Some (mc_record c)
       | None => market_data !! cg_id
       end) /\
    List.filter Extra.is_pause evs =
      repeat (EvSleep 2)
        (length (List.filter Extra.succeeded (Spec.markets_requests evs))).
Proof.
  induction starts as [|i rest IH]; intros market_data self; cbv zeta.
  - exists []. simpl. rewrite app_nil_r. auto.
  - cbn [market_data_loop].
    unfold request_coins_markets, tick, emit, sleep, emit, StateM.ret,
      StateM.bind.
    set (batch := Py.slice coingecko_ids i (i + batch_size)).
    destruct (coins_markets w (length (log self)) batch) as [data|].
    + cbn [fst snd log coingecko_map coingecko_map_timestamp].
      match goal with
      | |- context [market_data_loop w coingecko_ids rest ?md ?st] =>
          destruct (IH md st) as (evs & Hlog & Hval & Hpause)
      end.
      cbn [log] in Hlog.
      exists (EvCoinsMarkets batch (Some data) :: EvSleep 2 :: evs).
      split; [rewrite Hlog; now rewrite <- !app_assoc |]. split.
      * intros cg_id. rewrite Hval. simpl. rewrite last_entry_app.
        destruct (Extra.last_entry cg_id
                    (Extra.returned_entries (Spec.markets_requests evs)));
          [reflexivity | apply store_batch_lookup].
      * simpl. now rewrite Hpause.
    + cbn [fst snd log coingecko_map coingecko_map_timestamp].
      match goal with
      | |- context [market_data_loop w coingecko_ids rest ?md ?st] =>
          destruct (IH md st) as (evs & Hlog & Hval & Hpause)
      end.
      cbn [log] in Hlog.
      exists (EvCoinsMarkets batch None :: evs).
      split; [rewrite Hlog; now rewrite <- !app_assoc |]. split.
      * intros cg_id. rewrite Hval. reflexivity.
      * simpl. exact Hpause.
Qed.

Lemma get_coingecko_market_data_values (w : world) (ids : list string)
    (self : collector) :
  let run := get_coingecko_market_data w ids self in
  let evs := Spec.events_since self (snd run) in
  (forall cg_id,
     fst run !! cg_id =
     mc_record <$> Extra.last_entry cg_id
                     (Extra.returned_entries (Spec.markets_requests evs))) /\
  List.filter Extra.is_pause evs =
    repeat (EvSleep 2)
      (length (List.filter Extra.succeeded (Spec.markets_requests evs))).
Proof.
  cbv zeta. destruct ids as [|id0 ids0].
  - simpl. rewrite events_since_refl. simpl. split; [| reflexivity].
    intros cg_id. apply lookup_empty.
  - rewrite get_coingecko_market_data_nonempty by discriminate.
    destruct (market_data_loop_values w (id0 :: ids0)
                (Py.range 0 (length (id0 :: ids0)) batch_size) ∅ self)
      as (evs & Hlog & Hval & Hpause).
    rewrite (events_since_app _ _ _ Hlog). split; [| exact Hpause].
    intros cg_id. rewrite Hval, lookup_empty.
    now destruct (Extra.last_entry cg_id _).
Qed.

End FetcherMore.

(** X9. The record kept for an id is the one of the last entry with that id
    among the successful responses, in the order the batches were
    requested: a later entry for the same id replaces an earlier one, and
    an id no successful response returned has no record. *)
Theorem get_coingecko_market_data_last_entry_wins
    (w : Collector.world) (coingecko_ids : list string)
    (self : Collector.collector) (cg_id : string) :
  let run := Collector.get_coingecko_market_data w coingecko_ids self in
  let requests := Spec.markets_requests (Spec.events_since self (snd run)) in
  fst run !! cg_id =
  Collector.mc_record <$>
    Extra.last_entry cg_id (Extra.returned_entries requests).
Proof.
  cbv zeta.
  destruct (get_coingecko_market_data_values w coingecko_ids self) as [H _].
  apply H.
Qed.

(** X10. The fetcher pauses 2 seconds after each successful batch and not
    after a failed one: the pauses of a call are as many 2-second sleeps as
    there are successful requests. *)
Theorem get_coingecko_market_data_pauses
    (w : Collector.world) (coingecko_ids : list string)
    (self : Collector.collector) :
  let run := Collector.get_coingecko_market_data w coingecko_ids self in
  let evs := Spec.events_since self (snd run) in
  List.filter Extra.is_pause evs =
  repeat (Collector.EvSleep 2)
    (length (List.filter Extra.succeeded (Spec.markets_requests evs))).
Proof.
  cbv zeta.
  destruct (get_coingecko_market_data_values w coingecko_ids self) as [_ H].
  exact H.
Qed.

(* ===================================================================== *)
(** ** Further properties of [get_historical_klines] *)
(* ===================================================================== *)

Section KlinesMore.

Import Collector.
Variable to_float : string -> option Py.float.

Lemma convert_klines_all (w : world) (symbol : string) (klines : list kline) :
  (forall k, In k klines -> convert_kline to_float w symbol k <> None) ->
  exists df,
    convert_klines to_float w symbol klines = Some df /\
    List.Forall2 (fun k b => convert_kline to_float w symbol k = Some b)
      klines df.
Proof.
  induction klines as [|k rest IH]; intros Hall; simpl.
  - exists []. split; [reflexivity | constructor].
  - destruct IH as (df & -> & Hdf); [intros k' Hk'; apply Hall; now right |].
    destruct (convert_kline to_float w symbol k) as [b|] eqn:E.
    + exists (b :: df). split; [reflexivity | now constructor].
    + exfalso. now apply (Hall k (or_introl eq_refl)).
Qed.

Lemma convert_kline_fields (w : world) (symbol : string) (k : kline) (b : bar) :
  convert_kline to_float w symbol k = Some b ->
  Collector.symbol b = symbol /\
  to_date w (k_timestamp k) = Some (date b) /\
  trades b = k_trades k /\
  to_float (k_close k) = Some (close b).
Proof.
  unfold convert_kline.
  destruct (to_date w (k_timestamp k)),
    (to_float (k_open k)), (to_float (k_high k)), (to_float (k_low k)),
    (to_float (k_close k)), (to_float (k_volume k)),
    (to_float (k_quote_volume k)); try discriminate.
  intros [= <-]. simpl. auto.
Qed.

(** The effects of one call: the clock is read, and the client is called
    unless the start of the window overflows. *)
Lemma get_historical_klines_log (w : world) (symbol : string) (days : Z)
    (self : collector) :
  log (snd (get_historical_klines to_float w symbol days self)) =
  log self ++
  match Spec.window_start w self days with
  | None => [EvNow]
  | Some _ => [EvNow; EvKlines symbol days]
  end.
Proof.
  unfold get_historical_klines, Spec.window_start, datetime_now, tick, emit,
    StateM.ret, StateM.bind. cbv beta iota. cbn [fst snd log].
  destruct (start_time (clock w (length (log self))) days); [| reflexivity].
  cbv beta iota. cbn [fst snd log].
  destruct (historical_klines w _ symbol days) as [klines| |];
    [destruct klines as [|k rest];
       [| destruct (convert_klines to_float w symbol (k :: rest))] | |];
    cbn [snd log]; now rewrite <- app_assoc.
Qed.

End KlinesMore.

(** X11. When the start of the window is a date ([datetime.now()] minus
    [days] days does not overflow), a call reads the clock once and
    issues exactly one klines request, whatever the response; and a
    response whose candles all convert yields one bar per candle, in the
    order of the response: each bar carries the requesting symbol, the
    calendar day the date conversion gives for the candle's open time
    and the candle's trade count, and its close is the parsed close
    text. *)
Theorem get_historical_klines_well_formed
    (to_float : string -> option Py.float) (w : Collector.world)
    (symbol : string) (days : Z) (self : Collector.collector) :
  Spec.window_start w self days <> None ->
  let run := Collector.get_historical_klines to_float w symbol days self in
  Spec.events_since self (snd run) =
    [Collector.EvNow; Collector.EvKlines symbol days] /\
  forall klines,
    Spec.klines_response w self symbol days = Collector.KlinesOk klines ->
    (forall k, In k klines ->
       Collector.convert_kline to_float w symbol k <> None) ->
    List.Forall2
      (fun k b =>
         Collector.symbol b = symbol /\
         Collector.to_date w (Collector.k_timestamp k)
           = Some (Collector.date b) /\
         Collector.trades b = Collector.k_trades k /\
         to_float (Collector.k_close k) = Some (Collector.close b))
      klines (fst run).
Proof.
  intros Hwindow. cbv zeta. split.
  - apply events_since_app. rewrite get_historical_klines_log.
    now destruct (Spec.window_start w self days).
  - intros klines Hresp Hall.
    rewrite get_historical_klines_unfold, Hresp.
    destruct (Spec.window_start w self days); [| congruence].
    destruct (convert_klines_all to_float w symbol klines Hall)
      as (df & -> & Hdf).
    clear Hresp Hall.
    induction Hdf as [|k b ks bs Hkb _ IH]; constructor.
    + now apply (convert_kline_fields to_float w symbol).
    + apply IH.
Qed.

Lemma get_historical_klines_well_formed_witness :
  let run := Collector.get_historical_klines Py.float_of_decimal
               Extra.single_candle_world "BTCUSDT" 3 Collector.init in
  Spec.events_since Collector.init (snd run) =
    [Collector.EvNow; Collector.EvKlines "BTCUSDT" 3] /\
  List.Forall2
    (fun k b =>
       Collector.symbol b = "BTCUSDT" /\
       Collector.to_date Extra.single_candle_world (Collector.k_timestamp k)
         = Some (Collector.date b) /\
       Collector.trades b = Collector.k_trades k /\
       Py.float_of_decimal (Collector.k_close k) = Some (Collector.close b))
    [Examples.good_kline] (fst run).
Proof.
  destruct (get_historical_klines_well_formed Py.float_of_decimal
              Extra.single_candle_world "BTCUSDT" 3 Collector.init)
    as [Hevents Hbars].
  - vm_compute. discriminate.
  - split; [exact Hevents |].
    apply (Hbars [Examples.good_kline]).
    + reflexivity.
    + intros k [<- | []]. vm_compute. discriminate.
Defined.

(* ===================================================================== *)
(** ** Further properties of the enrichment *)
(* ===================================================================== *)

Section EnrichmentMore.

Import Collector.

Lemma forallb_app_snoc {A : Type} (f : A -> bool) (l1 l2 : list A) :
  forallb f l1 = true -> forallb f l2 = true -> forallb f (l1 ++ l2) = true.
Proof. intros H1 H2. now rewrite forallb_app, H1, H2. Qed.

Lemma get_coingecko_coins_list_events (w : world) (self : collector) :
  exists evs,
    log (snd (get_coingecko_coins_list w self)) = log self ++ evs /\
    forallb Extra.is_listing_event evs = true.
Proof.
  assert (forall st, exists evs,
            log (snd (fetch_coins_list w st)) = log st ++ evs /\
            forallb Extra.is_listing_event evs = true) as Hfetch.
  { intros st. unfold fetch_coins_list, request_coins_list, datetime_now,
      set_coingecko_cache, tick, emit, StateM.ret, StateM.bind.
    cbv beta iota. cbn [log].
    destruct (coins_list w (length (log st))) as [coins|]; cbn [snd log].
    - exists [EvCoinsList (Some coins); EvNow].
      now rewrite <- app_assoc.
    - exists [EvCoinsList None]. auto. }
  unfold get_coingecko_coins_list, StateM.get, StateM.bind. cbv beta iota.
  destruct (coingecko_map self) as [cached|]; [| apply Hfetch].
  destruct (coingecko_map_timestamp self) as [stamp|]; [| apply Hfetch].
  unfold datetime_now, tick, emit, StateM.ret, StateM.bind. cbv beta iota.
  destruct (_ <? one_day_us)%Z.
  - exists [EvNow]. auto.
  - match goal with
    | |- context [fetch_coins_list w ?st] =>
        destruct (Hfetch st) as (evs & Hlog & Hevs)
    end.
    cbn [log] in Hlog. exists (EvNow :: evs).
    rewrite Hlog, <- app_assoc. auto.
Qed.

Lemma map_symbols_events (w : world) (symbols : list string) :
  forall (d0 : list (string * string)) (sk0 : list string) (self : collector),
  exists evs,
    log (snd (map_symbols w symbols d0 sk0 self)) = log self ++ evs /\
    forallb Extra.is_listing_event evs = true.
Proof.
  induction symbols as [|symbol rest IH]; intros d0 sk0 self.
  - exists []. simpl. now rewrite app_nil_r.
  - cbn [map_symbols]. unfold StateM.bind, map_binance_to_coingecko.
    assert (forall d sk, exists evs,
              log (snd (map_symbols w rest d sk self)) = log self ++ evs /\
              forallb Extra.is_listing_event evs = true) as Hsame
      by (intros d sk; apply IH).
    destruct (extract_base_symbol symbol) as [base|];
      [destruct (Py.truthy base) |]; unfold StateM.ret; try apply Hsame.
    unfold StateM.bind.
    destruct (get_coingecko_coins_list_events w self) as (evs1 & Hlog1 & Hevs1).
    destruct (get_coingecko_coins_list w self) as [coingecko_map self1].
    cbn [snd] in Hlog1.
    assert (forall d sk, exists evs,
              log (snd (map_symbols w rest d sk self1)) = log self ++ evs /\
              forallb Extra.is_listing_event evs = true) as Hnext.
    { intros d sk. destruct (IH d sk self1) as (evs2 & Hlog2 & Hevs2).
      exists (evs1 ++ evs2). rewrite Hlog2, Hlog1, <- app_assoc.
      split; [reflexivity | now apply forallb_app_snoc]. }
    destruct (coingecko_map !! base) as [id|];
      [destruct (Py.truthy id) |]; apply Hnext.
Qed.

Lemma listing_events_no_markets (evs : list event) :
  forallb Extra.is_listing_event evs = true -> Spec.markets_requests evs = [].
Proof.
  induction evs as [|e evs IH]; simpl; [reflexivity |].
  destruct e; simpl; try discriminate; exact IH.
Qed.

(** The skipped list of the mapping loop: the list it started from,
    followed by some of the symbols of the loop, each at most once. *)
Lemma map_symbols_skipped_shape (w : world) (symbols : list string) :
  forall (d0 : list (string * string)) (sk0 : list string) (self : collector),
  exists added,
    snd (fst (map_symbols w symbols d0 sk0 self)) = sk0 ++ added /\
    (forall s, In s added -> In s symbols) /\
    (List.NoDup symbols -> List.NoDup added).
Proof.
  induction symbols as [|symbol rest IH]; intros d0 sk0 self.
  - exists []. simpl. rewrite app_nil_r. repeat split; [tauto | constructor].
  - cbn [map_symbols]. unfold StateM.bind.
    destruct (map_binance_to_coingecko w symbol self) as [cg_id self1].
    assert (exists added,
              snd (fst (map_symbols w rest d0 (sk0 ++ [symbol]) self1))
                = sk0 ++ added /\
              (forall s, In s added -> In s (symbol :: rest)) /\
              (List.NoDup (symbol :: rest) -> List.NoDup added)) as Hskip.
    { destruct (IH d0 (sk0 ++ [symbol]) self1) as (added & Heq & Hin & Hnd).
      exists (symbol :: added). rewrite Heq, <- app_assoc.
      split; [reflexivity |]. split.
      - intros s [<- | Hs]; [now left | right; auto].
      - intros Hnd'. apply List.NoDup_cons_iff in Hnd' as [Hsym Hrest].
        constructor; auto. }
    assert (forall d, exists added,
              snd (fst (map_symbols w rest d sk0 self1)) = sk0 ++ added /\
              (forall s, In s added -> In s (symbol :: rest)) /\
              (List.NoDup (symbol :: rest) -> List.NoDup added)) as Hkeep.
    { intros d. destruct (IH d sk0 self1) as (added & Heq & Hin & Hnd).
      exists added. split; [exact Heq |]. split.
      - intros s Hs. right. auto.
      - intros Hnd'. apply List.NoDup_cons_iff in Hnd' as [_ Hrest]. auto. }
    destruct cg_id as [id|]; [destruct (Py.truthy id) |];
      [apply Hkeep | exact Hskip | exact Hskip].
Qed.

(** The two exits of [enrich_with_coingecko_data] on a non-empty frame. *)
Lemma enrich_unfold (w : world) (df : list bar) (self : collector) :
  df <> [] ->
  let mapped := map_symbols w (Pandas.unique (map symbol df)) [] [] self in
  let d := Spec.resolution w df self in
  let md := Spec.fetched w df self in
  enrich_with_coingecko_data w df self =
  match d with
  | [] => (([], Pandas.unique (map symbol df)), snd mapped)
  | _ :: _ =>
      ((List.filter notna (map (enrich_row d md) df),
        snd (fst mapped) ++
        elements (list_to_set
                    (Pandas.unique
                       (map row_symbol
                          (List.filter isna (map (enrich_row d md) df))))
                  : gset string)),
       snd (get_coingecko_market_data w (map snd d) (snd mapped)))
  end.
Proof.
  intros Hne. cbv zeta. unfold Spec.resolution, Spec.fetched.
  destruct df as [|b0 df0]; [congruence |].
  set (df := b0 :: df0). unfold enrich_with_coingecko_data.
  change (match df with [] => _ | _ :: _ => ?k end) with k.
  unfold StateM.bind, StateM.ret.
  destruct (map_symbols w (Pandas.unique (map symbol df)) [] [] self)
    as [[d sk] self1].
  cbv beta iota. cbn [fst snd].
  destruct d as [|[k0 v0] d']; [reflexivity |].
  now destruct (get_coingecko_market_data w _ self1) as [md self2].
Qed.

Lemma filter_notna_bars (d : list (string * string))
    (md : gmap string market_record) (df : list bar) :
  map row_bar (List.filter notna (map (enrich_row d md) df)) =
  List.filter (fun b => Spec.has_cap d md (symbol b)) df.
Proof.
  induction df as [|b df IH]; simpl; [reflexivity |].
  rewrite notna_enrich_row.
  destruct (Spec.has_cap d md (symbol b)); simpl; rewrite IH; [| reflexivity].
  f_equal. unfold enrich_row.
  destruct (Py.dict_get d (symbol b)) as [id|]; [| reflexivity].
  now destruct (md !! id).
Qed.

Lemma enrich_row_market (d : list (string * string))
    (md : gmap string market_record) (b : bar) :
  notna (enrich_row d md b) = true ->
  exists cg_id data,
    Py.dict_get d (symbol b) = Some cg_id /\ md !! cg_id = Some data /\
    row_market (enrich_row d md b) = data /\ is_Some (market_cap data).
Proof.
  unfold notna, enrich_row.
  destruct (Py.dict_get d (symbol b)) as [id|]; [| discriminate].
  destruct (md !! id) as [data|] eqn:E; [| discriminate].
  simpl. intros Hcap. exists id, data. repeat split; auto.
  - now destruct data.
  - destruct (market_cap data); [eauto | discriminate].
Qed.

End EnrichmentMore.

(** X12. Enrichment keeps bars intact and in order: the bars of the
    enriched rows are the input bars whose symbol got a market cap, in
    input order, none altered or repeated; and every enriched row carries
    the record fetched for its symbol's provider id, whose market cap is
    not null. *)
Theorem enrich_rows_preserved
    (w : Collector.world) (df : list Collector.bar) (self : Collector.collector) :
  let result := fst (Collector.enrich_with_coingecko_data w df self) in
  let d := Spec.resolution w df self in
  let md := Spec.fetched w df self in
  map Collector.row_bar (fst result) =
    List.filter (fun b => Spec.has_cap d md (Collector.symbol b)) df /\
  (forall r, In r (fst result) ->
     exists cg_id data,
       Py.dict_get d (Collector.row_symbol r) = Some cg_id /\
       md !! cg_id = Some data /\
       Collector.row_market r = data /\
       is_Some (Collector.market_cap data)).
Proof.
  cbv zeta. destruct (enrich_result w df self) as [Hout _].
  cbv zeta in Hout. rewrite Hout. split; [apply filter_notna_bars |].
  intros r Hr. apply filter_In in Hr as [Hr Hna].
  apply in_map_iff in Hr as (b & <- & Hb).
  rewrite enrich_row_symbol. now apply enrich_row_market.
Qed.

(** X13. When no symbol of the frame resolves, enrichment returns no row,
    reports every distinct symbol as skipped, in order of first appearance
    and once each, and sends no [/coins/markets] request. *)
Theorem enrich_nothing_resolved
    (w : Collector.world) (df : list Collector.bar) (self : Collector.collector) :
  Spec.resolution w df self = [] ->
  let run := Collector.enrich_with_coingecko_data w df self in
  fst run = ([], Pandas.unique (map Collector.symbol df)) /\
  Spec.markets_requests (Spec.events_since self (snd run)) = [].
Proof.
  intros Hres. cbv zeta. destruct df as [|b0 df0].
  - simpl. rewrite events_since_refl. auto.
  - rewrite enrich_unfold by discriminate. cbv zeta. rewrite Hres.
    cbn [fst snd]. split; [reflexivity |].
    destruct (map_symbols_events w
                (Pandas.unique (map Collector.symbol (b0 :: df0))) [] [] self)
      as (evs & Hlog & Hevs).
    rewrite (events_since_app _ _ _ Hlog).
    now apply listing_events_no_markets.
Qed.

Lemma enrich_nothing_resolved_witness :
  let run := Collector.enrich_with_coingecko_data Examples.klines_world
               Examples.three_bars Collector.init in
  fst run = ([], ["BTCUSDT"; "FAKEUSDT"; "ETHUSDT"]) /\
  Spec.markets_requests (Spec.events_since Collector.init (snd run)) = [].
Proof.
  apply (enrich_nothing_resolved Examples.klines_world Examples.three_bars
           Collector.init).
  vm_compute. reflexivity.
Defined.

(** X14. How often a symbol is reported as skipped when at least one symbol
    resolved: a symbol that did not resolve appears twice in the returned
    list (once from the mapping loop, once from the rows filtered out), a
    symbol that resolved but has no market cap appears once, and a symbol
    with a market cap does not appear. *)
Theorem enrich_skipped_multiplicity
    (w : Collector.world) (df : list Collector.bar) (self : Collector.collector)
    (s : string) :
  Spec.resolution w df self <> [] ->
  In s (map Collector.symbol df) ->
  let result := fst (Collector.enrich_with_coingecko_data w df self) in
  let d := Spec.resolution w df self in
  let md := Spec.fetched w df self in
  count_occ String.string_dec (snd result) s =
  match Py.dict_get d s with
  | None => 2%nat
  | Some _ => if Spec.has_cap d md s then 0%nat else 1%nat
  end.
Proof.
  intros Hres Hs. cbv zeta.
  assert (df <> []) as Hne by (intros ->; destruct Hs).
  rewrite (enrich_unfold w df self Hne). cbv zeta.
  destruct (Spec.resolution w df self) as [|p d'] eqn:Ed; [congruence |].
  rewrite <- Ed in *. cbn [fst snd]. rewrite count_occ_app.
  set (d := Spec.resolution w df self) in *.
  set (md := Spec.fetched w df self).
  destruct (map_symbols_skipped_shape w
              (Pandas.unique (map Collector.symbol df)) [] [] self)
    as (added & Hadded & _ & Hnd).
  specialize (Hnd (unique_NoDup _)). simpl in Hadded. rewrite Hadded.
  pose proof (map_symbols_spec w (Pandas.unique (map Collector.symbol df))
                [] [] self (unique_NoDup _)) as Hspec.
  cbv zeta in Hspec. destruct Hspec as [_ Hsk]; [intros x _; simpl; tauto |].
  rewrite Hadded in Hsk. fold d in Hsk.
  assert (In s added <-> Py.dict_get d s = None) as Hin_added.
  { rewrite Hsk, unique_In. simpl. tauto. }
  assert (forall l, List.NoDup l -> In s l ->
            count_occ String.string_dec l s = 1%nat) as Hone.
  { intros l Hl Hin.
    pose proof (proj1 (NoDup_count_occ String.string_dec l) Hl s) as Hle.
    apply (count_occ_In String.string_dec) in Hin. lia. }
  assert (forall l, ~ In s l -> count_occ String.string_dec l s = 0%nat)
    as Hzero by (intros l Hl; now apply count_occ_not_In).
  assert (In s (elements (list_to_set
            (Pandas.unique
               (map Collector.row_symbol
                  (List.filter Collector.isna
                     (map (Collector.enrich_row d md) df)))) : gset string))
          <-> Spec.has_cap d md s = false) as Hin_set.
  { rewrite In_elements_list_to_set, unique_In, isna_symbols. tauto. }
  assert (List.NoDup (elements (list_to_set
            (Pandas.unique
               (map Collector.row_symbol
                  (List.filter Collector.isna
                     (map (Collector.enrich_row d md) df)))) : gset string)))
    as Hnd_set by (apply NoDup_ListNoDup, NoDup_elements).
  destruct (Py.dict_get d s) as [id|] eqn:Eget.
  - rewrite (Hzero added) by (rewrite Hin_added; discriminate).
    destruct (Spec.has_cap d md s) eqn:Ecap.
    + rewrite Hzero; [reflexivity |]. rewrite Hin_set. discriminate.
    + rewrite Hone; [reflexivity | exact Hnd_set | now apply Hin_set].
  - rewrite (Hone added Hnd) by now apply Hin_added.
    rewrite Hone; [reflexivity | exact Hnd_set |].
    apply Hin_set. now apply has_cap_unmapped.
Qed.

Lemma enrich_skipped_multiplicity_witness :
  count_occ String.string_dec
    (snd (fst (Collector.enrich_with_coingecko_data Examples.partial_world
                 Examples.three_bars Collector.init))) "FAKEUSDT" = 2%nat.
Proof.
  apply (enrich_skipped_multiplicity Examples.partial_world
           Examples.three_bars Collector.init "FAKEUSDT").
  - vm_compute. discriminate.
  - simpl. tauto.
Defined.

(* ===================================================================== *)
(** ** Further properties of [crypto_collector_v2.py] *)
(* ===================================================================== *)

Section V2More.

Import CollectorV2.

Lemma rate_limit_coingecko_unfold (w : world) (self : collector) :
  let now := time w (length (log self)) in
  let recent :=
    List.filter (fun t0 => Qltb (now - t0) 60) (coingecko_calls self) in
  coingecko_calls (snd (rate_limit_coingecko w self)) =
    (if (max_calls_per_minute <=? length recent)%nat then [] else recent)
      ++ [now] /\
  symbol_mapping (snd (rate_limit_coingecko w self)) = symbol_mapping self.
Proof.
  cbv beta iota zeta delta [rate_limit_coingecko StateM.bind StateM.get
    StateM.ret tick emit set_calls].
  cbn [fst snd coingecko_calls symbol_mapping log].
  match goal with |- context [if ?b then _ else _] => destruct b end;
    cbn [fst snd coingecko_calls symbol_mapping]; auto.
Qed.

Lemma build_symbol_to_id_from (upper lower : string -> string)
    (coins : list coin) (s : string) :
  forall m : gmap string string,
  foldl (fun symbol_to_id c =>
           let symbol := upper (coin_symbol c) in
           match symbol_to_id !! symbol with
           | None => <[symbol := coin_id c]> symbol_to_id
           | Some _ =>
               if String.eqb (lower (coin_name c)) (lower symbol)
               then <[symbol := coin_id c]> symbol_to_id
               else symbol_to_id
           end) m coins !! s =
  match m !! s with
  | Some v =>
      Some (default v
              (coin_id <$> last (List.filter (Extra.name_matches upper lower)
                                   (List.filter (Extra.has_symbol upper s) coins))))
  | None => coin_id <$> Extra.preferred_coin upper lower s coins
  end.
Proof.
  induction coins as [|c coins IH]; intros m.
  - simpl. now destruct (m !! s).
  - cbn [foldl]. rewrite IH. clear IH. cbv zeta.
    change (String.eqb (lower (coin_name c))
              (lower (upper (coin_symbol c))))
      with (Extra.name_matches upper lower c).
    unfold Extra.preferred_coin. cbn [List.filter].
    destruct (String.eqb_spec (upper (coin_symbol c)) s) as [Heq | Hne].
    + assert (Extra.has_symbol upper s c = true) as ->
        by (unfold Extra.has_symbol; now apply String.eqb_eq).
      rewrite Heq. destruct (m !! s) as [v|] eqn:E.
      * cbn [List.filter]. destruct (Extra.name_matches upper lower c) eqn:Hnm.
        -- rewrite lookup_insert_eq.
           destruct (List.filter (Extra.name_matches upper lower)
                       (List.filter (Extra.has_symbol upper s) coins)) as [|x l];
             [reflexivity |].
           rewrite last_cons_cons.
           destruct (last (x :: l)) eqn:El; [reflexivity |].
           apply last_None in El. discriminate.
        -- now rewrite E.
      * rewrite lookup_insert_eq. simpl.
        now destruct (last (List.filter (Extra.name_matches upper lower)
                              (List.filter (Extra.has_symbol upper s) coins))).
    + assert (Extra.has_symbol upper s c = false) as ->
        by (unfold Extra.has_symbol; now apply String.eqb_neq).
      destruct (m !! upper (coin_symbol c));
        [destruct (Extra.name_matches upper lower c) |];
        rewrite ?lookup_insert_ne by assumption; reflexivity.
Qed.

Lemma chart_rows_columns (w : world)
    (prices market_caps volumes : list (Z * Py.float)) :
  forall rows,
  chart_rows w prices market_caps volumes = Some rows ->
  let n := Extra.zip3_length prices market_caps volumes in
  length rows = n /\
  map c_timestamp rows = take n (map fst prices) /\
  map (fun r => Some (c_date r)) rows
    = take n (map (fun p => local_date w (fst p)) prices) /\
  map c_price rows = take n (map snd prices) /\
  map c_market_cap rows = take n (map snd market_caps) /\
  map c_volume rows = take n (map snd volumes).
Proof.
  cbv zeta. unfold Extra.zip3_length.
  revert market_caps volumes.
  induction prices as [|p ps IH]; intros [|m ms] [|v vs] rows; simpl;
    try (intros [= <-]; repeat split; reflexivity).
  destruct (local_date w (fst p)) as [d|] eqn:Ed; [| discriminate].
  destruct (chart_rows w ps ms vs) as [df_list|] eqn:Erows; [| discriminate].
  intros [= <-].
  destruct (IH ms vs df_list Erows) as (H1 & H2 & H3 & H4 & H5 & H6).
  simpl. rewrite H1, H2, H3, H4, H5, H6. repeat split; reflexivity.
Qed.

(** The rows are built one after the other: they all exist when every
    zipped timestamp has a local date, and none does when one has not. *)
Lemma chart_rows_defined (w : world)
    (prices market_caps volumes : list (Z * Py.float)) :
  let n := Extra.zip3_length prices market_caps volumes in
  ((forall p, In p (take n prices) -> local_date w (fst p) <> None) ->
   chart_rows w prices market_caps volumes <> None) /\
  ((exists p, In p (take n prices) /\ local_date w (fst p) = None) ->
   chart_rows w prices market_caps volumes = None).
Proof.
  cbv zeta. unfold Extra.zip3_length.
  revert market_caps volumes.
  induction prices as [|p ps IH]; intros [|m ms] [|v vs]; simpl;
    try (split; [discriminate | intros (q & [] & _)]).
  destruct (IH ms vs) as [Hall Hsome]. split.
  - intros Hok.
    destruct (local_date w (fst p)) eqn:Ed;
      [| exfalso; now apply (Hok p (or_introl eq_refl))].
    destruct (chart_rows w ps ms vs) eqn:Erows; [discriminate |].
    exfalso. apply Hall; [| reflexivity].
    intros q Hq. apply Hok. now right.
  - intros (q & [<- | Hq] & Hbad).
    + now rewrite Hbad.
    + rewrite Hsome by eauto. now destruct (local_date w (fst p)).
Qed.

Lemma outcome_rows (w : world) (data : market_chart) :
  Spec.outcome w (HttpOk data) =
  default [] (chart_rows w (prices data) (market_caps data)
                (total_volumes data)).
Proof.
  unfold Spec.outcome.
  destruct (prices data), (market_caps data), (total_volumes data);
    reflexivity.
Qed.

End V2More.

(** X15. The rate limiter keeps its window bounded: after every call the
    remembered call times are at most 30, the last one is the clock reading
    of this call, and every other one lies less than 60 seconds before it.
    The symbol cache is not touched. *)
Theorem rate_limit_coingecko_window
    (w : CollectorV2.world) (self : CollectorV2.collector) :
  let self' := snd (CollectorV2.rate_limit_coingecko w self) in
  let now := CollectorV2.time w (length (CollectorV2.log self)) in
  (length (CollectorV2.coingecko_calls self')
   <= CollectorV2.max_calls_per_minute)%nat /\
  last (CollectorV2.coingecko_calls self') = Some now /\
  List.Forall (fun t => t = now \/ CollectorV2.Qltb (now - t) 60 = true)
    (CollectorV2.coingecko_calls self') /\
  CollectorV2.symbol_mapping self' = CollectorV2.symbol_mapping self.
Proof.
  cbv zeta. destruct (rate_limit_coingecko_unfold w self) as [Hcalls Hmap].
  cbv zeta in Hcalls. rewrite Hcalls. split; [| split; [| split]].
  - rewrite length_app. cbn [length].
    destruct (CollectorV2.max_calls_per_minute <=? _)%nat eqn:E.
    + unfold CollectorV2.max_calls_per_minute. cbn [length]. lia.
    + apply Nat.leb_gt in E. lia.
  - apply last_snoc.
  - apply List.Forall_app. split; [| repeat constructor].
    destruct (CollectorV2.max_calls_per_minute <=? _)%nat; [constructor |].
    apply List.Forall_forall. intros t Ht. apply filter_In in Ht as [_ Ht].
    now right.
  - exact Hmap.
Qed.



(** X17. Which coin the v2 listing keeps under a key, whatever the case
    mappings [str.upper] and [str.lower] are: the first coin of the
    response whose upper-cased symbol is the key, unless later coins with
    that upper-cased symbol have a name whose lower-casing equals the
    lower-casing of the key, in which case the last of those; a key that
    is the upper-cased symbol of no coin has no entry. *)
Theorem build_symbol_to_id_preference
    (upper lower : string -> string) (coins : list CollectorV2.coin)
    (s : string) :
  CollectorV2.build_symbol_to_id upper lower coins !! s =
  CollectorV2.coin_id <$> Extra.preferred_coin upper lower s coins.
Proof.
  unfold CollectorV2.build_symbol_to_id. rewrite build_symbol_to_id_from.
  now rewrite lookup_empty.
Qed.

(** X18. The frame of [get_historical_data] when the first response is a
    chart. The rows are built for the positions present in all three
    series (the length of their [zip]; positions beyond the shortest
    series are not visited). When the timestamp of each of them has a
    local date, the call returns one row per position, and row [i] takes
    its timestamp and price from [prices[i]], its date from that
    timestamp, its market cap from [market_caps[i]] and its volume from
    [total_volumes[i]]. When [fromtimestamp] raises for one of them, the
    call returns the empty frame. *)
Theorem get_historical_data_rows
    (w : CollectorV2.world) (coingecko_id : string) (days : Z)
    (self : CollectorV2.collector) (fuel : nat) (data : CollectorV2.market_chart) :
  CollectorV2.get_market_chart w
    (CollectorV2.requests_made (CollectorV2.log self)) coingecko_id days
    = CollectorV2.HttpOk data ->
  (0 < fuel)%nat ->
  let n := Extra.zip3_length (CollectorV2.prices data)
             (CollectorV2.market_caps data) (CollectorV2.total_volumes data) in
  let result :=
    fst (CollectorV2.get_historical_data fuel w coingecko_id days self) in
  ((forall p, In p (take n (CollectorV2.prices data)) ->
      CollectorV2.local_date w (fst p) <> None) ->
   exists rows,
     result = Some rows /\
     length rows = n /\
     map CollectorV2.c_timestamp rows
       = take n (map fst (CollectorV2.prices data)) /\
     map (fun r => Some (CollectorV2.c_date r)) rows
       = take n (map (fun p => CollectorV2.local_date w (fst p))
                   (CollectorV2.prices data)) /\
     map CollectorV2.c_price rows
       = take n (map snd (CollectorV2.prices data)) /\
     map CollectorV2.c_market_cap rows
       = take n (map snd (CollectorV2.market_caps data)) /\
     map CollectorV2.c_volume rows
       = take n (map snd (CollectorV2.total_volumes data))) /\
  ((exists p, In p (take n (CollectorV2.prices data)) /\
              CollectorV2.local_date w (fst p) = None) ->
   result = Some []).
Proof.
  intros Hresp Hfuel. cbv zeta.
  destruct (get_historical_data_retries w coingecko_id days 0 self fuel)
    as (Hres & _).
  - intros i Hi. lia.
  - rewrite Nat.add_0_r, Hresp. discriminate.
  - exact Hfuel.
  - rewrite Nat.add_0_r, Hresp, outcome_rows in Hres. rewrite Hres.
    destruct (chart_rows_defined w (CollectorV2.prices data)
                (CollectorV2.market_caps data)
                (CollectorV2.total_volumes data)) as [Hall Hsome].
    cbv zeta in Hall, Hsome. split.
    + intros Hok. specialize (Hall Hok).
      destruct (CollectorV2.chart_rows w (CollectorV2.prices data)
                  (CollectorV2.market_caps data)
                  (CollectorV2.total_volumes data)) as [rows|] eqn:Erows;
        [| congruence].
      exists rows. split; [reflexivity |].
      now apply chart_rows_columns.
    + intros Hbad. now rewrite (Hsome Hbad).
Qed.

Lemma get_historical_data_rows_witness :
  (exists rows,
     fst (CollectorV2.get_historical_data 1 Extra.calm_world_v2 "bitcoin" 365
            (CollectorV2.init ∅)) = Some rows /\
     length rows = 1%nat) /\
  fst (CollectorV2.get_historical_data 1 Extra.dateless_world_v2 "bitcoin" 365
         (CollectorV2.init ∅)) = Some [].
Proof.
  split.
  - destruct (get_historical_data_rows Extra.calm_world_v2 "bitcoin" 365
                (CollectorV2.init ∅) 1 Examples.one_day_chart eq_refl)
      as [Hrows _]; [lia |].
    destruct Hrows as (rows & Hrows & Hlen & _).
    + intros p [<- | []]. discriminate.
    + exists rows. split; [exact Hrows | exact Hlen].
  - destruct (get_historical_data_rows Extra.dateless_world_v2 "bitcoin" 365
                (CollectorV2.init ∅) 1 Examples.one_day_chart eq_refl)
      as [_ Hnone]; [lia |].
    apply Hnone. eexists. split; [left; reflexivity | reflexivity].
Defined.

(** X19. The merge of the v2 daily update: the merged frame has at most one
    row per [(date, symbol)] key, is sorted by [(symbol, date)], holds
    exactly the rows that are last for their key in the existing rows
    followed by the new rows, and is no longer than the two together. *)
Theorem merge_daily_unique_sorted
    (existing_df new_df : list CollectorV2.row) :
  let merged := CollectorV2.merge_daily existing_df new_df in
  List.NoDup (map CollectorV2.row_key merged) /\
  StronglySorted (fun r1 r2 => CollectorV2.row_le r1 r2 = true) merged /\
  (forall r, In r merged <->
     Pandas.last_with_key CollectorV2.row_key (CollectorV2.row_key r)
       (existing_df ++ new_df) = Some r) /\
  (length merged <= length existing_df + length new_df)%nat.
Proof.
  cbv zeta. split; [apply merged_NoDup |].
  split; [apply merge_daily_sorted |]. split; [intros r; apply merged_In |].
  unfold CollectorV2.merge_daily.
  rewrite (Permutation_length (sort_values_Permutation CollectorV2.row_le _)).
  rewrite <- length_app. apply drop_duplicates_last_length.
Qed.

(* ===================================================================== *)
(** ** Properties of the ticker and of the daily update *)
(* ===================================================================== *)

Section DriversMore.

Import Collector Run.
Variable to_float : string -> option Py.float.

Lemma lift_eq {A : Type} (c : StateM.M collector A) (sys : system) :
  lift c sys =
  (fst (c (collector_of sys)),
   {| collector_of := snd (c (collector_of sys)); disk_of := disk_of sys;
      client_log := client_log sys |}).
Proof. unfold lift. now destruct (c (collector_of sys)). Qed.

Lemma convert_tickers_bad_cell (today : Z) (tickers : list ticker) (t : ticker) :
  In t tickers -> convert_ticker to_float today t = None ->
  convert_tickers to_float today tickers = None.
Proof.
  induction tickers as [|x rest IH]; simpl; [tauto |].
  intros [-> | Hin] Hbad.
  - now rewrite Hbad.
  - rewrite (IH Hin Hbad). now destruct (convert_ticker to_float today x).
Qed.

Lemma convert_ticker_fields (today : Z) (t : ticker) (b : bar) :
  convert_ticker to_float today t = Some b ->
  symbol b = t_symbol t /\ date b = today.
Proof.
  unfold convert_ticker.
  destruct (to_float (t_openPrice t)), (to_float (t_highPrice t)),
    (to_float (t_lowPrice t)), (to_float (t_lastPrice t)),
    (to_float (t_volume t)), (to_float (t_quoteVolume t)); try discriminate.
  intros [= <-]. simpl. auto.
Qed.

Lemma convert_tickers_all (today : Z) (tickers : list ticker) :
  (forall t, In t tickers -> convert_ticker to_float today t <> None) ->
  exists df,
    convert_tickers to_float today tickers = Some df /\
    map symbol df = map t_symbol tickers /\
    List.Forall (fun b => date b = today) df.
Proof.
  induction tickers as [|t rest IH]; intros Hall; simpl.
  - exists []. repeat split; constructor.
  - destruct IH as (df & -> & Hsym & Hdate);
      [intros t' Ht'; apply Hall; now right |].
    destruct (convert_ticker to_float today t) as [b|] eqn:E.
    + destruct (convert_ticker_fields today t b E) as [Hs Hd].
      exists (b :: df). simpl. rewrite Hs, Hsym.
      repeat split; auto.
    + exfalso. now apply (Hall t (or_introl eq_refl)).
Qed.

Lemma convert_tickers_rows (today : Z) (tickers : list ticker)
    (df : list bar) (b : bar) :
  convert_tickers to_float today tickers = Some df -> In b df ->
  exists t, In t tickers /\ symbol b = t_symbol t /\ date b = today.
Proof.
  revert df. induction tickers as [|t rest IH]; simpl; intros df.
  - intros [= <-] [].
  - destruct (convert_ticker to_float today t) as [b0|] eqn:E; [| discriminate].
    destruct (convert_tickers to_float today rest) as [bs|]; [| discriminate].
    intros [= <-] [<- | Hb].
    + destruct (convert_ticker_fields today t b0 E). eauto.
    + destruct (IH bs eq_refl Hb) as (t' & Ht' & Hf). eauto.
Qed.

Lemma requested_filter (symbols : list string) (tickers : list ticker) :
  map t_symbol
    (List.filter
       (fun t => bool_decide (t_symbol t ∈ (list_to_set symbols : gset string)))
       tickers) =
  List.filter (fun s => bool_decide (s ∈ symbols)) (map t_symbol tickers).
Proof.
  induction tickers as [|t rest IH]; simpl; [reflexivity |].
  rewrite (bool_decide_ext (t_symbol t ∈ (list_to_set symbols : gset string))
             (t_symbol t ∈ symbols)) by apply elem_of_list_to_set.
  destruct (bool_decide (t_symbol t ∈ symbols)); simpl; now rewrite IH.
Qed.

(** What [get_current_day_ticker] does with a ticker response. *)
Lemma get_current_day_ticker_ok (w : world) (x : exchange)
    (symbols : list string) (sys : system) (tickers : list ticker) :
  ticker_24h x (length (client_log sys)) = ClientOk tickers ->
  let requested :=
    List.filter
      (fun t => bool_decide (t_symbol t ∈ (list_to_set symbols : gset string)))
      tickers in
  let run := get_current_day_ticker to_float w x symbols sys in
  fst run =
    match convert_tickers to_float (Extra.today w sys) requested with
    | Some df => Returned df
    | None => Raised
    end /\
  disk_of (snd run) = disk_of sys.
Proof.
  intros Hresp. cbv zeta. unfold get_current_day_ticker. rewrite Hresp.
  destruct (List.filter _ tickers) as [|t0 rest] eqn:Ef.
  - simpl. auto.
  - rewrite lift_eq. cbn [fst snd].
    change (fst (datetime_now w (collector_of (call CallTicker sys)))
            / one_day_us)%Z with (Extra.today w sys).
    destruct (convert_tickers to_float (Extra.today w sys) (t0 :: rest));
      cbn [fst snd disk_of]; auto.
Qed.

Lemma enrich_row_bar (d : list (string * string))
    (md : gmap string market_record) (b : bar) :
  row_bar (enrich_row d md b) = b.
Proof.
  unfold enrich_row. destruct (Py.dict_get d (symbol b)) as [id|];
    [destruct (md !! id) |]; reflexivity.
Qed.

(** The rows enrichment returns are input bars that kept a market cap. *)
Lemma enrich_rows_from (w : world) (df : list bar) (self : collector) (r : row) :
  In r (fst (fst (enrich_with_coingecko_data w df self))) ->
  In (row_bar r) df /\ is_Some (market_cap (row_market r)).
Proof.
  destruct (enrich_result w df self) as [Hout _]. cbv zeta in Hout.
  rewrite Hout. intros Hr. apply filter_In in Hr as [Hr Hna].
  apply in_map_iff in Hr as (b & <- & Hb). rewrite enrich_row_bar.
  split; [exact Hb |]. unfold notna in Hna.
  destruct (market_cap (row_market (enrich_row _ _ b))); [eauto | discriminate].
Qed.

Lemma save_to_csv_frame (data_dir filename mode : string) (df : list row)
    (fs : gmap string (list row)) (p : string) :
  p <> Py.path_join data_dir filename ->
  save_to_csv data_dir df filename mode fs !! p = fs !! p.
Proof.
  intros Hp. unfold save_to_csv. destruct df as [|r df]; [reflexivity |].
  destruct (String.eqb mode "a"), (fs !! Py.path_join data_dir filename);
    now rewrite lookup_insert_ne by congruence.
Qed.

(** Every row of the destination after a write was in the old file or is
    one of the written rows. *)
Lemma save_to_csv_rows_from (data_dir filename mode : string) (df : list row)
    (fs : gmap string (list row)) (file : list row) (r : row) :
  save_to_csv data_dir df filename mode fs !! Py.path_join data_dir filename
    = Some file ->
  In r file ->
  (exists old, fs !! Py.path_join data_dir filename = Some old /\ In r old) \/
  In r df.
Proof.
  unfold save_to_csv. destruct df as [|r0 df0]; [eauto |].
  set (df := r0 :: df0).
  destruct (String.eqb mode "a");
    destruct (fs !! Py.path_join data_dir filename) as [old|] eqn:Hfs;
    rewrite lookup_insert_eq; intros [= <-] Hr; auto.
  apply merge_frames_In, last_with_key_Some in Hr as [_ Hr].
  apply in_app_iff in Hr as [Hr | Hr]; eauto.
Qed.

End DriversMore.

(** X20. [get_current_day_ticker] parses the tickers of the requested
    symbols only. When every requested ticker parses, it returns one bar
    per requested ticker, in the order of the response, all dated today;
    tickers of other symbols are ignored, malformed or not. When a
    requested ticker has a numeric field that does not parse, the
    [ValueError] escapes the call: the function raises instead of
    returning an empty frame. *)
Theorem get_current_day_ticker_requested_only
    (to_float : string -> option Py.float) (w : Collector.world)
    (x : Run.exchange) (symbols : list string) (sys : Run.system)
    (tickers : list Run.ticker) :
  Run.ticker_24h x (length (Run.client_log sys)) = Run.ClientOk tickers ->
  let result := fst (Run.get_current_day_ticker to_float w x symbols sys) in
  let today := Extra.today w sys in
  ((forall t, In t tickers -> In (Run.t_symbol t) symbols ->
      Run.convert_ticker to_float today t <> None) ->
   exists df,
     result = Run.Returned df /\
     map Collector.symbol df =
       List.filter (fun s => bool_decide (s ∈ symbols))
         (map Run.t_symbol tickers) /\
     List.Forall (fun b => Collector.date b = today) df) /\
  ((exists t, In t tickers /\ In (Run.t_symbol t) symbols /\
      Run.convert_ticker to_float today t = None) ->
   result = Run.Raised).
Proof.
  intros Hresp. cbv zeta.
  destruct (get_current_day_ticker_ok to_float w x symbols sys tickers Hresp)
    as [Hres _]. cbv zeta in Hres. rewrite Hres. split.
  - intros Hall.
    destruct (convert_tickers_all to_float (Extra.today w sys)
                (List.filter
                   (fun t => bool_decide
                      (Run.t_symbol t ∈ (list_to_set symbols : gset string)))
                   tickers)) as (df & -> & Hsym & Hdate).
    + intros t Ht. apply filter_In in Ht as [Ht Hreq].
      apply bool_decide_eq_true_1 in Hreq.
      apply Hall; [exact Ht |].
      now apply elem_of_list_to_set, list_elem_of_In in Hreq.
    + exists df. rewrite Hsym, requested_filter. auto.
  - intros (t & Ht & Hreq & Hbad).
    rewrite (convert_tickers_bad_cell to_float _ _ t); auto.
    apply filter_In. split; [exact Ht |].
    apply bool_decide_eq_true_2, elem_of_list_to_set. now apply list_elem_of_In.
Qed.

Lemma get_current_day_ticker_requested_only_witness :
  (exists df,
     fst (Run.get_current_day_ticker Py.float_of_decimal Examples.partial_world
            Extra.example_exchange ["BTCUSDT"] (Run.start ∅))
       = Run.Returned df /\
     map Collector.symbol df = ["BTCUSDT"]) /\
  fst (Run.get_current_day_ticker Py.float_of_decimal Examples.partial_world
         Extra.example_exchange ["BTCUSDT"; "BADUSDT"] (Run.start ∅))
    = Run.Raised.
Proof.
  split.
  - destruct (get_current_day_ticker_requested_only Py.float_of_decimal
                Examples.partial_world Extra.example_exchange ["BTCUSDT"]
                (Run.start ∅) _ eq_refl) as [Hok _].
    destruct Hok as (df & Hdf & Hsym & _).
    + intros t [<- | [<- | []]] Hin.
      * vm_compute. discriminate.
      * exfalso. simpl in Hin. destruct Hin as [H | []]. discriminate H.
    + exists df. split; [exact Hdf | exact Hsym].
  - destruct (get_current_day_ticker_requested_only Py.float_of_decimal
                Examples.partial_world Extra.example_exchange
                ["BTCUSDT"; "BADUSDT"] (Run.start ∅) _ eq_refl) as [_ Hbad].
    apply Hbad. eexists. split; [right; left; reflexivity |].
    split; [simpl; tauto | vm_compute; reflexivity].
Defined.

(** X21. What a daily update can put on disk: whatever the exchange and the
    provider answer, and whether the update returns or raises, no file
    other than the dataset is touched, and every row of the dataset
    afterwards was either in the dataset before or is a row dated today,
    for one of the requested symbols, with a market cap that is not null. *)
Theorem collect_daily_update_disk
    (to_float : string -> option Py.float) (w : Collector.world)
    (x : Run.exchange) (data_dir : string) (symbols : list string)
    (sys : Run.system) :
  symbols <> [] ->
  let sys' :=
    snd (Run.collect_daily_update to_float w x data_dir (Some symbols) sys) in
  (forall p, p <> Extra.dataset_path data_dir ->
             Run.disk_of sys' !! p = Run.disk_of sys !! p) /\
  (forall file r,
     Run.disk_of sys' !! Extra.dataset_path data_dir = Some file ->
     In r file ->
     (exists old, Run.disk_of sys !! Extra.dataset_path data_dir = Some old /\
                  In r old) \/
     (Collector.date (Collector.row_bar r) = Extra.today w sys /\
      In (Collector.row_symbol r) symbols /\
      is_Some (Collector.market_cap (Collector.row_market r)))).
Proof.
  intros Hne. cbv zeta. unfold Run.collect_daily_update.
  destruct symbols as [|s0 rest]; [congruence |]. set (symbols := s0 :: rest).
  assert (forall sys0 : Run.system,
            Run.disk_of sys0 = Run.disk_of sys ->
            (forall p, p <> Extra.dataset_path data_dir ->
                       Run.disk_of sys0 !! p = Run.disk_of sys !! p) /\
            (forall file r,
               Run.disk_of sys0 !! Extra.dataset_path data_dir = Some file ->
               In r file ->
               (exists old,
                  Run.disk_of sys !! Extra.dataset_path data_dir = Some old /\
                  In r old) \/
               (Collector.date (Collector.row_bar r) = Extra.today w sys /\
                In (Collector.row_symbol r) symbols /\
                is_Some (Collector.market_cap (Collector.row_market r)))))
    as Hsame.
  { intros sys0 ->. split; [reflexivity |]. intros file r Hfile Hr. eauto. }
  destruct (Run.ticker_24h x (length (Run.client_log sys))) as [tickers| |]
    eqn:Hresp.
  - destruct (get_current_day_ticker_ok to_float w x symbols sys tickers Hresp)
      as [Hres Hdisk]. cbv zeta in Hres, Hdisk.
    destruct (Run.get_current_day_ticker to_float w x symbols sys)
      as [df_result sys2]. cbn [fst snd] in Hres, Hdisk.
    destruct df_result as [df|]; [| now apply Hsame].
    destruct df as [|b0 df0]; [now apply Hsame |].
    set (df := b0 :: df0) in *.
    destruct (Run.convert_tickers to_float (Extra.today w sys) _) as [df'|]
      eqn:Econv; [| discriminate]. injection Hres as <-.
    assert (forall b, In b df ->
              In (Collector.symbol b) symbols /\
              Collector.date b = Extra.today w sys) as Hbars.
    { intros b Hb.
      destruct (convert_tickers_rows to_float _ _ _ b Econv Hb)
        as (t & Ht & Hs & Hd).
      split; [| exact Hd]. rewrite Hs.
      apply filter_In in Ht as [_ Hreq].
      apply bool_decide_eq_true_1, elem_of_list_to_set in Hreq.
      now apply list_elem_of_In. }
    rewrite lift_eq. cbn [fst snd].
    destruct (fst (fst (Collector.enrich_with_coingecko_data w df
                          (Run.collector_of sys2)))) as [|r0 out0] eqn:Eout.
    + now apply Hsame.
    + set (out := r0 :: out0) in *. unfold Run.write.
      cbn [Run.disk_of Run.collector_of Run.client_log]. rewrite Hdisk.
      unfold Extra.dataset_path. split.
      * intros p Hp. now apply save_to_csv_frame.
      * intros file r Hfile Hr.
        destruct (save_to_csv_rows_from _ _ _ _ _ _ r Hfile Hr)
          as [Hold | Hnew]; [now left | right].
        rewrite <- Eout in Hnew.
        apply enrich_rows_from in Hnew as [Hbar Hcap].
        destruct (Hbars _ Hbar) as [Hsym Hdate]. auto.
  - unfold Run.get_current_day_ticker. rewrite Hresp. now apply Hsame.
  - unfold Run.get_current_day_ticker. rewrite Hresp. now apply Hsame.
Qed.

Lemma collect_daily_update_disk_witness :
  let sys' :=
    snd (Run.collect_daily_update Py.float_of_decimal Examples.partial_world
           Extra.example_exchange "data" (Some ["BTCUSDT"]) (Run.start ∅)) in
  (forall p, p <> Extra.dataset_path "data" ->
             Run.disk_of sys' !! p = Run.disk_of (Run.start ∅) !! p) /\
  (forall file r,
     Run.disk_of sys' !! Extra.dataset_path "data" = Some file ->
     In r file ->
     (exists old,
        Run.disk_of (Run.start ∅) !! Extra.dataset_path "data" = Some old /\
        In r old) \/
     (Collector.date (Collector.row_bar r)
        = Extra.today Examples.partial_world (Run.start ∅) /\
      In (Collector.row_symbol r) ["BTCUSDT"] /\
      is_Some (Collector.market_cap (Collector.row_market r)))).
Proof.
  apply (collect_daily_update_disk Py.float_of_decimal Examples.partial_world
           Extra.example_exchange "data" ["BTCUSDT"] (Run.start ∅)).
  discriminate.
Defined.

(* ===================================================================== *)
(** ** Properties of the historical collection *)
(* ===================================================================== *)

Section HistoricalMore.

Import Collector Run.
Variable to_float : string -> option Py.float.

Lemma klines_requests_app (a b : list event) :
  Extra.klines_requests (a ++ b) =
  Extra.klines_requests a ++ Extra.klines_requests b.
Proof.
  induction a as [|e a IH]; [reflexivity |].
  destruct e; simpl; now rewrite IH.
Qed.

Lemma listing_events_no_klines (evs : list event) :
  forallb Extra.is_listing_event evs = true -> Extra.klines_requests evs = [].
Proof.
  induction evs as [|e evs IH]; [reflexivity |].
  destruct e; simpl; try discriminate; exact IH.
Qed.

Lemma market_data_loop_no_klines (w : world) (coingecko_ids : list string)
    (starts : list nat) :
  forall (market_data : gmap string market_record) (self : collector),
  exists evs,
    log (snd (market_data_loop w coingecko_ids starts market_data self))
      = log self ++ evs /\
    Extra.klines_requests evs = [].
Proof.
  induction starts as [|i rest IH]; intros market_data self.
  - exists []. simpl. now rewrite app_nil_r.
  - cbn [market_data_loop].
    unfold request_coins_markets, tick, emit, sleep, emit, StateM.ret,
      StateM.bind.
    set (batch := Py.slice coingecko_ids i (i + batch_size)).
    destruct (coins_markets w (length (log self)) batch) as [data|];
      cbn [fst snd log coingecko_map coingecko_map_timestamp];
      match goal with
      | |- context [market_data_loop w coingecko_ids rest ?md ?st] =>
          destruct (IH md st) as (evs & Hlog & Hevs)
      end;
      cbn [log] in Hlog; rewrite Hlog, <- !app_assoc;
      eexists; (split; [reflexivity | exact Hevs]).
Qed.

Lemma get_coingecko_market_data_no_klines (w : world) (ids : list string)
    (self : collector) :
  exists evs,
    log (snd (get_coingecko_market_data w ids self)) = log self ++ evs /\
    Extra.klines_requests evs = [].
Proof.
  unfold get_coingecko_market_data. destruct ids as [|id ids].
  - exists []. simpl. now rewrite app_nil_r.
  - apply market_data_loop_no_klines.
Qed.

(** Enrichment asks the exchange for nothing. *)
Lemma enrich_no_klines (w : world) (df : list bar) (self : collector) :
  exists evs,
    log (snd (enrich_with_coingecko_data w df self)) = log self ++ evs /\
    Extra.klines_requests evs = [].
Proof.
  destruct df as [|b df0].
  - exists []. simpl. now rewrite app_nil_r.
  - set (df := b :: df0).
    assert (df <> []) as Hne by discriminate.
    pose proof (enrich_unfold w df self Hne) as Hun. cbv zeta in Hun.
    rewrite Hun. clear Hun.
    destruct (map_symbols_events w (Pandas.unique (map symbol df)) [] [] self)
      as (evs1 & Hlog1 & Hevs1).
    apply listing_events_no_klines in Hevs1.
    destruct (Spec.resolution w df self) as [|entry d].
    + exists evs1. cbn [snd]. auto.
    + cbn [snd].
      destruct (get_coingecko_market_data_no_klines w (map snd (entry :: d))
                  (snd (map_symbols w (Pandas.unique (map symbol df)) [] []
                          self))) as (evs2 & Hlog2 & Hevs2).
      exists (evs1 ++ evs2). rewrite Hlog2, Hlog1, <- app_assoc.
      split; [reflexivity |]. now rewrite klines_requests_app, Hevs1, Hevs2.
Qed.

(** The log of one call when the window has a start. *)
Lemma get_historical_klines_log_in_range (w : world) (symbol : string)
    (days : Z) (self : collector) :
  Extra.window_always w days ->
  log (snd (get_historical_klines to_float w symbol days self))
  = log self ++ [EvNow; EvKlines symbol days].
Proof.
  intros Hwindow. rewrite get_historical_klines_log.
  destruct (Spec.window_start w self days) eqn:E; [reflexivity |].
  now apply Hwindow in E.
Qed.

(** The enrich-and-save step: no client call, no klines request, and no
    file touched but the dataset. *)
Lemma flush_effects (sort_first : bool) (w : world) (data_dir : string)
    (all_data : list (list bar)) (skipped : list string) (sys : system) :
  let sys' := snd (flush sort_first w data_dir all_data skipped sys) in
  client_log sys' = client_log sys /\
  (exists evs,
     log (collector_of sys') = log (collector_of sys) ++ evs /\
     Extra.klines_requests evs = []) /\
  (forall p, p <> Extra.dataset_path data_dir ->
             disk_of sys' !! p = disk_of sys !! p).
Proof.
  cbv zeta. unfold flush. rewrite lift_eq. cbv beta iota zeta.
  destruct (enrich_no_klines w (concat all_data) (collector_of sys))
    as (evs & Hlog & Hevs).
  destruct (fst (fst (enrich_with_coingecko_data w (concat all_data)
                        (collector_of sys)))) as [|r out];
    cbn [snd fst write client_log collector_of disk_of].
  - repeat split; eauto.
  - repeat split; eauto.
    intros p Hp. now apply save_to_csv_frame.
Qed.

(** The loop over the symbols: one klines request and one pause per
    symbol, in order; only the dataset can change on disk. *)
Lemma historical_loop_effects (w : world) (data_dir : string) (days : Z)
    (symbols : list string) :
  Extra.window_always w days ->
  forall (i : nat) (all_data : list (list bar))
         (failed_symbols skipped : list string) (sys : system),
  let sys' :=
    snd (historical_loop to_float w data_dir days symbols i all_data
           failed_symbols skipped sys) in
  (exists evs,
     log (collector_of sys') = log (collector_of sys) ++ evs /\
     Extra.klines_requests evs = map (fun s => (s, days)) symbols) /\
  client_log sys' =
    client_log sys ++ repeat (Pause (1 # 2)) (length symbols) /\
  (forall p, p <> Extra.dataset_path data_dir ->
             disk_of sys' !! p = disk_of sys !! p).
Proof.
  intros Hwindow. induction symbols as [|symbol rest IH];
    intros i all_data failed_symbols skipped sys; cbv zeta.
  - simpl. rewrite !app_nil_r. split; [exists [] |]; rewrite ?app_nil_r; auto.
  - cbn [historical_loop]. rewrite lift_eq. cbv beta iota zeta.
    pose proof (get_historical_klines_log_in_range w symbol days
                  (collector_of sys) Hwindow) as Hlog1.
    set (df := fst (get_historical_klines to_float w symbol days
                      (collector_of sys))) in *.
    set (self1 := snd (get_historical_klines to_float w symbol days
                         (collector_of sys))) in *.
    set (sys2 := call (Pause (1 # 2)) _).
    assert (log (collector_of sys2) =
            log (collector_of sys) ++ [EvNow; EvKlines symbol days])
      as Hlog2 by exact Hlog1.
    assert (client_log sys2 = client_log sys ++ [Pause (1 # 2)])
      as Hclient2 by reflexivity.
    assert (disk_of sys2 = disk_of sys) as Hdisk2 by reflexivity.
    clearbody sys2. clear Hlog1.
    assert (forall sys3 i' all_data' failed' skipped',
              client_log sys3 = client_log sys2 ->
              (exists evs,
                 log (collector_of sys3) = log (collector_of sys2) ++ evs /\
                 Extra.klines_requests evs = []) ->
              (forall p, p <> Extra.dataset_path data_dir ->
                         disk_of sys3 !! p = disk_of sys2 !! p) ->
              let sys' :=
                snd (historical_loop to_float w data_dir days rest i'
                       all_data' failed' skipped' sys3) in
              (exists evs,
                 log (collector_of sys') = log (collector_of sys) ++ evs /\
                 Extra.klines_requests evs
                   = map (fun s => (s, days)) (symbol :: rest)) /\
              client_log sys' =
                client_log sys
                ++ repeat (Pause (1 # 2)) (length (symbol :: rest)) /\
              (forall p, p <> Extra.dataset_path data_dir ->
                         disk_of sys' !! p = disk_of sys !! p)) as Hnext.
    { intros sys3 i' all_data' failed' skipped' Hc3 (evs3 & Hl3 & He3) Hd3.
      cbv zeta.
      destruct (IH i' all_data' failed' skipped' sys3)
        as ((evs & Hl & He) & Hc & Hd).
      split; [| split].
      - exists ([EvNow; EvKlines symbol days] ++ evs3 ++ evs).
        rewrite Hl, Hl3, Hlog2, <- !app_assoc. split; [reflexivity |].
        rewrite !klines_requests_app, He3, He. reflexivity.
      - rewrite Hc, Hc3, Hclient2, <- app_assoc. reflexivity.
      - intros p Hp. rewrite (Hd p Hp), (Hd3 p Hp), Hdisk2. reflexivity. }
    destruct ((i mod 50 =? 0)%nat && nonempty _).
    + pose proof (flush_effects false w data_dir
                    match df with [] => all_data | _ => all_data ++ [df] end
                    skipped sys2) as Hflush. cbv zeta in Hflush.
      destruct (flush false w data_dir _ skipped sys2) as [skipped1 sys3].
      cbn [snd] in Hflush. destruct Hflush as (Hc3 & Hl3 & Hd3).
      now apply Hnext.
    + apply Hnext; [reflexivity | exists []; now rewrite app_nil_r | auto].
Qed.

(** With no candles for anyone the loop collects nothing. *)
Lemma historical_loop_no_candles (w : world) (data_dir : string) (days : Z)
    (symbols : list string) :
  Extra.window_always w days ->
  (forall t s, Extra.no_candles (historical_klines w t s days) = true) ->
  forall (i : nat) (failed_symbols skipped : list string) (sys : system),
  let run :=
    historical_loop to_float w data_dir days symbols i [] failed_symbols
      skipped sys in
  fst run = ([], failed_symbols ++ symbols, skipped) /\
  disk_of (snd run) = disk_of sys /\
  log (collector_of (snd run)) =
    log (collector_of sys)
    ++ flat_map (fun s => [EvNow; EvKlines s days]) symbols.
Proof.
  intros Hwindow Hnone. induction symbols as [|symbol rest IH];
    intros i failed_symbols skipped sys; cbv zeta.
  - simpl. now rewrite !app_nil_r.
  - cbn [historical_loop]. rewrite lift_eq. cbv beta iota zeta.
    pose proof (get_historical_klines_log_in_range w symbol days
                  (collector_of sys) Hwindow) as Hlog1.
    assert (fst (get_historical_klines to_float w symbol days
                   (collector_of sys)) = []) as ->.
    { rewrite get_historical_klines_unfold. unfold Spec.klines_response.
      specialize (Hnone (S (length (log (collector_of sys)))) symbol).
      destruct (Spec.window_start w (collector_of sys) days);
        [| reflexivity].
      destruct (historical_klines w _ symbol days) as [[|k ks]| |];
        [reflexivity | discriminate | reflexivity | reflexivity]. }
    cbn [nonempty]. rewrite andb_false_r.
    match goal with
    | |- context [historical_loop to_float w data_dir days rest ?i' []
                    ?f ?sk ?st] =>
        destruct (IH i' f sk st) as (Hres & Hdisk & Hlog)
    end.
    rewrite Hres, Hdisk, Hlog. cbn [call collector_of disk_of].
    rewrite Hlog1, <- !app_assoc. auto.
Qed.

(** With a window that has no start the loop calls the client for no
    symbol. *)
Lemma historical_loop_overflow (w : world) (data_dir : string) (days : Z)
    (symbols : list string) :
  Extra.window_never w days ->
  forall (i : nat) (failed_symbols skipped : list string) (sys : system),
  let run :=
    historical_loop to_float w data_dir days symbols i [] failed_symbols
      skipped sys in
  fst run = ([], failed_symbols ++ symbols, skipped) /\
  disk_of (snd run) = disk_of sys /\
  client_log (snd run) =
    client_log sys ++ repeat (Pause (1 # 2)) (length symbols) /\
  log (collector_of (snd run)) =
    log (collector_of sys) ++ repeat EvNow (length symbols).
Proof.
  intros Hnever. induction symbols as [|symbol rest IH];
    intros i failed_symbols skipped sys; cbv zeta.
  - simpl. now rewrite !app_nil_r.
  - cbn [historical_loop]. rewrite lift_eq. cbv beta iota zeta.
    pose proof (get_historical_klines_log to_float w symbol days
                  (collector_of sys)) as Hlog1.
    pose proof (get_historical_klines_unfold to_float w symbol days
                  (collector_of sys)) as Hdf.
    unfold Spec.window_start in Hlog1, Hdf.
    rewrite (Hnever (length (log (collector_of sys)))) in Hlog1, Hdf.
    rewrite Hdf. cbn [nonempty]. rewrite andb_false_r.
    match goal with
    | |- context [historical_loop to_float w data_dir days rest ?i' []
                    ?f ?sk ?st] =>
        destruct (IH i' f sk st) as (Hres & Hdisk & Hclient & Hlog)
    end.
    rewrite Hres, Hdisk, Hclient, Hlog.
    cbn [call collector_of disk_of client_log length repeat].
    rewrite Hlog1, <- !app_assoc. auto.
Qed.

End HistoricalMore.

(** X22. A historical collection over a window that has a start, during
    which the exchange has no candles for any symbol, reports every
    requested symbol as failed and none as skipped, leaves the disk as it
    was, and contacts the market-data provider not at all: the
    collector's log grows by one clock reading and one klines request per
    symbol and by nothing else. *)
Theorem collect_historical_data_no_candles
    (to_float : string -> option Py.float) (w : Collector.world)
    (x : Run.exchange) (data_dir : string) (days : Z)
    (max_symbols : option Z) (symbols : list string) (sys : Run.system) :
  symbols <> [] ->
  Extra.window_always w days ->
  (forall t s,
     Extra.no_candles (Collector.historical_klines w t s days) = true) ->
  let run :=
    Run.collect_historical_data to_float w x data_dir days max_symbols
      (Some symbols) sys in
  fst run = Run.Returned (symbols, []) /\
  Run.disk_of (snd run) = Run.disk_of sys /\
  Run.client_log (snd run) =
    Run.client_log sys ++ repeat (Run.Pause (1 # 2)) (length symbols) /\
  Collector.log (Run.collector_of (snd run)) =
    Collector.log (Run.collector_of sys)
    ++ flat_map (fun s => [Collector.EvNow; Collector.EvKlines s days]) symbols.
Proof.
  intros Hne Hwindow Hnone. cbv zeta. unfold Run.collect_historical_data.
  destruct symbols as [|s0 rest]; [congruence |]. set (symbols := s0 :: rest).
  destruct (historical_loop_no_candles to_float w data_dir days symbols
              Hwindow Hnone 1 [] [] sys) as (Hres & Hdisk & Hlog).
  destruct (historical_loop_effects to_float w data_dir days symbols Hwindow
              1 [] [] [] sys) as (_ & Hclient & _).
  destruct (Run.historical_loop to_float w data_dir days symbols 1 [] [] [] sys)
    as [state sys2].
  cbn [fst snd] in Hres, Hdisk, Hlog, Hclient. subst state.
  cbn [fst snd]. auto.
Qed.

Lemma collect_historical_data_no_candles_witness :
  let run :=
    Run.collect_historical_data Py.float_of_decimal Extra.no_candles_world
      Extra.example_exchange "data" 30 None (Some ["BTCUSDT"; "ETHUSDT"])
      (Run.start ∅) in
  fst run = Run.Returned (["BTCUSDT"; "ETHUSDT"], []) /\
  Run.disk_of (snd run) = Run.disk_of (Run.start ∅) /\
  Run.client_log (snd run) =
    Run.client_log (Run.start ∅) ++ repeat (Run.Pause (1 # 2)) 2 /\
  Collector.log (Run.collector_of (snd run)) =
    Collector.log (Run.collector_of (Run.start ∅))
    ++ flat_map (fun s => [Collector.EvNow; Collector.EvKlines s 30])
         ["BTCUSDT"; "ETHUSDT"].
Proof.
  apply (collect_historical_data_no_candles Py.float_of_decimal
           Extra.no_candles_world Extra.example_exchange "data" 30 None
           ["BTCUSDT"; "ETHUSDT"] (Run.start ∅)).
  - discriminate.
  - intros t. vm_compute. discriminate.
  - intros t s. reflexivity.
Defined.

(** X23. A historical collection without a symbol filter, over a window
    that has a start, asks the exchange for its listing once and then for
    the klines of exactly the selected symbols, once each and in the
    order of the listing: the pairs whose status is TRADING, cut to
    [max_symbols] when that is given and not zero. It pauses half a
    second after every symbol, makes no further client call, and touches
    no file but the dataset. *)
Theorem collect_historical_data_requests
    (to_float : string -> option Py.float) (w : Collector.world)
    (x : Run.exchange) (data_dir : string) (days : Z)
    (max_symbols : option Z) (infos : list Run.symbol_info)
    (sys : Run.system) :
  Run.exchange_info x (length (Run.client_log sys)) = Run.ClientOk infos ->
  Extra.window_always w days ->
  let trading :=
    map Run.si_symbol
      (List.filter (fun s => String.eqb (Run.si_status s) "TRADING") infos) in
  let selected :=
    match max_symbols with
    | Some m => if (m =? 0)%Z then trading else Run.slice_to trading m
    | None => trading
    end in
  let run :=
    Run.collect_historical_data to_float w x data_dir days max_symbols None
      sys in
  (exists report, fst run = Run.Returned report) /\
  Extra.klines_requests
    (Spec.events_since (Run.collector_of sys) (Run.collector_of (snd run)))
    = map (fun s => (s, days)) selected /\
  Run.client_log (snd run) =
    Run.client_log sys
    ++ Run.CallExchangeInfo :: repeat (Run.Pause (1 # 2)) (length selected) /\
  (forall p, p <> Extra.dataset_path data_dir ->
             Run.disk_of (snd run) !! p = Run.disk_of sys !! p).
Proof.
  intros Hinfo Hwindow. cbv zeta.
  unfold Run.collect_historical_data, Run.get_all_spot_symbols.
  rewrite Hinfo.
  set (trading := map Run.si_symbol (List.filter _ infos)).
  set (selected := match max_symbols with
                   | Some m => if (m =? 0)%Z then trading
                               else Run.slice_to trading m
                   | None => trading
                   end).
  set (sys1 := Run.call Run.CallExchangeInfo sys).
  destruct (historical_loop_effects to_float w data_dir days selected Hwindow
              1 [] [] [] sys1) as ((evs & Hlog & Hevs) & Hclient & Hdisk).
  destruct (Run.historical_loop to_float w data_dir days selected 1 [] [] []
              sys1) as [[[all_data failed_symbols] skipped] sys2].
  cbn [snd] in Hlog, Hclient, Hdisk.
  change (Collector.log (Run.collector_of sys1))
    with (Collector.log (Run.collector_of sys)) in Hlog.
  change (Run.client_log sys1)
    with (Run.client_log sys ++ [Run.CallExchangeInfo]) in Hclient.
  rewrite <- app_assoc in Hclient.
  destruct all_data as [|df all_data0].
  - cbn [fst snd]. split; [eauto |]. split; [| split].
    + now rewrite (events_since_app _ _ evs) by exact Hlog.
    + exact Hclient.
    + exact Hdisk.
  - pose proof (flush_effects true w data_dir (df :: all_data0) skipped sys2)
      as Hflush. cbv zeta in Hflush.
    destruct (Run.flush true w data_dir (df :: all_data0) skipped sys2)
      as [skipped' sys3].
    cbn [snd] in Hflush. destruct Hflush as (Hc3 & (evs3 & Hl3 & He3) & Hd3).
    cbn [fst snd]. split; [eauto |]. split; [| split].
    + rewrite (events_since_app _ _ (evs ++ evs3))
        by (rewrite Hl3, Hlog; now rewrite <- app_assoc).
      rewrite klines_requests_app, Hevs, He3. apply app_nil_r.
    + now rewrite Hc3.
    + intros p Hp. now rewrite (Hd3 p Hp), (Hdisk p Hp).
Qed.

Lemma collect_historical_data_requests_witness :
  let run :=
    Run.collect_historical_data Py.float_of_decimal Examples.partial_world
      Extra.example_exchange "data" 3 (Some 1%Z) None (Run.start ∅) in
  Extra.klines_requests
    (Spec.events_since (Run.collector_of (Run.start ∅))
       (Run.collector_of (snd run)))
    = [("BTCUSDT", 3%Z)] /\
  Run.client_log (snd run) = [Run.CallExchangeInfo; Run.Pause (1 # 2)].
Proof.
  destruct (collect_historical_data_requests Py.float_of_decimal
              Examples.partial_world Extra.example_exchange "data" 3
              (Some 1%Z) _ (Run.start ∅) eq_refl) as (_ & Hreq & Hclient & _).
  - intros t. vm_compute. discriminate.
  - split; [exact Hreq | exact Hclient].
Defined.

(* ===================================================================== *)
(** ** Properties of the v2 historical collection *)
(* ===================================================================== *)

Section V2Drivers.

Import CollectorV2 RunV2.

Lemma lift_v2_eq {A : Type} (c : StateM.M collector A) (sys : system) :
  lift c sys =
  (fst (c (collector_of sys)),
   {| collector_of := snd (c (collector_of sys)); csv_files := csv_files sys;
      mapping_file := mapping_file sys;
      exchange_requests := exchange_requests sys |}).
Proof. unfold lift. now destruct (c (collector_of sys)). Qed.

Lemma get_historical_data_mapping (w : world) (coingecko_id : string)
    (days : Z) (fuel : nat) :
  forall self : collector,
  symbol_mapping (snd (get_historical_data fuel w coingecko_id days self))
  = symbol_mapping self.
Proof.
  induction fuel as [|fuel IH]; intros self; [reflexivity |].
  rewrite get_historical_data_step. cbv zeta.
  destruct (rate_limit_coingecko_unfold w self) as [_ Hmap].
  destruct (get_market_chart w _ coingecko_id days) as [data | code |];
    [| destruct (code =? 429)%Z; [rewrite IH |] |];
    cbn [snd emit symbol_mapping]; exact Hmap.
Qed.

Lemma get_historical_data_returns (w : world) (coingecko_id : string)
    (days : Z) (fuel : nat) (self : collector) :
  (forall k id, get_market_chart w k id days <> HttpError 429) ->
  fst (get_historical_data (S fuel) w coingecko_id days self) <> None.
Proof.
  intros Hcalm. rewrite get_historical_data_step. cbv zeta.
  destruct (get_market_chart w _ coingecko_id days) as [data | code |] eqn:E;
    try discriminate.
  destruct (code =? 429)%Z eqn:Ecode; [| discriminate].
  apply Z.eqb_eq in Ecode. subst code. now apply Hcalm in E.
Qed.

Lemma get_coingecko_coins_list_mapping (w : world) (self : collector) :
  symbol_mapping (snd (get_coingecko_coins_list w self)) = symbol_mapping self.
Proof.
  destruct (rate_limit_coingecko_unfold w self) as [_ Hmap].
  unfold get_coingecko_coins_list, StateM.bind, tick, emit, StateM.ret.
  destruct (rate_limit_coingecko w self) as [u self1]. cbn [snd] in Hmap.
  cbv beta iota. destruct (get_coins_list w _); cbn [snd symbol_mapping];
    exact Hmap.
Qed.

(** Resolving a base asset never changes an entry of the cache, and the id
    it answers is the one the cache holds afterwards. *)
Lemma map_binance_to_coingecko_effects (base_asset : string)
    (symbol_to_id : gmap string string) (self : collector) :
  let run := map_binance_to_coingecko base_asset symbol_to_id self in
  (forall k v, symbol_mapping self !! k = Some v ->
               symbol_mapping (snd run) !! k = Some v) /\
  (forall id, fst run = Some id ->
              symbol_mapping (snd run) !! base_asset = Some id).
Proof.
  cbv zeta.
  unfold map_binance_to_coingecko, StateM.bind, StateM.get, StateM.ret,
    set_mapping. cbv beta iota.
  destruct (symbol_mapping self !! base_asset) as [cached|] eqn:E;
    [| destruct (symbol_to_id !! base_asset) as [id1|];
       [| destruct (special_mappings !! base_asset) as [id2|]]];
    cbn [fst snd symbol_mapping]; split;
    try (intros k v Hk; destruct (decide (k = base_asset)) as [-> | Hne];
         [congruence | now rewrite lookup_insert_ne by congruence]);
    try (intros id [= <-]; now rewrite ?lookup_insert_eq);
    try (intros k v Hk; exact Hk);
    try discriminate.
Qed.

Lemma filename_of_prefix (c : ascii) (prefix : string) :
  filename (String c prefix) = String c prefix +:+ "_crypto_data.csv".
Proof. reflexivity. Qed.

Lemma checkpoint_file_eq (n : nat) :
  Extra.checkpoint_file n =
  String "c" ("heckpoint_" +:+ pretty n +:+ "_crypto_data.csv").
Proof.
  unfold Extra.checkpoint_file.
  change ("checkpoint_" +:+ pretty n)
    with (String "c" ("heckpoint_" +:+ pretty n)).
  rewrite filename_of_prefix.
  change (String "c" ("heckpoint_" +:+ pretty n) +:+ "_crypto_data.csv")
    with (String "c" (("heckpoint_" +:+ pretty n) +:+ "_crypto_data.csv")).
  reflexivity.
Qed.

Lemma checkpoint_file_not_daily (n : nat) :
  Extra.checkpoint_file n <> Extra.daily_file.
Proof. rewrite checkpoint_file_eq. discriminate. Qed.

Lemma checkpoint_file_not_historical (n : nat) :
  Extra.checkpoint_file n <> Extra.historical_file.
Proof. rewrite checkpoint_file_eq. discriminate. Qed.

Lemma save_data_frame (data_list : list (list row)) (prefix name : string)
    (files : gmap string (list row)) :
  name <> filename prefix ->
  save_data data_list prefix files !! name = files !! name.
Proof.
  intros Hne. unfold save_data. destruct data_list; [reflexivity |].
  now rewrite lookup_insert_ne by congruence.
Qed.

Lemma sort_values_v2_sorted (rows : list row) :
  StronglySorted (fun r1 r2 => row_le r1 r2 = true)
    (Pandas.sort_values row_le rows).
Proof.
  apply sort_values_StronglySorted.
  - apply (lex_le_total symbol (fun r1 r2 => String.leb (date r1) (date r2))).
    intros x y Hxy.
    destruct (String.leb_total (date x) (date y)); congruence.
  - apply (lex_le_trans symbol (fun r1 r2 => String.leb (date r1) (date r2))).
    intros x y z. apply string_leb_trans.
Qed.

(** A positive count that is a multiple of 50. *)
Lemma checkpoint_count (n : nat) :
  (S n mod 50 =? 0)%nat = true -> exists k, S n = (50 * S k)%nat.
Proof.
  intros H. apply Nat.eqb_eq, Nat.Div0.mod_divides in H as [c Hc].
  destruct c as [|k]; [lia | eauto].
Qed.

(** The loop writes checkpoint files only; it asks the exchange for
    nothing and leaves the mapping file alone. *)
Lemma pairs_loop_files (fuel : nat) (w : world) (days : Z)
    (symbol_to_id : gmap string string) (binance_pairs : list pair_info) :
  forall (all_data : list (list row)) (successful_pairs : nat)
         (failed_pairs : list string) (sys : system),
  let sys' :=
    snd (pairs_loop fuel w days symbol_to_id binance_pairs all_data
           successful_pairs failed_pairs sys) in
  exchange_requests sys' = exchange_requests sys /\
  mapping_file sys' = mapping_file sys /\
  (forall name,
     (forall k, name <> Extra.checkpoint_file (50 * S k)) ->
     csv_files sys' !! name = csv_files sys !! name).
Proof.
  induction binance_pairs as [|pair_info rest IH];
    intros all_data successful_pairs failed_pairs sys; cbv zeta.
  - simpl. auto.
  - cbn [pairs_loop]. rewrite lift_v2_eq. cbv beta iota zeta.
    assert (forall all_data' successful' failed' (sys1 : system),
              exchange_requests sys1 = exchange_requests sys ->
              mapping_file sys1 = mapping_file sys ->
              (forall name,
                 (forall k, name <> Extra.checkpoint_file (50 * S k)) ->
                 csv_files sys1 !! name = csv_files sys !! name) ->
              let sys' :=
                snd (pairs_loop fuel w days symbol_to_id rest all_data'
                       successful' failed' sys1) in
              exchange_requests sys' = exchange_requests sys /\
              mapping_file sys' = mapping_file sys /\
              (forall name,
                 (forall k, name <> Extra.checkpoint_file (50 * S k)) ->
                 csv_files sys' !! name = csv_files sys !! name)) as Hnext.
    { intros all_data' successful' failed' sys1 He Hm Hf. cbv zeta.
      destruct (IH all_data' successful' failed' sys1) as (He' & Hm' & Hf').
      split; [congruence |]. split; [congruence |].
      intros name Hname. now rewrite Hf', Hf. }
    destruct (fst (map_binance_to_coingecko (p_base_asset pair_info)
                     symbol_to_id (collector_of sys))) as [coingecko_id|];
      [destruct (Py.truthy coingecko_id) |];
      try (apply Hnext; reflexivity).
    rewrite lift_v2_eq. cbv beta iota zeta.
    destruct (fst (get_historical_data fuel w coingecko_id days _))
      as [[|c df]|].
    + apply Hnext; reflexivity.
    + destruct (S successful_pairs mod 50 =? 0)%nat eqn:Emod.
      * apply checkpoint_count in Emod as [k Hk]. rewrite Hk.
        apply Hnext; try reflexivity.
        intros name Hname. cbn [write csv_files].
        apply save_data_frame. apply Hname.
      * apply Hnext; reflexivity.
    + cbn [snd exchange_requests mapping_file csv_files]. auto.
Qed.

(** What the loop has collected when it returns: every pair counted once,
    every row tagged with a pair of the listing and with the id the cache
    holds for its base asset. *)
Lemma pairs_loop_result (fuel : nat) (w : world) (days : Z)
    (symbol_to_id : gmap string string) (pairs0 : list pair_info)
    (all_data' : list (list row)) (successful' : nat) (failed' : list string)
    (binance_pairs : list pair_info) :
  forall (all_data : list (list row)) (successful_pairs : nat)
         (failed_pairs : list string) (sys : system),
  (forall p, In p binance_pairs -> In p pairs0) ->
  length all_data = successful_pairs ->
  (forall r, In r (concat all_data) ->
     Extra.row_of_pairs pairs0 (symbol_mapping (collector_of sys)) r) ->
  fst (pairs_loop fuel w days symbol_to_id binance_pairs all_data
         successful_pairs failed_pairs sys)
    = Run.Returned (all_data', successful', failed') ->
  let sys' :=
    snd (pairs_loop fuel w days symbol_to_id binance_pairs all_data
           successful_pairs failed_pairs sys) in
  length all_data' = successful' /\
  (successful' + length failed'
   = successful_pairs + length failed_pairs + length binance_pairs)%nat /\
  (forall k v, symbol_mapping (collector_of sys) !! k = Some v ->
               symbol_mapping (collector_of sys') !! k = Some v) /\
  (forall r, In r (concat all_data') ->
     Extra.row_of_pairs pairs0 (symbol_mapping (collector_of sys')) r).
Proof.
  induction binance_pairs as [|pair_info rest IH];
    intros all_data successful_pairs failed_pairs sys Hsub Hlen Hrows.
  - simpl. intros [= <- <- <-]. split; [exact Hlen |]. split; [lia |].
    split; auto.
  - cbn [pairs_loop]. rewrite lift_v2_eq. cbv beta iota zeta.
    destruct (map_binance_to_coingecko_effects (p_base_asset pair_info)
                symbol_to_id (collector_of sys)) as [Hmono Hid].
    cbv zeta in Hmono, Hid.
    assert (forall all_data1 successful1 failed1 (sys1 : system),
              (forall k v, symbol_mapping (collector_of sys) !! k = Some v ->
                           symbol_mapping (collector_of sys1) !! k = Some v) ->
              length all_data1 = successful1 ->
              (successful1 + length failed1
               = successful_pairs + length failed_pairs + 1)%nat ->
              (forall r, In r (concat all_data1) ->
                 Extra.row_of_pairs pairs0
                   (symbol_mapping (collector_of sys1)) r) ->
              fst (pairs_loop fuel w days symbol_to_id rest all_data1
                     successful1 failed1 sys1)
                = Run.Returned (all_data', successful', failed') ->
              let sys' :=
                snd (pairs_loop fuel w days symbol_to_id rest all_data1
                       successful1 failed1 sys1) in
              length all_data' = successful' /\
              (successful' + length failed'
               = successful_pairs + length failed_pairs
                 + length (pair_info :: rest))%nat /\
              (forall k v, symbol_mapping (collector_of sys) !! k = Some v ->
                           symbol_mapping (collector_of sys') !! k = Some v) /\
              (forall r, In r (concat all_data') ->
                 Extra.row_of_pairs pairs0
                   (symbol_mapping (collector_of sys')) r)) as Hnext.
    { intros all_data1 successful1 failed1 sys1 Hm1 Hl1 Hc1 Hr1 Hres. cbv zeta.
      destruct (IH all_data1 successful1 failed1 sys1
                  (fun p Hp => Hsub p (or_intror Hp)) Hl1 Hr1 Hres)
        as (Hl' & Hc' & Hm' & Hr').
      split; [exact Hl' |]. split; [cbn [length]; lia |].
      split; [| exact Hr']. intros k v Hk. apply Hm', Hm1, Hk. }
    assert (forall m m' : gmap string string,
              (forall k v, m !! k = Some v -> m' !! k = Some v) ->
              forall r, Extra.row_of_pairs pairs0 m r ->
                        Extra.row_of_pairs pairs0 m' r) as Hweaken.
    { intros m m' Hmm r [Hp Hr]. split; [exact Hp | now apply Hmm]. }
    assert (forall sys1 : system,
              (forall k v, symbol_mapping (collector_of sys) !! k = Some v ->
                           symbol_mapping (collector_of sys1) !! k = Some v) ->
              fst (pairs_loop fuel w days symbol_to_id rest all_data
                     successful_pairs (failed_pairs ++ [p_symbol pair_info])
                     sys1)
                = Run.Returned (all_data', successful', failed') ->
              let sys' :=
                snd (pairs_loop fuel w days symbol_to_id rest all_data
                       successful_pairs
                       (failed_pairs ++ [p_symbol pair_info]) sys1) in
              length all_data' = successful' /\
              (successful' + length failed'
               = successful_pairs + length failed_pairs
                 + length (pair_info :: rest))%nat /\
              (forall k v, symbol_mapping (collector_of sys) !! k = Some v ->
                           symbol_mapping (collector_of sys') !! k = Some v) /\
              (forall r, In r (concat all_data') ->
                 Extra.row_of_pairs pairs0
                   (symbol_mapping (collector_of sys')) r)) as Hskip.
    { intros sys1 Hm1. apply Hnext; auto.
      - rewrite length_app. cbn [length]. lia.
      - intros r Hr. eapply Hweaken; [exact Hm1 | now apply Hrows]. }
    destruct (fst (map_binance_to_coingecko (p_base_asset pair_info)
                     symbol_to_id (collector_of sys))) as [coingecko_id|];
      [destruct (Py.truthy coingecko_id) |];
      try (apply Hskip; exact Hmono).
    specialize (Hid coingecko_id eq_refl).
    rewrite lift_v2_eq. cbv beta iota zeta.
    cbn [collector_of].
    pose proof (get_historical_data_mapping w coingecko_id days fuel
                  (snd (map_binance_to_coingecko (p_base_asset pair_info)
                          symbol_to_id (collector_of sys)))) as Hsame.
    destruct (fst (get_historical_data fuel w coingecko_id days _))
      as [[|c df]|].
    + apply Hskip. cbn [collector_of]. rewrite Hsame. exact Hmono.
    + set (df' := map (add_pair_information (p_symbol pair_info)
                         (p_base_asset pair_info) coingecko_id) (c :: df)).
      match goal with
      | |- context [pairs_loop fuel w days symbol_to_id rest _ _ _ ?st] =>
          set (sys3 := st)
      end.
      assert (symbol_mapping (collector_of sys3)
              = symbol_mapping
                  (snd (map_binance_to_coingecko (p_base_asset pair_info)
                          symbol_to_id (collector_of sys)))) as Hc3
        by (unfold sys3; destruct (S successful_pairs mod 50 =? 0)%nat;
            cbn [write collector_of]; exact Hsame).
      clearbody sys3.
      apply Hnext.
      * rewrite Hc3. exact Hmono.
      * rewrite length_app. cbn [length]. lia.
      * lia.
      * intros r Hr. rewrite Hc3.
        rewrite concat_app in Hr. apply in_app_iff in Hr as [Hr | Hr].
        -- eapply Hweaken; [exact Hmono | now apply Hrows].
        -- cbn [concat] in Hr. rewrite app_nil_r in Hr. unfold df' in Hr.
           apply in_map_iff in Hr as (c0 & <- & _). split.
           ++ exists pair_info. split; [apply Hsub; now left |].
              split; reflexivity.
           ++ exact Hid.
    + discriminate.
Qed.

(** With a provider that never answers 429 the loop returns. *)
Lemma pairs_loop_returns (fuel : nat) (w : world) (days : Z)
    (symbol_to_id : gmap string string) (binance_pairs : list pair_info) :
  (forall k id, get_market_chart w k id days <> HttpError 429) ->
  forall (all_data : list (list row)) (successful_pairs : nat)
         (failed_pairs : list string) (sys : system),
  exists state,
    fst (pairs_loop (S fuel) w days symbol_to_id binance_pairs all_data
           successful_pairs failed_pairs sys) = Run.Returned state.
Proof.
  intros Hcalm. induction binance_pairs as [|pair_info rest IH];
    intros all_data successful_pairs failed_pairs sys.
  - simpl. eauto.
  - cbn [pairs_loop]. rewrite lift_v2_eq. cbv beta iota zeta.
    destruct (fst (map_binance_to_coingecko (p_base_asset pair_info)
                     symbol_to_id (collector_of sys))) as [coingecko_id|];
      [destruct (Py.truthy coingecko_id) |]; try apply IH.
    rewrite lift_v2_eq. cbv beta iota zeta.
    match goal with
    | |- context [get_historical_data (S fuel) w coingecko_id days ?st] =>
        pose proof (get_historical_data_returns w coingecko_id days fuel st
                      Hcalm) as Hsome;
        destruct (fst (get_historical_data (S fuel) w coingecko_id days st))
          as [[|c df]|]
    end; [apply IH | apply IH | congruence].
Qed.

(** The files the v2 historical collection can change. *)
Lemma collect_historical_data_frame (fuel : nat) (w : world) (x : exchange)
    (days : Z) (sys : system) (name : string) :
  name <> Extra.historical_file ->
  (forall k, name <> Extra.checkpoint_file (50 * S k)) ->
  csv_files (snd (collect_historical_data fuel w x days sys)) !! name
  = csv_files sys !! name.
Proof.
  intros Hhist Hcheck.
  unfold collect_historical_data, get_binance_spot_pairs.
  destruct (exchange_info x (exchange_requests sys))
    as [symbols|]; [| reflexivity].
  destruct (map _ (List.filter is_usdt_pair symbols))
    as [|pair_info rest]; [reflexivity |].
  rewrite lift_v2_eq. cbv beta iota zeta.
  match goal with
  | |- context [pairs_loop fuel w days ?m ?ps ?a ?n ?f ?st] =>
      destruct (pairs_loop_files fuel w days m ps a n f st)
        as (_ & _ & Hfiles);
      destruct (pairs_loop fuel w days m ps a n f st)
        as [[[[all_data successful_pairs] failed_pairs]|] sys3]
  end; cbn [snd] in Hfiles |- *.
  - destruct all_data as [|df all_data0];
      cbn [snd write save_symbol_mapping csv_files];
      [| rewrite save_data_frame by exact Hhist];
      now rewrite (Hfiles name Hcheck).
  - now rewrite (Hfiles name Hcheck).
Qed.

Lemma drop_duplicates_first_In {A : Type} `{EqDecision A} (x : A)
    (l : list A) :
  In x (drop_duplicates_first l) -> In x l.
Proof.
  induction l as [|y rest IH]; simpl; [tauto |].
  intros [-> | Hin]; [now left |].
  apply filter_In in Hin as [Hin _]. right. now apply IH.
Qed.

Section DailyV2.
Variable sort_values_date : list chart_row -> list chart_row.

(** The loop of the daily update writes nothing and leaves the symbol
    cache alone; the rows it collects carry the columns of the pairs it
    was given. *)
Lemma updates_loop_effects (fuel : nat) (w : world)
    (pairs : list (string * string * string)) :
  forall (new_data : list (list row)) (successful_updates : nat)
         (sys : system),
  let run :=
    updates_loop sort_values_date fuel w pairs new_data successful_updates
      sys in
  csv_files (snd run) = csv_files sys /\
  mapping_file (snd run) = mapping_file sys /\
  symbol_mapping (collector_of (snd run))
    = symbol_mapping (collector_of sys) /\
  (forall new_data' n,
     fst run = Run.Returned (new_data', n) ->
     forall r, In r (concat new_data') ->
       In r (concat new_data) \/ In (pair_columns r) pairs).
Proof.
  induction pairs as [|[[symbol base_asset] coingecko_id] rest IH];
    intros new_data successful_updates sys; cbv zeta.
  - simpl. repeat split; auto. intros new_data' n [= <- <-] r Hr. now left.
  - cbn [updates_loop]. rewrite lift_v2_eq. cbv beta iota zeta.
    pose proof (get_historical_data_mapping w coingecko_id 2 fuel
                  (collector_of sys)) as Hsame.
    set (sys1 := {| collector_of :=
                      snd (get_historical_data fuel w coingecko_id 2
                             (collector_of sys));
                    csv_files := csv_files sys;
                    mapping_file := mapping_file sys;
                    exchange_requests := exchange_requests sys |}).
    destruct (fst (get_historical_data fuel w coingecko_id 2
                     (collector_of sys))) as [[|c df]|].
    + destruct (IH new_data successful_updates sys1) as (Hf & Hm & Hc & Hr).
      split; [exact Hf |]. split; [exact Hm |].
      split; [rewrite Hc; exact Hsame |].
      intros new_data' n Hres r Hin.
      destruct (Hr new_data' n Hres r Hin) as [H | H]; [now left |].
      right. now right.
    + set (df' := map (add_pair_information symbol base_asset coingecko_id)
                    (tail 1 (sort_values_date (c :: df)))).
      destruct (IH (new_data ++ [df']) (S successful_updates) sys1)
        as (Hf & Hm & Hc & Hr).
      split; [exact Hf |]. split; [exact Hm |].
      split; [rewrite Hc; exact Hsame |].
      intros new_data' n Hres r Hin.
      destruct (Hr new_data' n Hres r Hin) as [H | H]; [| right; now right].
      rewrite concat_app in H. apply in_app_iff in H as [H | H]; [now left |].
      cbn [concat] in H. rewrite app_nil_r in H. unfold df' in H.
      apply in_map_iff in H as (c0 & <- & _). right. now left.
    + cbn [fst snd]. repeat split; auto. discriminate.
Qed.

End DailyV2.

End V2Drivers.

(** X24. The historical collection of [crypto_collector_v2.py] writes its
    dataset under the names [historical_crypto_data.csv] and
    [checkpoint_<n>_crypto_data.csv], [n] a positive multiple of 50, and
    under no other name. In particular it neither creates nor changes
    [crypto_data.csv], the name [save_data] uses when it is given no
    prefix. *)
Theorem collect_historical_data_v2_files
    (fuel : nat) (w : CollectorV2.world) (x : RunV2.exchange) (days : Z)
    (sys : RunV2.system) :
  let sys' := snd (RunV2.collect_historical_data fuel w x days sys) in
  (forall name,
     name <> Extra.historical_file ->
     (forall k, name <> Extra.checkpoint_file (50 * S k)) ->
     RunV2.csv_files sys' !! name = RunV2.csv_files sys !! name) /\
  RunV2.csv_files sys' !! Extra.daily_file
    = RunV2.csv_files sys !! Extra.daily_file.
Proof.
  cbv zeta. split; [apply collect_historical_data_frame |].
  apply collect_historical_data_frame.
  - discriminate.
  - intros k Heq. symmetry in Heq. now apply checkpoint_file_not_daily in Heq.
Qed.

(** X25. When the exchange request fails, or the listing has no USDT pair
    that is trading, the v2 historical collection returns at once: the
    collector is untouched, so no request goes to the provider, no CSV
    file is written, and the mapping file is not written either. *)
Theorem collect_historical_data_v2_no_pairs
    (fuel : nat) (w : CollectorV2.world) (x : RunV2.exchange) (days : Z)
    (sys : RunV2.system) :
  match RunV2.exchange_info x (RunV2.exchange_requests sys) with
  | Some symbols => Extra.usdt_pairs symbols = []
  | None => True
  end ->
  let run := RunV2.collect_historical_data fuel w x days sys in
  fst run = Run.Returned None /\
  RunV2.collector_of (snd run) = RunV2.collector_of sys /\
  RunV2.csv_files (snd run) = RunV2.csv_files sys /\
  RunV2.mapping_file (snd run) = RunV2.mapping_file sys.
Proof.
  intros Hnone. cbv zeta.
  unfold RunV2.collect_historical_data, RunV2.get_binance_spot_pairs.
  destruct (RunV2.exchange_info x (RunV2.exchange_requests sys))
    as [symbols|]; [| now cbn].
  unfold Extra.usdt_pairs in Hnone. rewrite Hnone. now cbn.
Qed.

Lemma collect_historical_data_v2_no_pairs_witness :
  let run :=
    RunV2.collect_historical_data 3 Examples.twice_limited_world
      Extra.quiet_exchange_v2 365 (RunV2.start ∅ None) in
  fst run = Run.Returned None /\
  RunV2.collector_of (snd run) = RunV2.collector_of (RunV2.start ∅ None) /\
  RunV2.csv_files (snd run) = RunV2.csv_files (RunV2.start ∅ None) /\
  RunV2.mapping_file (snd run) = RunV2.mapping_file (RunV2.start ∅ None).
Proof.
  apply (collect_historical_data_v2_no_pairs 3 Examples.twice_limited_world
           Extra.quiet_exchange_v2 365 (RunV2.start ∅ None)).
  reflexivity.
Defined.

(** X26. What a v2 historical collection that returns after its loop leaves
    behind. Every USDT pair of the listing was counted once, as successful
    or as failed. The mapping file holds the collector's symbol cache,
    which kept every entry it had before. With at least one successful
    pair, [historical_crypto_data.csv] is sorted by [(symbol, date)] and
    each of its rows belongs to a trading USDT pair of the listing and
    carries the id the saved cache holds for its base asset; with none,
    that file is left as it was. *)
Theorem collect_historical_data_v2_dataset
    (fuel : nat) (w : CollectorV2.world) (x : RunV2.exchange) (days : Z)
    (sys : RunV2.system) (symbols : list RunV2.symbol_info)
    (successful_pairs : nat) (failed_pairs : list string) :
  RunV2.exchange_info x (RunV2.exchange_requests sys) = Some symbols ->
  fst (RunV2.collect_historical_data fuel w x days sys)
    = Run.Returned (Some (successful_pairs, failed_pairs)) ->
  let sys' := snd (RunV2.collect_historical_data fuel w x days sys) in
  let mapping := CollectorV2.symbol_mapping (RunV2.collector_of sys') in
  (successful_pairs + length failed_pairs
   = length (Extra.usdt_pairs symbols))%nat /\
  RunV2.mapping_file sys' = Some mapping /\
  (forall k v,
     CollectorV2.symbol_mapping (RunV2.collector_of sys) !! k = Some v ->
     mapping !! k = Some v) /\
  (successful_pairs = 0%nat ->
   RunV2.csv_files sys' !! Extra.historical_file
     = RunV2.csv_files sys !! Extra.historical_file) /\
  ((0 < successful_pairs)%nat ->
   exists file,
     RunV2.csv_files sys' !! Extra.historical_file = Some file /\
     StronglySorted (fun r1 r2 => CollectorV2.row_le r1 r2 = true) file /\
     forall r, In r file -> Extra.row_of_listing symbols mapping r).
Proof.
  intros Hinfo. cbv zeta.
  unfold RunV2.collect_historical_data, RunV2.get_binance_spot_pairs.
  rewrite Hinfo.
  set (sys1 := {| RunV2.collector_of := RunV2.collector_of sys;
                  RunV2.csv_files := RunV2.csv_files sys;
                  RunV2.mapping_file := RunV2.mapping_file sys;
                  RunV2.exchange_requests :=
                    S (RunV2.exchange_requests sys) |}).
  set (pairs0 := map (fun symbol_info =>
                        {| RunV2.p_symbol := RunV2.si_symbol symbol_info;
                           RunV2.p_base_asset :=
                             RunV2.si_baseAsset symbol_info |})
                     (List.filter RunV2.is_usdt_pair symbols)).
  assert (length pairs0 = length (Extra.usdt_pairs symbols)) as Hcount
    by apply length_map.
  assert (forall m r, Extra.row_of_pairs pairs0 m r ->
                      Extra.row_of_listing symbols m r) as Hlisting.
  { intros m r [(pair_info & Hp & Hs & Hb) Hm]. split; [| exact Hm].
    apply in_map_iff in Hp as (symbol_info & <- & Hin).
    exists symbol_info. auto. }
  destruct pairs0 as [|pair_info rest] eqn:Epairs; [discriminate |].
  rewrite <- Epairs in *. clear Epairs pair_info rest.
  rewrite lift_v2_eq. cbv beta iota zeta.
  set (symbol_to_id := fst (CollectorV2.get_coingecko_coins_list w
                              (RunV2.collector_of sys1))).
  set (sys2 := {| RunV2.collector_of :=
                    snd (CollectorV2.get_coingecko_coins_list w
                           (RunV2.collector_of sys1));
                  RunV2.csv_files := RunV2.csv_files sys1;
                  RunV2.mapping_file := RunV2.mapping_file sys1;
                  RunV2.exchange_requests := RunV2.exchange_requests sys1 |}).
  assert (CollectorV2.symbol_mapping (RunV2.collector_of sys2)
          = CollectorV2.symbol_mapping (RunV2.collector_of sys)) as Hmap2
    by apply get_coingecko_coins_list_mapping.
  destruct (pairs_loop_files fuel w days symbol_to_id pairs0 [] 0 [] sys2)
    as (_ & _ & Hfiles). cbv zeta in Hfiles.
  pose proof (fun a n f =>
                pairs_loop_result fuel w days symbol_to_id pairs0 a n f
                  pairs0 [] 0 [] sys2 (fun p Hp => Hp) eq_refl
                  (fun r (Hr : In r (concat [])) => False_ind _ Hr))
    as Hresult. cbv zeta in Hresult.
  destruct (RunV2.pairs_loop fuel w days symbol_to_id pairs0 [] 0 [] sys2)
    as [[[[all_data successful'] failed']|] sys3]; [| discriminate].
  cbn [fst snd] in Hfiles, Hresult |- *.
  intros [= -> ->].
  destruct (Hresult all_data successful_pairs failed_pairs eq_refl)
    as (Hlen & Hsum & Hmono & Hrows).
  assert (RunV2.csv_files sys3 !! Extra.historical_file
          = RunV2.csv_files sys !! Extra.historical_file) as Hhist.
  { apply (Hfiles Extra.historical_file). intros k Heq. symmetry in Heq.
    now apply checkpoint_file_not_historical in Heq. }
  assert (CollectorV2.symbol_mapping
            (RunV2.collector_of
               match all_data with
               | [] => RunV2.save_symbol_mapping sys3
               | _ :: _ =>
                   RunV2.write (RunV2.save_data all_data "historical")
                     (RunV2.save_symbol_mapping sys3)
               end)
          = CollectorV2.symbol_mapping (RunV2.collector_of sys3)) as Hmap4
    by now destruct all_data.
  rewrite Hmap4.
  split; [cbn [length] in Hsum; lia |].
  split; [now destruct all_data |].
  split; [intros k v Hk; apply Hmono; rewrite Hmap2; exact Hk |].
  split.
  - intros ->. destruct all_data; [exact Hhist | discriminate].
  - intros Hpos. destruct all_data as [|df all_data0];
      [cbn [length] in Hlen; lia |].
    exists (Pandas.sort_values CollectorV2.row_le (concat (df :: all_data0))).
    split; [| split].
    + cbn [RunV2.write RunV2.csv_files RunV2.save_data].
      apply lookup_insert_eq.
    + apply sort_values_v2_sorted.
    + intros r Hr. apply sort_values_In in Hr. now apply Hlisting, Hrows.
Qed.

Lemma collect_historical_data_v2_dataset_witness :
  let sys' :=
    snd (RunV2.collect_historical_data 3 Examples.twice_limited_world
           Extra.example_exchange_v2 365 (RunV2.start ∅ None)) in
  RunV2.mapping_file sys'
    = Some (CollectorV2.symbol_mapping (RunV2.collector_of sys')) /\
  exists file,
    RunV2.csv_files sys' !! Extra.historical_file = Some file /\
    StronglySorted (fun r1 r2 => CollectorV2.row_le r1 r2 = true) file.
Proof.
  destruct (collect_historical_data_v2_dataset 3 Examples.twice_limited_world
              Extra.example_exchange_v2 365 (RunV2.start ∅ None) _
              1 ["FAKEUSDT"] eq_refl)
    as (_ & Hmapping & _ & _ & Hfile).
  - vm_compute. reflexivity.
  - split; [exact Hmapping |].
    destruct Hfile as (file & Hfile & Hsorted & _); [lia |].
    exists file. split; [exact Hfile | exact Hsorted].
Defined.

(** X27. With a provider that never answers 429 to a market-chart request
    the v2 historical collection returns, whatever the exchange lists and
    however small the bound on the fetcher's recursion: no pair can make
    it retry. *)
Theorem collect_historical_data_v2_returns
    (fuel : nat) (w : CollectorV2.world) (x : RunV2.exchange) (days : Z)
    (sys : RunV2.system) :
  (forall k id,
     CollectorV2.get_market_chart w k id days <> CollectorV2.HttpError 429) ->
  exists report,
    fst (RunV2.collect_historical_data (S fuel) w x days sys)
      = Run.Returned report.
Proof.
  intros Hcalm.
  unfold RunV2.collect_historical_data, RunV2.get_binance_spot_pairs.
  destruct (RunV2.exchange_info x (RunV2.exchange_requests sys))
    as [symbols|]; [| cbn; eauto].
  destruct (map _ (List.filter RunV2.is_usdt_pair symbols))
    as [|pair_info rest]; [cbn; eauto |].
  rewrite lift_v2_eq. cbv beta iota zeta.
  match goal with
  | |- context [RunV2.pairs_loop (S fuel) w days ?m ?ps ?a ?n ?f ?st] =>
      destruct (pairs_loop_returns fuel w days m ps Hcalm a n f st)
        as ([[all_data successful_pairs] failed_pairs] & Hret);
      destruct (RunV2.pairs_loop (S fuel) w days m ps a n f st)
        as [result sys3]
  end.
  cbn [fst] in Hret. subst result. cbn. eauto.
Qed.

Lemma collect_historical_data_v2_returns_witness :
  exists report,
    fst (RunV2.collect_historical_data 1 Extra.calm_world_v2
           Extra.example_exchange_v2 365 (RunV2.start ∅ None))
      = Run.Returned report.
Proof.
  apply (collect_historical_data_v2_returns 0 Extra.calm_world_v2
           Extra.example_exchange_v2 365 (RunV2.start ∅ None)).
  intros k id. simpl. discriminate.
Defined.

(** X28. The two drivers of [crypto_collector_v2.py] do not meet: on an
    output directory without [crypto_data.csv], a daily update that
    follows a historical collection, however that one ended, does
    nothing at all. It sends no request and changes no file, because the
    historical collection saves under other names than the one the
    update looks for. *)
Theorem collect_daily_update_v2_after_historical
    (sort_values_date : list CollectorV2.chart_row -> list CollectorV2.chart_row)
    (fuel fuel' : nat) (w w' : CollectorV2.world) (x : RunV2.exchange)
    (days : Z) (sys : RunV2.system) :
  RunV2.csv_files sys !! Extra.daily_file = None ->
  let sys1 := snd (RunV2.collect_historical_data fuel w x days sys) in
  RunV2.collect_daily_update sort_values_date fuel' w' sys1
  = (Run.Returned tt, sys1).
Proof.
  intros Habsent. cbv zeta. unfold RunV2.collect_daily_update.
  change "crypto_data.csv" with Extra.daily_file.
  rewrite collect_historical_data_frame, Habsent; [reflexivity | |].
  - discriminate.
  - intros k Heq. symmetry in Heq. now apply checkpoint_file_not_daily in Heq.
Qed.

Lemma collect_daily_update_v2_after_historical_witness :
  let sys1 :=
    snd (RunV2.collect_historical_data 3 Examples.twice_limited_world
           Extra.example_exchange_v2 365 (RunV2.start ∅ None)) in
  RunV2.collect_daily_update Extra.stable_sort_date 3
    Examples.twice_limited_world sys1
  = (Run.Returned tt, sys1).
Proof.
  apply (collect_daily_update_v2_after_historical Extra.stable_sort_date 3 3
           Examples.twice_limited_world Examples.twice_limited_world
           Extra.example_exchange_v2 365 (RunV2.start ∅ None)).
  reflexivity.
Defined.

(** X29. What a v2 daily update does to an existing [crypto_data.csv],
    whatever the provider answers, whichever row the date sort puts
    last, and whether the update returns or raises. No other file, the
    mapping file and the symbol cache included, is changed. The dataset
    stays in place: it is either the old one or a frame with one row per
    [(date, symbol)] key, sorted by [(symbol, date)]. No key of the old
    dataset is lost, and no pair is added: every row afterwards carries
    the symbol, base asset and provider id of some row of the old
    dataset. *)
Theorem collect_daily_update_v2_file
    (sort_values_date : list CollectorV2.chart_row -> list CollectorV2.chart_row)
    (fuel : nat) (w : CollectorV2.world) (sys : RunV2.system)
    (existing_df : list CollectorV2.row) :
  RunV2.csv_files sys !! Extra.daily_file = Some existing_df ->
  let sys' := snd (RunV2.collect_daily_update sort_values_date fuel w sys) in
  (forall name, name <> Extra.daily_file ->
     RunV2.csv_files sys' !! name = RunV2.csv_files sys !! name) /\
  RunV2.mapping_file sys' = RunV2.mapping_file sys /\
  CollectorV2.symbol_mapping (RunV2.collector_of sys')
    = CollectorV2.symbol_mapping (RunV2.collector_of sys) /\
  exists file,
    RunV2.csv_files sys' !! Extra.daily_file = Some file /\
    (file = existing_df \/
     (List.NoDup (map CollectorV2.row_key file) /\
      StronglySorted (fun r1 r2 => CollectorV2.row_le r1 r2 = true) file)) /\
    (forall r, In r existing_df ->
       In (CollectorV2.row_key r) (map CollectorV2.row_key file)) /\
    (forall r, In r file -> Extra.pair_known existing_df r).
Proof.
  intros Hfile. cbv zeta. unfold RunV2.collect_daily_update.
  change "crypto_data.csv" with Extra.daily_file. rewrite Hfile.
  set (pairs := RunV2.drop_duplicates_first
                  (map RunV2.pair_columns existing_df)).
  destruct (updates_loop_effects sort_values_date fuel w pairs [] 0 sys)
    as (Hfiles & Hmapping & Hcache & Hrows). cbv zeta in Hrows.
  destruct (RunV2.updates_loop sort_values_date fuel w pairs [] 0 sys)
    as [result sys1]. cbn [fst snd] in Hfiles, Hmapping, Hcache, Hrows.
  assert (forall r, In r existing_df -> Extra.pair_known existing_df r)
    as Hknown by (intros r Hr; now apply in_map).
  assert (exists file,
            RunV2.csv_files sys1 !! Extra.daily_file = Some file /\
            (file = existing_df \/
             (List.NoDup (map CollectorV2.row_key file) /\
              StronglySorted
                (fun r1 r2 => CollectorV2.row_le r1 r2 = true) file)) /\
            (forall r, In r existing_df ->
               In (CollectorV2.row_key r) (map CollectorV2.row_key file)) /\
            (forall r, In r file -> Extra.pair_known existing_df r))
    as Hunchanged.
  { exists existing_df. rewrite Hfiles, Hfile.
    split; [reflexivity |]. split; [now left |].
    split; [intros r Hr; now apply in_map | exact Hknown]. }
  destruct result as [[new_data successful_updates]|];
    [destruct new_data as [|df new_data0] |]; cbn [snd];
    try (split; [intros name _; now rewrite Hfiles |];
         split; [exact Hmapping |]; split; [exact Hcache |];
         exact Hunchanged).
  cbn [RunV2.write RunV2.csv_files RunV2.mapping_file RunV2.collector_of].
  rewrite Hfiles.
  split; [intros name Hname; now rewrite lookup_insert_ne by congruence |].
  split; [exact Hmapping |]. split; [exact Hcache |].
  exists (CollectorV2.merge_daily existing_df (concat (df :: new_data0))).
  split; [apply lookup_insert_eq |].
  split; [right; split; [apply merged_NoDup | apply merge_daily_sorted] |].
  split.
  - intros r Hr. unfold CollectorV2.merge_daily.
    apply in_map_iff.
    assert (In (CollectorV2.row_key r)
              (map CollectorV2.row_key
                 (Pandas.drop_duplicates_last CollectorV2.row_key
                    (existing_df ++ concat (df :: new_data0))))) as Hkey.
    { apply drop_duplicates_last_keys, in_map, in_app_iff. now left. }
    apply in_map_iff in Hkey as (r' & Hk & Hin).
    exists r'. split; [exact Hk |]. now apply sort_values_In.
  - intros r Hr. apply merged_In, last_with_key_Some in Hr as [_ Hr].
    apply in_app_iff in Hr as [Hr | Hr]; [now apply Hknown |].
    destruct (Hrows _ _ eq_refl r Hr) as [[] | Hpair].
    now apply drop_duplicates_first_In in Hpair.
Qed.

Lemma collect_daily_update_v2_file_witness :
  let sys :=
    RunV2.start (<[Extra.daily_file := Extra.old_dataset]> ∅) None in
  let sys' :=
    snd (RunV2.collect_daily_update Extra.stable_sort_date 3
           Examples.twice_limited_world sys) in
  RunV2.mapping_file sys' = RunV2.mapping_file sys /\
  exists file,
    RunV2.csv_files sys' !! Extra.daily_file = Some file /\
    (forall r, In r file -> Extra.pair_known Extra.old_dataset r).
Proof.
  destruct (collect_daily_update_v2_file Extra.stable_sort_date 3
              Examples.twice_limited_world
              (RunV2.start (<[Extra.daily_file := Extra.old_dataset]> ∅) None)
              Extra.old_dataset)
    as (_ & Hmapping & _ & file & Hfile & _ & _ & Hpairs).
  - reflexivity.
  - split; [exact Hmapping |]. exists file.
    split; [exact Hfile | exact Hpairs].
Defined.

(** X30. A historical collection over a window that has no start,
    [datetime.now()] minus [days] days being no date, never calls the
    exchange for klines: for every requested symbol the clock is read,
    the overflow is caught inside [get_historical_klines] and the symbol
    is reported as failed. Nothing is written, the market-data provider
    is not contacted, and the pause after each symbol is still made. *)
Theorem collect_historical_data_window_overflow
    (to_float : string -> option Py.float) (w : Collector.world)
    (x : Run.exchange) (data_dir : string) (days : Z)
    (max_symbols : option Z) (symbols : list string) (sys : Run.system) :
  symbols <> [] ->
  Extra.window_never w days ->
  let run :=
    Run.collect_historical_data to_float w x data_dir days max_symbols
      (Some symbols) sys in
  fst run = Run.Returned (symbols, []) /\
  Run.disk_of (snd run) = Run.disk_of sys /\
  Run.client_log (snd run) =
    Run.client_log sys ++ repeat (Run.Pause (1 # 2)) (length symbols) /\
  Collector.log (Run.collector_of (snd run)) =
    Collector.log (Run.collector_of sys)
    ++ repeat Collector.EvNow (length symbols).
Proof.
  intros Hne Hnever. cbv zeta. unfold Run.collect_historical_data.
  destruct symbols as [|s0 rest]; [congruence |]. set (symbols := s0 :: rest).
  destruct (historical_loop_overflow to_float w data_dir days symbols Hnever
              1 [] [] sys) as (Hres & Hdisk & Hclient & Hlog).
  destruct (Run.historical_loop to_float w data_dir days symbols 1 [] [] [] sys)
    as [state sys2].
  cbn [fst snd] in Hres, Hdisk, Hlog, Hclient. subst state.
  cbn [fst snd]. auto.
Qed.

Lemma collect_historical_data_window_overflow_witness :
  let run :=
    Run.collect_historical_data Py.float_of_decimal Extra.single_candle_world
      Extra.example_exchange "data" 800000 None (Some ["BTCUSDT"; "ETHUSDT"])
      (Run.start ∅) in
  fst run = Run.Returned (["BTCUSDT"; "ETHUSDT"], []) /\
  Run.disk_of (snd run) = Run.disk_of (Run.start ∅) /\
  Run.client_log (snd run) =
    Run.client_log (Run.start ∅) ++ repeat (Run.Pause (1 # 2)) 2 /\
  Collector.log (Run.collector_of (snd run)) =
    Collector.log (Run.collector_of (Run.start ∅))
    ++ repeat Collector.EvNow 2.
Proof.
  apply (collect_historical_data_window_overflow Py.float_of_decimal
           Extra.single_candle_world Extra.example_exchange "data" 800000 None
           ["BTCUSDT"; "ETHUSDT"] (Run.start ∅)).
  - discriminate.
  - intros t. reflexivity.
Defined.
